(** * OpenUI5: ODataMetaModel (OData v4 meta model) and AdditionalElementsPlugin

    A shallow embedding of
    - [sap.ui.model.odata.v4.ODataMetaModel]: [requestObject],
      [requestMetaContext], [requestCanonicalUrl], [requestUI5Type];
    - [sap.ui.rta.plugin.additionalElements.AdditionalElementsPlugin]:
      [_getActions] and the reveal computation, [_createCommands],
      [isEnabled], [getMenuItems];
    together with the properties their documentation states. *)

From Stdlib Require Import String Ascii List ZArith Bool Arith Lia.
From Stdlib Require Import Decimal DecimalString Sorting.Sorted Sorting.Permutation.
From Stdlib Require DecimalNat.
Import ListNotations.
Local Open Scope list_scope.
Local Open Scope string_scope.
#[local] Set Warnings "-register-all".

(* ================================================================== *)
(** * The JavaScript fragment the two files are written in *)
(* ================================================================== *)

Module Js.

(** JSON-like values: the meta data documents and everything computed from
    them.  An object is the list of its own enumerable properties in
    insertion order; where a key is repeated the first binding is the
    property.  Numbers are integers (no meta data number is a fraction).
    Properties inherited from [Object.prototype] are not modelled. *)
Inductive value : Type :=
| VUndefined
| VNull
| VBool (b : bool)
| VNum (n : Z)
| VStr (s : string)
| VArr (items : list value)
| VObj (fields : list (string * value)).

(** What a [throw] carries: [new Error(msg)], or the [TypeError] the
    language itself raises (its message depends on the engine). *)
Inductive exn : Type :=
| Error (msg : string)
| TypeError.

(** The message of an exception where it has a portable one. *)
Definition message (e : exn) : option string :=
  match e with
  | Error msg => Some msg
  | TypeError => None
  end.

(** Outcome of running synchronous code. *)
Inductive completion (A : Type) : Type :=
| Throw (e : exn)
| Return (a : A).
Arguments Throw {A} e.
Arguments Return {A} a.

Definition cbind {A B} (c : completion A) (k : A -> completion B) : completion B :=
  match c with
  | Throw e => Throw e
  | Return a => k a
  end.

(** ** Strings *)

Definition is_digit (c : ascii) : bool :=
  let n := nat_of_ascii c in ((48 <=? n) && (n <=? 57))%nat.

(** The class [\w] of a regular expression: [[A-Za-z0-9_]]. *)
Definition is_word_char (c : ascii) : bool :=
  let n := nat_of_ascii c in
  (((48 <=? n) && (n <=? 57)) || ((65 <=? n) && (n <=? 90))
   || ((97 <=? n) && (n <=? 122)) || (n =? 95))%nat.

Fixpoint string_forall (p : ascii -> bool) (s : string) : bool :=
  match s with
  | EmptyString => true
  | String c r => p c && string_forall p r
  end.

(** Longest prefix of [s] whose characters satisfy [p], and the rest. *)
Fixpoint span (p : ascii -> bool) (s : string) : string * string :=
  match s with
  | EmptyString => (EmptyString, EmptyString)
  | String c r =>
      if p c then let '(a, b) := span p r in (String c a, b)
      else (EmptyString, s)
  end.

(** The one-character string made of a double quote. *)
Definition dquote : string := String (ascii_of_nat 34) EmptyString.

Definition nat_to_string (n : nat) : string :=
  NilZero.string_of_uint (Nat.to_uint n).

Definition Z_to_string (n : Z) : string :=
  NilZero.string_of_int (Z.to_int n).

(** [Some i] when [k] is the canonical decimal spelling of [i], which is
    when JavaScript treats the property key [k] as an array index. *)
Definition array_index (k : string) : option nat :=
  match NilZero.uint_of_string k with
  | Some d =>
      let i := Nat.of_uint d in
      if String.eqb (nat_to_string i) k then Some i else None
  | None => None
  end.

(** ** Objects *)

Fixpoint lookup (k : string) (fields : list (string * value)) : option value :=
  match fields with
  | [] => None
  | (k', v) :: rest => if String.eqb k k' then Some v else lookup k rest
  end.

(** [oObject[sKey] = vValue] on an object's property list. *)
Fixpoint assign (k : string) (v : value) (fields : list (string * value))
  : list (string * value) :=
  match fields with
  | [] => [(k, v)]
  | (k', v') :: rest =>
      if String.eqb k k' then (k', v) :: rest else (k', v') :: assign k v rest
  end.

(** [v[k]] (also written [v.k]). *)
Definition get (v : value) (k : string) : completion value :=
  match v with
  | VUndefined | VNull => Throw TypeError
  | VObj fields =>
      Return (match lookup k fields with Some x => x | None => VUndefined end)
  | VArr items =>
      Return (if String.eqb k "length" then VNum (Z.of_nat (List.length items))
              else match array_index k with
                   | Some i => nth i items VUndefined
                   | None => VUndefined
                   end)
  | VStr s =>
      Return (if String.eqb k "length" then VNum (Z.of_nat (String.length s))
              else match array_index k with
                   | Some i => match String.get i s with
                               | Some c => VStr (String c EmptyString)
                               | None => VUndefined
                               end
                   | None => VUndefined
                   end)
  | VBool _ | VNum _ => Return VUndefined
  end.

(** [k in v]: a [TypeError] unless [v] is an object or an array. *)
Definition has (k : string) (v : value) : completion bool :=
  match v with
  | VObj fields => Return (existsb (String.eqb k) (map fst fields))
  | VArr items =>
      Return (String.eqb k "length"
              || match array_index k with
                 | Some i => (i <? List.length items)%nat
                 | None => false
                 end)
  | _ => Throw TypeError
  end.

(** [Object.keys(v)] (ECMAScript 2015: a primitive is converted to an
    object first; [null] and [undefined] cannot be). *)
Definition keys (v : value) : completion (list string) :=
  match v with
  | VUndefined | VNull => Throw TypeError
  | VObj fields => Return (nodup string_dec (map fst fields))
  | VArr items => Return (map nat_to_string (seq 0 (List.length items)))
  | VStr s => Return (map nat_to_string (seq 0 (String.length s)))
  | VBool _ | VNum _ => Return []
  end.

(** ToBoolean. *)
Definition truthy (v : value) : bool :=
  match v with
  | VUndefined | VNull => false
  | VBool b => b
  | VNum n => negb (Z.eqb n 0)
  | VStr s => negb (String.eqb s "")
  | VArr _ | VObj _ => true
  end.

(** [typeof v === "object"]. *)
Definition typeof_object (v : value) : bool :=
  match v with
  | VNull | VArr _ | VObj _ => true
  | _ => false
  end.

(** [Array.isArray(v)]. *)
Definition isArray (v : value) : bool :=
  match v with
  | VArr _ => true
  | _ => false
  end.

(** ToString, as string concatenation applies it. *)
Fixpoint to_str (v : value) : string :=
  match v with
  | VUndefined => "undefined"
  | VNull => "null"
  | VBool true => "true"
  | VBool false => "false"
  | VNum n => Z_to_string n
  | VStr s => s
  | VArr items =>
      (fix join (l : list value) : string :=
         match l with
         | [] => ""
         | x :: r =>
             let sx := match x with
                       | VUndefined | VNull => ""
                       | _ => to_str x
                       end in
             match r with
             | [] => sx
             | _ :: _ => sx ++ "," ++ join r
             end
         end) items
  | VObj _ => "[object Object]"
  end.

(** ** Promises

    A promise is described by the state it settles in (or [Pending] when it
    never settles) together with the requests for navigation target types
    that were issued on the way. *)
Inductive settled (A : Type) : Type :=
| Pending
| Rejected (e : exn)
| Fulfilled (a : A).
Arguments Pending {A}.
Arguments Rejected {A} e.
Arguments Fulfilled {A} a.

(** What becomes of a settled state under a callback that settles. *)
Definition sbind {A B} (s : settled A) (k : A -> settled B) : settled B :=
  match s with
  | Pending => Pending
  | Rejected e => Rejected e
  | Fulfilled a => k a
  end.

(** A completion as the state of the promise whose callback it ends. *)
Definition settle {A} (c : completion A) : settled A :=
  match c with
  | Throw e => Rejected e
  | Return a => Fulfilled a
  end.

(** One invocation of [Helper.requestTypeForNavigationProperty(that,
    oObject, sProperty)]. *)
Record type_request : Type := TypeRequest {
  req_object : value;
  req_property : string
}.

Definition promise (A : Type) : Type := (list type_request * settled A)%type.

Definition requests {A} (p : promise A) : list type_request := fst p.
Definition state {A} (p : promise A) : settled A := snd p.

(** [Promise.resolve(a)], or returning [a] from a [then] callback. *)
Definition resolve {A} (a : A) : promise A := ([], Fulfilled a).

(** A [throw] inside a [then] callback. *)
Definition reject {A} (e : exn) : promise A := ([], Rejected e).

(** A promise handed out by a collaborator. *)
Definition external {A} (s : settled A) : promise A := ([], s).

(** [p.then(k)]: the callback's own promise is adopted. *)
Definition andThen {A B} (p : promise A) (k : A -> promise B) : promise B :=
  match snd p with
  | Pending => (fst p, Pending)
  | Rejected e => (fst p, Rejected e)
  | Fulfilled a => let q := k a in ((fst p ++ fst q)%list, snd q)
  end.

(** A callback that calls a function which may throw before it returns
    its promise: the [then] turns the exception into a rejection. *)
Definition called {A} (c : completion (promise A)) : promise A :=
  match c with
  | Throw e => reject e
  | Return p => p
  end.

(** A synchronous computation inside a callback. *)
Definition lift {A} (c : completion A) : promise A :=
  match c with
  | Throw e => reject e
  | Return a => resolve a
  end.

(** [Promise.all([p, q])].  When both reject, the one that rejects first
    wins; [left_first] says whether that is [p]. *)
Definition all2 {A B} (left_first : bool) (p : promise A) (q : promise B)
  : promise (A * B) :=
  ((fst p ++ fst q)%list,
   match snd p, snd q with
   | Fulfilled a, Fulfilled b => Fulfilled (a, b)
   | Rejected e, Rejected e' => Rejected (if left_first then e else e')
   | Rejected e, _ => Rejected e
   | _, Rejected e => Rejected e
   | _, _ => Pending
   end).

End Js.

Declare Scope promise_scope.
Delimit Scope promise_scope with promise.
Notation "'let!' x ':=' p 'in' k" := (Js.andThen p (fun x => k))
  (at level 10, x pattern, p at level 100, k at level 200) : promise_scope.
Notation "'try!' x ':=' c 'in' k" := (Js.andThen (Js.lift c) (fun x => k))
  (at level 10, x pattern, c at level 100, k at level 200) : promise_scope.
Notation "'do!' x ':=' c 'in' k" := (Js.cbind c (fun x => k))
  (at level 10, x pattern, c at level 100, k at level 200) : promise_scope.

(* ================================================================== *)
(** * sap.ui.model.odata.v4.ODataMetaModel *)
(* ================================================================== *)

Module ODataMetaModel.
Import Js.
Local Open Scope promise_scope.

(** [sap.ui.model.Context], as far as the meta model uses it: the path it
    was created for. *)
Record Context : Type := { getPath : string }.

(** Modelled from the spec: [getContext] of the base class
    [sap.ui.model.MetaModel] is not part of the sources; the meta data
    context it hands out is "a context whose path is the accumulated meta
    path". *)
Definition getContext (sMetaPath : string) : Context := {| getPath := sMetaPath |}.

(** What [Helper.parseSegment] describes a path segment by. *)
Record Part : Type := {
  segment : string;
  property : string;
  name : option string
}.

(** The collaborators of the meta model: [_ODataHelper] (imported as
    [Helper]), [resolve] of the base class and the global
    [encodeURIComponent].  None of them is part of the sources, so the
    meta model is embedded over any implementation of them.  The two
    requests hand out promises; [requestTypeForNavigationProperty] is only
    ever called from a [then] callback. *)
Class Helper : Type := {
  splitPath : string -> completion (list string);
  parseSegment : string -> completion Part;
  findInArray : value -> string -> value -> completion value;
  requestEntityContainer : settled value;
  requestTypeForNavigationProperty : value -> string -> settled value;
  getKeyPredicate : value -> value -> completion string;
  resolvePath : string -> option Context -> option string;
  encodeURIComponent : string -> string
}.

(** [rEntitySetName = /^(\w+)(\[|\(|$)/]: the first group of the match. *)
Definition rEntitySetName_exec (s : string) : option string :=
  let '(w, rest) := span is_word_char s in
  match w with
  | EmptyString => None
  | String _ _ =>
      match rest with
      | EmptyString => Some w
      | String c _ =>
          if Ascii.eqb c "["%char || Ascii.eqb c "("%char then Some w else None
      end
  end.

(** [rNumber = /^\d+$/]. *)
Definition rNumber_test (s : string) : bool :=
  negb (String.eqb s "") && string_forall is_digit s.

(** [function error(sError, sPath)]: the exception it throws. *)
Definition error (sError sPath : string) : exn :=
  Error (sError ++ ": " ++ sPath).

Section WithHelper.
Context {H : Helper}.

(** Whether the promise of [fnRead] settles before the promise of the
    meta context does ([requestCanonicalUrl] waits for both). *)
Variable bReadSettlesFirst : bool.

(** [Helper.requestTypeForNavigationProperty(that, oObject, sProperty)];
    the invocation is recorded. *)
Definition requestType (oObject : value) (sProperty : string) : promise value :=
  ([TypeRequest oObject sProperty],
   requestTypeForNavigationProperty oObject sProperty).

(** ** requestObject *)

(** [function unknown(sSegment)] of [requestObject]. *)
Definition unknown (sPath sSegment : string) : exn :=
  error ("Unknown " ++ sSegment) sPath.

(** [if (oPart.name)]. *)
Definition hasName (oPart : Part) : option string :=
  match name oPart with
  | Some EmptyString => None
  | other => other
  end.

(** [typeof oNextObject === "object" && !Array.isArray(oNextObject)
    && Object.keys(oNextObject).length === 1]: "type navigation property
    not resolved yet". *)
Definition notResolvedYet (oNextObject : value) : completion bool :=
  if typeof_object oNextObject && negb (isArray oNextObject) then
    do! aKeys := keys oNextObject in
    Return (Nat.eqb (List.length aKeys) 1)
  else Return false.

(** [function followPath(oObject)] of [requestObject]; [aSegments] is
    what [aSegments.shift()] has left. *)
Fixpoint requestObject_followPath (sPath : string) (aSegments : list string) (oObject : value)
  : promise value :=
  match aSegments with
  | [] => resolve oObject
  | sSegment :: aSegments' =>
      try! oPart := parseSegment sSegment in
      try! bExists := has (property oPart) oObject in
      if negb bExists then reject (unknown sPath (segment oPart)) else
      try! oNextObject := get oObject (property oPart) in
      match hasName oPart with
      | Some sName =>
          if negb (isArray oNextObject) then
            reject (error (dquote ++ property oPart ++ dquote ++ " is not an array") sPath)
          else
            try! oFound := findInArray oNextObject "Name" (VStr sName) in
            if negb (truthy oFound) then reject (unknown sPath (segment oPart))
            else requestObject_followPath sPath aSegments' oFound
      | None =>
          try! bNotResolved := notResolvedYet oNextObject in
          if bNotResolved then
            let! oType := requestType oObject (property oPart) in
            requestObject_followPath sPath aSegments' oType
          else requestObject_followPath sPath aSegments' oNextObject
      end
  end.

(** [ODataMetaModel.prototype.requestObject]. *)
Definition requestObject (sPath : string) (oContext : option Context)
  : completion (promise value) :=
  match resolvePath sPath oContext with
  | None | Some EmptyString => Throw (error "Not an absolute path" sPath)
  | Some sResolvedPath =>
      do! aSegments := splitPath sResolvedPath in
      Return (let! oEntityContainer := external requestEntityContainer in
              requestObject_followPath sPath aSegments oEntityContainer)
  end.

(** ** requestMetaContext *)

(** [function findChild(oObject, aProperties, sName, bHidden)]: the
    child with the property it was found in, and [sMetaPath] as the
    function leaves it. *)
Fixpoint findChild (oObject : value) (aProperties : list string) (sName : value)
    (bHidden : bool) (sMetaPath : string)
  : completion (option (value * string) * string) :=
  match aProperties with
  | [] => Return (None, sMetaPath)
  | sProperty :: aProperties' =>
      do! bIn := has sProperty oObject in
      if bIn then
        do! aChildren := get oObject sProperty in
        do! oChild := findInArray aChildren "Name" sName in
        if truthy oChild then
          if bHidden then Return (Some (oChild, sProperty), sMetaPath)
          else
            do! vName := get oChild "Name" in
            Return (Some (oChild, sProperty),
                    sMetaPath ++ "/" ++ sProperty ++ "('" ++ to_str vName ++ "')")
        else findChild oObject aProperties' sName bHidden sMetaPath
      else findChild oObject aProperties' sName bHidden sMetaPath
  end.

(** [function findSetOrSingleton(oEntityContainer, sName, bHidden)]. *)
Definition findSetOrSingleton (sPath : string) (oEntityContainer : value)
    (sName : value) (bHidden : bool) (sMetaPath : string)
  : completion (value * string * string) :=
  do! oResult := findChild oEntityContainer ["EntitySets"; "Singletons"] sName
                   bHidden sMetaPath in
  match oResult with
  | (None, _) =>
      Throw (error ("No EntitySet or Singleton with name '" ++ to_str sName
                    ++ "' found") sPath)
  | (Some (oObject, sProperty), sMetaPath') => Return (oObject, sProperty, sMetaPath')
  end.

(** [if (rNumber.test(aSegments[i])) { i += 1; }] on the segments from
    index [i] on: "skip index in data path". *)
Definition skipIndex (aSegments : list string) : list string :=
  match aSegments with
  | sSegment :: aSegments' => if rNumber_test sSegment then aSegments' else aSegments
  | [] => aSegments
  end.

(** [function followPath(oType)] of [requestMetaContext]; [aSegments]
    are the segments from index [i] on. *)
Fixpoint requestMetaContext_followPath (sPath : string) (aSegments : list string) (oType : value)
    (sMetaPath : string) : promise string :=
  match aSegments with
  | [] => resolve sMetaPath
  | sSegment :: aSegments' =>
      if String.eqb sSegment "" then resolve sMetaPath else
      try! oResult := findChild oType ["Properties"; "NavigationProperties"]
                        (VStr sSegment) false sMetaPath in
      match oResult with
      | (None, _) =>
          try! vQualifiedName := get oType "QualifiedName" in
          reject (error ("Unknown property: " ++ to_str vQualifiedName ++ "/"
                         ++ sSegment) sPath)
      | (Some (oProperty, _), sMetaPath1) =>
          let aRest :=
            match aSegments' with
            | sIndex :: aSegments'' =>
                if rNumber_test sIndex then aSegments'' else aSegments'
            | [] => aSegments'
            end in
          match aRest with
          | [] => resolve sMetaPath1
          | sNext :: _ =>
              if String.eqb sNext "" then resolve sMetaPath1 else
              let sMetaPath2 := sMetaPath1 ++ "/Type" in
              try! oPropertyType := get oProperty "Type" in
              try! aKeys := keys oPropertyType in
              if Nat.eqb (List.length aKeys) 1 then
                let! oLoaded := requestType oProperty "Type" in
                requestMetaContext_followPath sPath aRest oLoaded sMetaPath2
              else requestMetaContext_followPath sPath aRest oPropertyType sMetaPath2
          end
      end
  end.

(** The loop of the callback in [requestMetaContext]: "follow the
    NavigationPropertyBindings in EntitySets/Singletons until a
    structural property".  [aSegments] are the segments after index [i];
    [oObject] and [sFoundIn] are [oResult.object] and
    [oResult.property]. *)
Fixpoint followBindings (sPath : string) (oEntityContainer : value)
    (aSegments : list string) (oObject : value) (sFoundIn : string)
    (sMetaPath : string) : promise string :=
  let sProperty := if String.eqb sFoundIn "EntitySets" then "EntityType" else "Type" in
  let aRest :=
    match aSegments with
    | sIndex :: aSegments' => if rNumber_test sIndex then aSegments' else aSegments
    | [] => aSegments
    end in
  match aRest with
  | [] => resolve sMetaPath
  | sSegment :: aRest' =>
      if String.eqb sSegment "" then resolve sMetaPath else
      try! oNavigationResult := findChild oObject ["NavigationPropertyBindings"]
                                  (VStr sSegment) false sMetaPath in
      match oNavigationResult with
      | (None, _) =>
          let! oType := requestType oObject sProperty in
          requestMetaContext_followPath sPath aRest oType (sMetaPath ++ "/" ++ sProperty)
      | (Some (oBinding, _), sMetaPath1) =>
          try! oTarget := get oBinding "Target" in
          try! sName := get oTarget "Name" in
          if negb (truthy sName) then
            reject (error "Unsupported cross-service reference" sPath)
          else
            try! oResult := findSetOrSingleton sPath oEntityContainer sName true
                              sMetaPath1 in
            let '(oSet, sFoundIn', sMetaPath2) := oResult in
            followBindings sPath oEntityContainer aRest' oSet sFoundIn'
              (sMetaPath2 ++ "/Target")
      end
  end.

(** [ODataMetaModel.prototype.requestMetaContext]. *)
Definition requestMetaContext (sPath : string) : completion (promise Context) :=
  do! aSegments := splitPath sPath in
  match aSegments with
  | [] => Throw (error "Unsupported" sPath)
  | sFirst :: aSegments' =>
      match rEntitySetName_exec sFirst with
      | None => Throw (error "Unsupported" sPath)
      | Some sName =>
          Return
            (let! sMetaPath :=
               (let! oEntityContainer := external requestEntityContainer in
                try! oResult := findSetOrSingleton sPath oEntityContainer
                                  (VStr sName) false "" in
                let '(oSet, sFoundIn, sMetaPath) := oResult in
                followBindings sPath oEntityContainer aSegments' oSet sFoundIn
                  sMetaPath) in
             resolve (getContext sMetaPath))
      end
  end.

(** ** requestUI5Type *)

(** An entry of [mUi5TypeForEdmType]. *)
Record Ui5TypeInfo : Type := {
  type : string;
  facets : option (list (string * string))
}.

Definition mUi5TypeForEdmType : list (string * Ui5TypeInfo) :=
  [ ("Edm.Boolean", {| type := "sap.ui.model.odata.type.Boolean"; facets := None |});
    ("Edm.Byte", {| type := "sap.ui.model.odata.type.Byte"; facets := None |});
    ("Edm.Date", {| type := "sap.ui.model.odata.type.Date"; facets := None |});
    ("Edm.Decimal", {| type := "sap.ui.model.odata.type.Decimal";
                       facets := Some [("Precision", "precision"); ("Scale", "scale")] |});
    ("Edm.Double", {| type := "sap.ui.model.odata.type.Double"; facets := None |});
    ("Edm.Guid", {| type := "sap.ui.model.odata.type.Guid"; facets := None |});
    ("Edm.Int16", {| type := "sap.ui.model.odata.type.Int16"; facets := None |});
    ("Edm.Int32", {| type := "sap.ui.model.odata.type.Int32"; facets := None |});
    ("Edm.Int64", {| type := "sap.ui.model.odata.type.Int64"; facets := None |});
    ("Edm.SByte", {| type := "sap.ui.model.odata.type.SByte"; facets := None |});
    ("Edm.Single", {| type := "sap.ui.model.odata.type.Single"; facets := None |});
    ("Edm.String", {| type := "sap.ui.model.odata.type.String";
                      facets := Some [("MaxLength", "maxLength")] |}) ].

(** Lookup in a map with string keys, as [m[k]] and [k in m] do. *)
Fixpoint mapGet {A : Type} (k : string) (m : list (string * A)) : option A :=
  match m with
  | [] => None
  | (k', a) :: m' => if String.eqb k k' then Some a else mapGet k m'
  end.

(** Modelled from the spec: the classes of [sap.ui.model.odata.type] are
    not part of the sources.  "The corresponding UI5 type object" is
    described by the class that was instantiated and the two arguments
    of the constructor: the format options and "the constraints object
    passed to the type constructor", [None] when it is [undefined]. *)
Record UI5Type : Type := {
  sClass : string;
  oFormatOptions : list (string * value);
  oConstraints : option (list (string * value))
}.

(** [function setConstraint(sKey, vValue)]: [oConstraints] afterwards. *)
Definition setConstraint (oConstraints : option (list (string * value)))
    (sKey : string) (vValue : value) : option (list (string * value)) :=
  Some (assign sKey vValue (match oConstraints with
                            | Some fields => fields
                            | None => []
                            end)).

(** The body of the loop over [oProperty.Facets] for one [oFacet]. *)
Definition facetConstraint (oUi5Type : Ui5TypeInfo) (oFacet : value)
    (oConstraints : option (list (string * value)))
  : completion (option (list (string * value))) :=
  match facets oUi5Type with
  | None => Return oConstraints
  | Some mFacets =>
      do! vName := get oFacet "Name" in
      match mapGet (to_str vName) mFacets with
      | None => Return oConstraints
      | Some sKey =>
          do! vValue := get oFacet "Value" in
          Return (setConstraint oConstraints sKey vValue)
      end
  end.

(** [for (i = 0; i < oProperty.Facets.length; i++)] from index [i] on,
    [n] iterations being left. *)
Fixpoint facetLoop (oUi5Type : Ui5TypeInfo) (aFacets : value) (n i : nat)
    (oConstraints : option (list (string * value)))
  : completion (option (list (string * value))) :=
  match n with
  | O => Return oConstraints
  | S n' =>
      do! oFacet := get aFacets (nat_to_string i) in
      do! oConstraints' := facetConstraint oUi5Type oFacet oConstraints in
      facetLoop oUi5Type aFacets n' (S i) oConstraints'
  end.

(** How often the loop runs: [oProperty.Facets.length] where it is a
    number (a length that is not a number is not converted to one:
    the loop does not run). *)
Definition facetCount (aFacets : value) : completion nat :=
  do! vLength := get aFacets "length" in
  Return (match vLength with
          | VNum n => Z.to_nat n
          | _ => O
          end).

(** The last callback of [requestUI5Type], given [oProperty]. *)
Definition ui5TypeForProperty (sPath : string) (oProperty : value)
  : completion UI5Type :=
  do! bType := has "Type" oProperty in
  do! bFacets := has "Facets" oProperty in
  do! bNullable := has "Nullable" oProperty in
  if negb bType || negb bFacets || negb bNullable then
    Throw (error "No property" sPath)
  else
    do! oType := get oProperty "Type" in
    do! vQualifiedName := get oType "QualifiedName" in
    match mapGet (to_str vQualifiedName) mUi5TypeForEdmType with
    | None =>
        Throw (error ("Unsupported EDM type: " ++ to_str vQualifiedName) sPath)
    | Some oUi5Type =>
        do! aFacets := get oProperty "Facets" in
        do! n := facetCount aFacets in
        do! oConstraints1 := facetLoop oUi5Type aFacets n 0 None in
        do! vNullable := get oProperty "Nullable" in
        let oConstraints2 :=
          if negb (truthy vNullable)
          then setConstraint oConstraints1 "nullable" (VBool false)
          else oConstraints1 in
        Return {| sClass := type oUi5Type;
                  oFormatOptions := [];
                  oConstraints := oConstraints2 |}
    end.

(** [ODataMetaModel.prototype.requestUI5Type]. *)
Definition requestUI5Type (sPath : string) : completion (promise UI5Type) :=
  do! oMetaContextPromise := requestMetaContext sPath in
  Return (let! oProperty :=
            (let! oMetaContext := oMetaContextPromise in
             called (requestObject "" (Some oMetaContext))) in
          lift (ui5TypeForProperty sPath oProperty)).

(** ** requestCanonicalUrl *)

(** [ODataMetaModel.prototype.requestCanonicalUrl]. *)
Definition requestCanonicalUrl (sServiceUrl sPath : string)
    (fnRead : string -> bool -> completion (settled value))
  : completion (promise string) :=
  do! oReadPromise := fnRead sPath true in
  do! oMetaContextPromise := requestMetaContext sPath in
  Return
    (let! aValues := all2 bReadSettlesFirst (external oReadPromise)
                       oMetaContextPromise in
     let '(oEntityInstance, oMetaContext) := aValues in
     let! oEntitySet := called (requestObject "" (Some oMetaContext)) in
     try! vEntityType := get oEntitySet "EntityType" in
     if negb (truthy vEntityType) then reject (error "Not an entity" sPath)
     else
       let! oEntityType := called (requestObject "EntityType" (Some oMetaContext)) in
       try! vName := get oEntitySet "Name" in
       try! sKeyPredicate := getKeyPredicate oEntityType oEntityInstance in
       resolve (sServiceUrl ++ encodeURIComponent (to_str vName) ++ sKeyPredicate)).

End WithHelper.
End ODataMetaModel.

(* ================================================================== *)
(** * A service to run the meta model on *)
(* ================================================================== *)

Module Service.
Import Js ODataMetaModel.
Local Open Scope promise_scope.

(** ** An implementation of the collaborators

    [_ODataHelper] and the base class are not part of the sources; the
    functions below are one implementation of them, used to evaluate the
    meta model on concrete meta data.  Every statement about the meta model
    is proved for any implementation. *)

(** [s.split(c)]. *)
Fixpoint split (c : ascii) (s : string) : list string :=
  match s with
  | EmptyString => [EmptyString]
  | String a r =>
      if Ascii.eqb a c then EmptyString :: split c r
      else match split c r with
           | [] => [String a EmptyString]
           | w :: ws => String a w :: ws
           end
  end.

Definition splitPath (sPath : string) : completion (list string) :=
  match sPath with
  | String "/" r => Return (split "/" r)
  | _ => Throw (Error ("Not an absolute path: " ++ sPath))
  end.

(** Removes the suffix [suf] from [s]. *)
Definition dropSuffix (suf s : string) : option string :=
  let n := String.length s - String.length suf in
  if String.eqb (substring n (String.length suf) s) suf
     && (String.length suf <=? String.length s)%nat
  then Some (substring 0 n s) else None.

(** A segment [Property('Name')] has the property and the name; any other
    segment is the property. *)
Definition parseSegment (sSegment : string) : completion Part :=
  let '(w, rest) := span is_word_char sSegment in
  Return
    match rest with
    | String "(" (String "'" r) =>
        match dropSuffix "')" r with
        | Some n => {| segment := sSegment; property := w; name := Some n |}
        | None => {| segment := sSegment; property := sSegment; name := None |}
        end
    | _ => {| segment := sSegment; property := sSegment; name := None |}
    end.

(** [a === b] on primitive values (two objects are never the same here). *)
Definition strictEquals (a b : value) : bool :=
  match a, b with
  | VUndefined, VUndefined | VNull, VNull => true
  | VBool x, VBool y => Bool.eqb x y
  | VNum x, VNum y => Z.eqb x y
  | VStr x, VStr y => String.eqb x y
  | _, _ => false
  end.

(** The first element of [aArray] whose property [sProperty] is [vValue]. *)
Definition findInArray (aArray : value) (sProperty : string) (vValue : value)
  : completion value :=
  match aArray with
  | VArr items =>
      (fix find (l : list value) : completion value :=
         match l with
         | [] => Return VUndefined
         | x :: r =>
             do! v := get x sProperty in
             if strictEquals v vValue then Return x else find r
         end) items
  | _ => Throw TypeError
  end.

(** The type a navigation property names, out of the types of the
    service. *)
Definition requestTypeForNavigationProperty (mTypes : list (string * value))
    (oObject : value) (sProperty : string) : settled value :=
  match get oObject sProperty with
  | Throw e => Rejected e
  | Return oType =>
      match get oType "QualifiedName" with
      | Throw e => Rejected e
      | Return vName =>
          match lookup (to_str vName) mTypes with
          | Some oLoaded => Fulfilled oLoaded
          | None => Rejected (Error ("Unknown type: " ++ to_str vName))
          end
      end
  end.

(** A key predicate [(Key='value')] from the first key property. *)
Definition getKeyPredicate (oEntityType oEntityInstance : value) : completion string :=
  do! aKey := get oEntityType "Key" in
  do! oKey := get aKey "0" in
  do! vPath := get oKey "PropertyPath" in
  do! vValue := get oEntityInstance (to_str vPath) in
  Return ("(" ++ to_str vPath ++ "='" ++ to_str vValue ++ "')").

(** An absolute path is resolved to itself, a relative one is appended to
    the path of the context. *)
Definition resolvePath (sPath : string) (oContext : option Context) : option string :=
  match sPath, oContext with
  | String "/" _, _ => Some sPath
  | EmptyString, Some c => Some (getPath c)
  | _, Some c => Some (getPath c ++ "/" ++ sPath)
  | _, None => None
  end.

(** Unreserved characters are kept; no other character occurs in the
    names of the services below. *)
Definition encodeURIComponent (s : string) : string := s.

Definition helper (oEntityContainer : value) (mTypes : list (string * value))
  : Helper :=
  {| ODataMetaModel.splitPath := splitPath;
     ODataMetaModel.parseSegment := parseSegment;
     ODataMetaModel.findInArray := findInArray;
     ODataMetaModel.requestEntityContainer := Fulfilled oEntityContainer;
     ODataMetaModel.requestTypeForNavigationProperty :=
       requestTypeForNavigationProperty mTypes;
     ODataMetaModel.getKeyPredicate := getKeyPredicate;
     ODataMetaModel.resolvePath := resolvePath;
     ODataMetaModel.encodeURIComponent := encodeURIComponent |}.

(** ** The meta data of a small service *)

Definition ref (sQualifiedName : string) : value :=
  VObj [("QualifiedName", VStr sQualifiedName)].

Definition facet (sName sValue : string) : value :=
  VObj [("Name", VStr sName); ("Value", VStr sValue)].

Definition prop (sName sType : string) (aFacets : list value) (bNullable : bool)
  : value :=
  VObj [("Name", VStr sName); ("Type", ref sType); ("Facets", VArr aFacets);
        ("Nullable", VBool bNullable)].

Definition tWorker : value :=
  VObj [("QualifiedName", VStr "T.Worker");
        ("Key", VArr [VObj [("PropertyPath", VStr "ID")]]);
        ("Properties",
         VArr [prop "ID" "Edm.String" [facet "MaxLength" "4"] false;
               prop "AGE" "Edm.Int16" [] true;
               prop "SALARY" "Edm.Decimal"
                 [facet "Precision" "10"; facet "Scale" "2"] true;
               prop "ENTRYDATE" "Edm.DateTimeOffset" [] true]);
        ("NavigationProperties",
         VArr [VObj [("Name", VStr "EMPLOYEE_2_TEAM"); ("Type", ref "T.Team")]])].

Definition tTeam : value :=
  VObj [("QualifiedName", VStr "T.Team");
        ("Key", VArr [VObj [("PropertyPath", VStr "Team_Id")]]);
        ("Properties",
         VArr [prop "Team_Id" "Edm.String" [facet "MaxLength" "10"] false;
               prop "Name" "Edm.String" [facet "MaxLength" "40"] true]);
        ("NavigationProperties",
         VArr [VObj [("Name", VStr "TEAM_2_EMPLOYEES"); ("Type", ref "T.Worker")]])].

Definition mTypes : list (string * value) :=
  [("T.Worker", tWorker); ("T.Team", tTeam)].

Definition sTeams : value :=
  VObj [("Name", VStr "TEAMS"); ("EntityType", ref "T.Team")].

Definition sEmployees : value :=
  VObj [("Name", VStr "EMPLOYEES"); ("EntityType", ref "T.Worker");
        ("NavigationPropertyBindings",
         VArr [VObj [("Name", VStr "EMPLOYEE_2_TEAM"); ("Target", sTeams)]])].

Definition sMe : value :=
  VObj [("Name", VStr "Me"); ("Type", ref "T.Worker")].

Definition oEntityContainer : value :=
  VObj [("Name", VStr "Container");
        ("QualifiedName", VStr "T.Container");
        ("EntitySets", VArr [sEmployees; sTeams]);
        ("Singletons", VArr [sMe])].

Definition oHelper : Helper := helper oEntityContainer mTypes.







(** Paths into the meta model and into the data of the service. *)
Definition sFacetValuePath : string :=
  "/EntitySets('TEAMS')/EntityType/Properties('Name')/Facets/0/Value".

Definition aFacetValueSegments : list string :=
  ["EntitySets('TEAMS')"; "EntityType"; "Properties('Name')"; "Facets"; "0"; "Value"].

(** [fnRead] of a model that holds one employee and one team. *)
Definition fnRead (sPath : string) (bAllowObjectAccess : bool)
  : completion (settled value) :=
  Return (Fulfilled (VObj [("ID", VStr "1"); ("Team_Id", VStr "T1")])).

End Service.

(* ================================================================== *)
(** * sap.ui.rta.plugin.additionalElements.AdditionalElementsPlugin *)
(* ================================================================== *)

Module AdditionalElementsPlugin.
Import Js.
Local Open Scope promise_scope.

(** ** The design time objects the plugin works on

    Controls, overlays and design time metadata belong to the framework;
    they are described by what the plugin reads from them. *)

(** A control: [getId()] and the id of [getParent()]. *)
Record Element : Type := {
  getId : string;
  getParentId : option string
}.

(** [oElement1 === oElement2]. *)
Definition sameElement (a b : Element) : bool := String.eqb (getId a) (getId b).

Definition sameOptElement (a b : option Element) : bool :=
  match a, b with
  | Some x, Some y => sameElement x y
  | None, None => true
  | _, _ => false
  end.

(** An action of the design time metadata. *)
Record Action : Type := {
  changeType : option string;
  changeOnRelevantContainer : bool;
  aggregation : string
}.

(** [if (mAction.changeType)]. *)
Definition hasChangeType (mAction : Action) : option string :=
  match changeType mAction with
  | Some EmptyString => None
  | other => other
  end.

(** The name of a kind of control. *)
Record ControlTypeName : Type := {
  singular : string;
  plural : string
}.

(** [sap.ui.dt.ElementDesignTimeMetadata]. *)
Record DesignTimeMetadata : Type := {
  getAction : string -> Element -> option Action;
  getName : Element -> option ControlTypeName;
  getAggregationDisplayName : string -> option Element -> option ControlTypeName
}.

(** [sap.ui.dt.AggregationOverlay]; [isIgnored] is the one of its design
    time metadata. *)
Record AggregationOverlay : Type := {
  getAggregationName : string;
  isIgnored : option Element -> bool
}.

(** [sap.ui.dt.ElementOverlay].  An overlay holds its parent, so that the
    overlays above it are a finite chain. *)
Inductive ElementOverlay : Type := Overlay {
  getOverlayId : string;
  getElement : option Element;
  getParentElementOverlay : option ElementOverlay;
  getElementVisibility : bool;
  getRelevantContainer : bool -> Element;
  getDesignTimeMetadata : option DesignTimeMetadata;
  getParentAggregationOverlay : option AggregationOverlay;
  getAggregationOverlays : list AggregationOverlay
}.

(** [oOverlay1 === oOverlay2]. *)
Definition sameOverlay (a b : ElementOverlay) : bool :=
  String.eqb (getOverlayId a) (getOverlayId b).

(** ** The map of actions *)

(** An entry of [mReveal.elements]. *)
Record RevealElement : Type := {
  element : Element;
  designTimeMetadata : option DesignTimeMetadata;
  action : Action
}.

Record Reveal : Type := {
  elements : list RevealElement;
  controlTypeNames : list ControlTypeName
}.

(** The data of an [add] action through a delegate. *)
Record AddViaDelegate : Type := {
  delegateAction : Action;
  requiredLibraries : option (list string);
  modelType : string
}.

(** An item and the data of a custom [add] action. *)
Record AddViaCustom : Type := {
  customAction : Action;
  items : list string
}.

(** What the map holds for one aggregation. *)
Record AggregationActions : Type := {
  reveal : option Reveal;
  addViaDelegate : option AddViaDelegate;
  addViaCustom : option AddViaCustom
}.

(** [{}]. *)
Definition noActions : AggregationActions :=
  {| reveal := None; addViaDelegate := None; addViaCustom := None |}.

(** The map from aggregation names to actions, in the order in which the
    keys were set. *)
Definition ActionsMap : Type := list (string * AggregationActions).

Fixpoint actionsOf (sAggregationName : string) (m : ActionsMap)
  : option AggregationActions :=
  match m with
  | [] => None
  | (k, a) :: m' => if String.eqb sAggregationName k then Some a else actionsOf sAggregationName m'
  end.

(** [m[sAggregationName] = a]. *)
Fixpoint setActions (sAggregationName : string) (a : AggregationActions) (m : ActionsMap)
  : ActionsMap :=
  match m with
  | [] => [(sAggregationName, a)]
  | (k, a') :: m' =>
      if String.eqb sAggregationName k then (k, a) :: m'
      else (k, a') :: setActions sAggregationName a m'
  end.

(** Modelled from the spec: [sap/base/util/merge] is not part of the
    sources.  The results "combine the results of the reveal,
    add-via-delegate and custom-add computations merged per aggregation":
    the entry of an aggregation in the target takes over the properties
    that the entry of the source has.  (Where both had a property of the
    same name the two would be merged in depth; [_getActions] never merges
    such entries, as each of its three maps sets one property of its
    own.) *)
Definition mergeActions (a b : AggregationActions) : AggregationActions :=
  {| reveal := match reveal b with Some r => Some r | None => reveal a end;
     addViaDelegate := match addViaDelegate b with
                       | Some d => Some d
                       | None => addViaDelegate a
                       end;
     addViaCustom := match addViaCustom b with
                     | Some c => Some c
                     | None => addViaCustom a
                     end |}.

Fixpoint mergeInto (mTarget mSource : ActionsMap) : ActionsMap :=
  match mSource with
  | [] => mTarget
  | (k, b) :: mSource' =>
      mergeInto (setActions k
                   (mergeActions (match actionsOf k mTarget with
                                  | Some a => a
                                  | None => noActions
                                  end) b)
                   mTarget)
        mSource'
  end.

(** [merge(mTarget, mSource1, mSource2)]. *)
Definition merge (mTarget mSource1 mSource2 : ActionsMap) : ActionsMap :=
  mergeInto (mergeInto mTarget mSource1) mSource2.

(** [oSourceElementOverlay._mAddActions]. *)
Record AddActions : Type := {
  asSibling : ActionsMap;
  asChild : ActionsMap
}.

(** The [_mAddActions] of the overlays, by the id of the overlay. *)
Definition Store : Type := string -> option AddActions.

Definition setAddActions (oOverlay : ElementOverlay) (m : AddActions) (st : Store)
  : Store :=
  fun sOverlayId =>
    if String.eqb sOverlayId (getOverlayId oOverlay) then Some m else st sOverlayId.

(** ** The framework around the plugin *)

(** The registry of overlays, the utilities and the methods of the base
    class [sap.ui.rta.plugin.Plugin].  None of them is part of the sources;
    the plugin is embedded over any implementation.  The two lists of data
    stand for the checks of the [add] actions (delegates, libraries, change
    handlers, custom items), which go through [DelegateMediatorAPI] and
    the design time metadata: what is embedded of [_getAddViaDelegateActions]
    and [_getCustomAddActions] is how the data of the actions that passed
    enter the map. *)
Class Framework : Type := {
  getOverlay : Element -> option ElementOverlay;
  getAggregation : Element -> string -> list Element;
  findAllSiblingsInContainer : option Element -> Element -> list Element;
  hasStableId : option ElementOverlay -> bool;
  hasChangeHandler : string -> Element -> settled bool;
  isResponsibleElementActionAvailable : ElementOverlay -> string -> bool;
  getResponsibleElementOverlay : option ElementOverlay -> completion ElementOverlay;
  addViaDelegateActionData :
    bool -> ElementOverlay -> settled (list (string * AddViaDelegate));
  customAddActionData :
    bool -> ElementOverlay -> settled (list (string * AddViaCustom))
}.

Section WithFramework.
Context {F : Framework}.

(** What [_getParents] returns. *)
Record Parents : Type := {
  responsibleElementOverlay : ElementOverlay;
  relevantContainerOverlay : option ElementOverlay;
  parentOverlay : option ElementOverlay;
  relevantContainer : Element;
  parent : option Element
}.

(** [function _getParents(bSibling, oOverlay, oPlugin)]; [bPlugin] tells
    whether [oPlugin] was passed. *)
Definition _getParents (bSibling : bool) (oOverlay : ElementOverlay) (bPlugin : bool)
  : completion Parents :=
  do! oResponsibleElementOverlay :=
    (if bPlugin
        && existsb (isResponsibleElementActionAvailable oOverlay)
             ["add.delegate"; "reveal"; "add.custom"]
     then getResponsibleElementOverlay (Some oOverlay)
     else Return oOverlay) in
  let oRelevantContainer := getRelevantContainer oResponsibleElementOverlay (negb bSibling) in
  let oParentOverlay :=
    if bSibling then getParentElementOverlay oResponsibleElementOverlay
    else Some oResponsibleElementOverlay in
  Return {| responsibleElementOverlay := oResponsibleElementOverlay;
            relevantContainerOverlay := getOverlay oRelevantContainer;
            parentOverlay := oParentOverlay;
            relevantContainer := oRelevantContainer;
            parent := match oParentOverlay with
                      | Some o => getElement o
                      | None => None
                      end |}.

(** The [do ... while] of [_getInvisibleElements]: whether an overlay from
    [oOverlayToCheck] up to the overlay of the relevant container is
    invisible. *)
Fixpoint anyParentInvisible (oRelevantContainerOverlay : option ElementOverlay)
    (oOverlayToCheck : ElementOverlay) : bool :=
  if negb (getElementVisibility oOverlayToCheck) then true
  else if match oRelevantContainerOverlay with
          | Some o => sameOverlay oOverlayToCheck o
          | None => false
          end
  then false
  else match getParentElementOverlay oOverlayToCheck with
       | Some oParent => anyParentInvisible oRelevantContainerOverlay oParent
       | None => false
       end.

(** [function _getInvisibleElements(oParentOverlay, sAggregationName)]. *)
Definition _getInvisibleElements (oParentOverlay : ElementOverlay)
    (sAggregationName : string) : completion (list Element) :=
  match getElement oParentOverlay with
  | None => Return []
  | Some oParentElement =>
      (fix filter (aControls : list Element) : completion (list Element) :=
         match aControls with
         | [] => Return []
         | oControl :: aControls' =>
             do! bKeep :=
               (let oOverlay := getOverlay oControl in
                if negb (hasStableId oOverlay) then Return false
                else
                  let oRelevantContainer := getRelevantContainer oParentOverlay true in
                  if anyParentInvisible (getOverlay oRelevantContainer) oParentOverlay
                  then Return true
                  else match oOverlay with
                       | Some o => Return (negb (getElementVisibility o))
                       | None => Throw TypeError
                       end) in
             do! aRest := filter aControls' in
             Return (if bKeep then oControl :: aRest else aRest)
         end) (getAggregation oParentElement sAggregationName)
  end.

(** [_invisibleToReveal]: the value of [bRevealEnabled] when the last
    callback runs, with the design time metadata and the action it goes
    with. *)
Definition revealEnabled (oInvisibleElement : Element)
  : settled (bool * option DesignTimeMetadata * option Action) :=
  match getOverlay oInvisibleElement with
  | None => Fulfilled (false, None, None)
  | Some oOverlay =>
      let oDesignTimeMetadata := getDesignTimeMetadata oOverlay in
      let mRevealAction :=
        match oDesignTimeMetadata with
        | Some dtm => getAction dtm "reveal" oInvisibleElement
        | None => None
        end in
      match mRevealAction with
      | None => Fulfilled (false, oDesignTimeMetadata, None)
      | Some mAction =>
          match hasChangeType mAction with
          | None => Fulfilled (false, oDesignTimeMetadata, Some mAction)
          | Some sChangeType =>
              let oRevealSelector :=
                if changeOnRelevantContainer mAction
                then getRelevantContainer oOverlay false
                else oInvisibleElement in
              sbind (hasChangeHandler sChangeType oRevealSelector)
                (fun bHasChangeHandler =>
                   if bHasChangeHandler then
                     if changeOnRelevantContainer mAction then
                       match _getParents true oOverlay false with
                       | Throw e => Rejected e
                       | Return mParents =>
                           Fulfilled
                             (hasStableId (relevantContainerOverlay mParents)
                              && hasStableId (parentOverlay mParents),
                              oDesignTimeMetadata, Some mAction)
                       end
                     else Fulfilled (true, oDesignTimeMetadata, Some mAction)
                   else Fulfilled (false, oDesignTimeMetadata, Some mAction))
          end
      end
  end.

(** [_invisibleToReveal(mReveal, oInvisibleElement)]. *)
Definition _invisibleToReveal (mReveal : Reveal) (oInvisibleElement : Element)
  : settled Reveal :=
  sbind (revealEnabled oInvisibleElement)
    (fun '(bRevealEnabled, oDesignTimeMetadata, mRevealAction) =>
       if bRevealEnabled then
         match oDesignTimeMetadata, mRevealAction with
         | Some dtm, Some mAction =>
             Fulfilled
               {| elements :=
                    (elements mReveal
                     ++ [{| element := oInvisibleElement;
                            designTimeMetadata := oDesignTimeMetadata;
                            action := mAction |}])%list;
                  controlTypeNames :=
                    match getName dtm oInvisibleElement with
                    | Some mName => (controlTypeNames mReveal ++ [mName])%list
                    | None => controlTypeNames mReveal
                    end |}
         | _, _ => Rejected TypeError
         end
       else Fulfilled mReveal).

(** [aInvisibleElements.reduce(...)] of [_getRevealActionFromAggregations]:
    one [_invisibleToReveal] after the other. *)
Fixpoint revealAll (mReveal : Reveal) (aInvisibleElements : list Element)
  : settled Reveal :=
  match aInvisibleElements with
  | [] => Fulfilled mReveal
  | oInvisibleElement :: aRest =>
      sbind (_invisibleToReveal mReveal oInvisibleElement)
        (fun mReveal' => revealAll mReveal' aRest)
  end.

(** [aParents.reduce(...)] of [_getRevealActionFromAggregations]: the
    invisible elements of the aggregation under all parents. *)
Fixpoint invisibleElementsOf (aParents : list (option ElementOverlay))
    (sAggregationName : string) : completion (list Element) :=
  match aParents with
  | [] => Return []
  | None :: aParents' => invisibleElementsOf aParents' sAggregationName
  | Some oParentOverlay :: aParents' =>
      do! aInvisible := _getInvisibleElements oParentOverlay sAggregationName in
      do! aRest := invisibleElementsOf aParents' sAggregationName in
      Return (aInvisible ++ aRest)%list
  end.

(** [_getRevealActionFromAggregations(aParents, _mReveal, sAggregationName)]. *)
Definition _getRevealActionFromAggregations (aParents : list (option ElementOverlay))
    (_mReveal : ActionsMap) (sAggregationName : string) : settled ActionsMap :=
  match invisibleElementsOf aParents sAggregationName with
  | Throw e => Rejected e
  | Return aInvisibleElements =>
      sbind (revealAll {| elements := []; controlTypeNames := [] |} aInvisibleElements)
        (fun mReveal =>
           if (0 <? List.length (elements mReveal))%nat then
             Fulfilled (setActions sAggregationName
                          {| reveal := Some mReveal;
                             addViaDelegate := None;
                             addViaCustom := None |}
                          _mReveal)
           else Fulfilled _mReveal)
  end.

(** The parents and the names of the aggregations that
    [_getRevealActions] looks into. *)
Definition revealParents (mParents : Parents) : list (option ElementOverlay) :=
  if negb (sameOptElement (Some (relevantContainer mParents)) (parent mParents)) then
    map Some
      (flat_map (fun oParent => match getOverlay oParent with
                                | Some o => [o]
                                | None => []
                                end)
         (findAllSiblingsInContainer (parent mParents) (relevantContainer mParents)))
  else [parentOverlay mParents].

Definition revealAggregationNames (bSibling : bool) (mParents : Parents)
  : completion (list string) :=
  if bSibling then
    Return match getParentAggregationOverlay (responsibleElementOverlay mParents) with
           | Some oParentAggregationOverlay =>
               [getAggregationName oParentAggregationOverlay]
           | None => []
           end
  else
    match parentOverlay mParents with
    | Some oParentOverlay =>
        Return (map getAggregationName
                  (filter (fun oAggregationOverlay =>
                             negb (isIgnored oAggregationOverlay (parent mParents)))
                     (getAggregationOverlays oParentOverlay)))
    | None => Throw TypeError
    end.

(** [aAggregationNames.reduce(...)] of [_getRevealActions]. *)
Fixpoint revealActionsFrom (aParents : list (option ElementOverlay))
    (mReveal : ActionsMap) (aAggregationNames : list string) : settled ActionsMap :=
  match aAggregationNames with
  | [] => Fulfilled mReveal
  | sAggregationName :: aRest =>
      sbind (_getRevealActionFromAggregations aParents mReveal sAggregationName)
        (fun mReveal' => revealActionsFrom aParents mReveal' aRest)
  end.

(** [_getRevealActions(bSibling, oSourceElementOverlay)]. *)
Definition _getRevealActions (bSibling : bool) (oSourceElementOverlay : ElementOverlay)
  : completion (settled ActionsMap) :=
  do! mParents := _getParents bSibling oSourceElementOverlay true in
  do! aAggregationNames := revealAggregationNames bSibling mParents in
  Return (revealActionsFrom (revealParents mParents) [] aAggregationNames).

(** The last [reduce] of [_getAddViaDelegateActions]. *)
Fixpoint addViaDelegateInto (oReturn : ActionsMap)
    (aActionData : list (string * AddViaDelegate)) : ActionsMap :=
  match aActionData with
  | [] => oReturn
  | (sAggregationName, mData) :: aRest =>
      let mEntry := match actionsOf sAggregationName oReturn with
                    | Some a => a
                    | None => noActions
                    end in
      addViaDelegateInto
        (setActions sAggregationName
           {| reveal := reveal mEntry;
              addViaDelegate := Some mData;
              addViaCustom := addViaCustom mEntry |}
           oReturn)
        aRest
  end.

(** [_getAddViaDelegateActions(bSibling, oSourceElementOverlay)]. *)
Definition _getAddViaDelegateActions (bSibling : bool)
    (oSourceElementOverlay : ElementOverlay) : completion (settled ActionsMap) :=
  do! mParents := _getParents bSibling oSourceElementOverlay true in
  Return (sbind (addViaDelegateActionData bSibling oSourceElementOverlay)
            (fun aActionData => Fulfilled (addViaDelegateInto [] aActionData))).

(** The [reduce] of [_getCustomAddActions]. *)
Fixpoint customAddInto (oReturn : ActionsMap)
    (aActionData : list (string * AddViaCustom)) : ActionsMap :=
  match aActionData with
  | [] => oReturn
  | (sAggregationName, mData) :: aRest =>
      customAddInto
        (setActions sAggregationName
           {| reveal := None; addViaDelegate := None; addViaCustom := Some mData |}
           oReturn)
        aRest
  end.

(** [_getCustomAddActions(bSibling, oOverlay)]. *)
Definition _getCustomAddActions (bSibling : bool) (oOverlay : ElementOverlay)
  : completion (settled ActionsMap) :=
  do! mParents := _getParents bSibling oOverlay true in
  Return (sbind (customAddActionData bSibling oOverlay)
            (fun aActionData => Fulfilled (customAddInto [] aActionData))).

(** [_checkInvalidAddActions]: an error is logged, nothing is returned. *)
Definition _checkInvalidAddActions (bSibling : bool)
    (oSourceElementOverlay : ElementOverlay) : completion unit :=
  do! mParents := _getParents bSibling oSourceElementOverlay true in
  Return tt.

(** [Promise.all] of three promises, the first rejection in the order of
    the array being reported when several reject. *)
Definition all3 {A B C} (a : settled A) (b : settled B) (c : settled C)
  : settled (A * B * C) :=
  match a, b, c with
  | Fulfilled x, Fulfilled y, Fulfilled z => Fulfilled (x, y, z)
  | Rejected e, _, _ => Rejected e
  | _, Rejected e, _ => Rejected e
  | _, _, Rejected e => Rejected e
  | _, _, _ => Pending
  end.

(** [_getActions(bSibling, oSourceElementOverlay, bInvalidate)]: what the
    promise settles in, and the [_mAddActions] of the overlays
    afterwards. *)
Definition _getActions (bSibling : bool) (oSourceElementOverlay : ElementOverlay)
    (bInvalidate : bool) (st : Store) : settled ActionsMap * Store :=
  let bCached := negb bInvalidate in
  match (if bCached then st (getOverlayId oSourceElementOverlay) else None) with
  | Some mAddActions =>
      (Fulfilled (if bSibling then asSibling mAddActions else asChild mAddActions), st)
  | None =>
      match (do! oRevealActionsPromise :=
               _getRevealActions bSibling oSourceElementOverlay in
             do! oAddPropertyActionsPromise :=
               _getAddViaDelegateActions bSibling oSourceElementOverlay in
             do! oCustomAddActionsPromise :=
               _getCustomAddActions bSibling oSourceElementOverlay in
             do! _ := _checkInvalidAddActions bSibling oSourceElementOverlay in
             Return (all3 oRevealActionsPromise oAddPropertyActionsPromise
                       oCustomAddActionsPromise)) with
      | Throw e => (Rejected e, st)
      | Return Pending => (Pending, st)
      | Return (Rejected e) => (Rejected e, st)
      | Return (Fulfilled (mReveal, mAddViaDelegate, mAddViaCustom)) =>
          let mAllActions := merge mReveal mAddViaDelegate mAddViaCustom in
          let mAddActions :=
            match st (getOverlayId oSourceElementOverlay) with
            | Some m => m
            | None => {| asSibling := []; asChild := [] |}
            end in
          (Fulfilled mAllActions,
           setAddActions oSourceElementOverlay
             (if bSibling
              then {| asSibling := mAllActions; asChild := asChild mAddActions |}
              else {| asSibling := asSibling mAddActions; asChild := mAllActions |})
             st)
      end
  end.

(** [_getActionsOrUndef(bSibling, oOverlay)]. *)
Definition _getActionsOrUndef (bSibling : bool) (oOverlay : ElementOverlay) (st : Store)
  : option ActionsMap :=
  match st (getOverlayId oOverlay) with
  | Some mAddActions => Some (if bSibling then asSibling mAddActions else asChild mAddActions)
  | None => None
  end.

End WithFramework.
End AdditionalElementsPlugin.

(* ================================================================== *)
(** * AdditionalElementsPlugin: the commands, the menu *)
(* ================================================================== *)

Module AdditionalElementsCommands.
Import Js AdditionalElementsPlugin.
Local Open Scope promise_scope.

(** [changeSpecificData] of a custom item. *)
Record ChangeSpecificData : Type := {
  itemChangeOnRelevantContainer : bool;
  itemChangeType : option string;
  content : string
}.

(** An element of the dialog, as [getSelectedElements] hands it out; which
    properties are set depends on its [type]. *)
Record SelectedElement : Type := {
  label : string;
  type : string;
  elementId : string;
  entityType : string;
  bindingPath : string;
  name : string;
  oDataServiceVersion : string;
  changeSpecificData : ChangeSpecificData;
  itemId : option string
}.

(** The settings a command is asked for with. *)
Inductive Settings : Type :=
| NoSettings
| RevealSettings (revealedElementId : string) (directParent : option Element)
| MoveSettings (movedElement : Element) (sourceIndex targetIndex : Z)
    (sourceParent targetParent : option Element) (sAggregation : string)
| AddLibrarySettings (reference : string) (libraries : list string)
| AddDelegatePropertySettings (newControlId : string) (index : Z)
    (bindingString sEntityType : string) (parentId propertyName : string)
    (sODataServiceVersion oDataServiceUri sModelType relevantContainerId : string)
| CustomAddSettings (bChangeOnRelevantContainer : bool) (aggregationName : option string)
    (sChangeType : option string) (addElementInfo : string) (index : Z)
    (customItemId : option string).

(** [getCommandFor(oElement, sCommand, mSettings, oDesignTimeMetadata,
    sVariantManagementReference)]; the design time metadata handed over is
    left out. *)
Record CommandRequest : Type := {
  requestElement : option Element;
  requestCommand : string;
  requestSettings : Settings;
  requestVariantManagementReference : option string
}.

(** [mActions] as [showAvailableElements] passes it on: the actions of the
    aggregation with the name of the aggregation set. *)
Record SelectedActions : Type := {
  actions : AggregationActions;
  selectedAggregation : option string
}.

(** The command factory, the utilities and the application around the
    plugin; none of them is part of the sources.  [Command] are the
    commands of [sap.ui.rta.command]; the app component of a control is
    described by the library dependencies and the id of its manifest. *)
Class Services : Type := {
  Command : Type;
  getCommandFor : CommandRequest -> settled (option Command);
  getElementInstance : string -> option Element;
  getIndex : option Element -> option Element -> option string -> Z;
  adjustIndexForMove : option Element -> option Element -> Z -> Z -> Z;
  getVariantManagementReference : option ElementOverlay -> option string;
  createFieldLabelId : option Element -> string -> string -> string;
  appLibDependencies : Element -> list string;
  appReference : Element -> string;
  oDataServiceUri : option Element -> completion string;
  propagateError : exn -> exn
}.

Section WithFramework.
Context {F : Framework} {S : Services}.

(** A call from a [then] callback that hands out a promise, or throws
    before it does: the state of the promise of the [then]. *)
Definition settledCall {A} (c : completion (settled A)) : settled A :=
  match c with
  | Throw e => Rejected e
  | Return s => s
  end.

(** [function _getRevealDataFromActions(mActions, oRevealedElement)]: the
    callback of [some] never returns [true], so the last element with the
    id is the one. *)
Definition _getRevealDataFromActions (mActions : option SelectedActions)
    (oRevealedElement : option Element) : completion (option RevealElement) :=
  match mActions with
  | None => Throw TypeError
  | Some m =>
      match reveal (actions m) with
      | None => Throw TypeError
      | Some mReveal =>
          (fix some (l : list RevealElement) (mRevealData : option RevealElement)
             : completion (option RevealElement) :=
             match l with
             | [] => Return mRevealData
             | mElement :: l' =>
                 match oRevealedElement with
                 | None => Throw TypeError
                 | Some oRevealed =>
                     some l' (if String.eqb (getId (element mElement)) (getId oRevealed)
                              then Some mElement else mRevealData)
                 end
             end) (elements mReveal) None
      end
  end.

(** [_createRevealCommandForInvisible(mSelectedElement, mActions, mParents)]. *)
Definition _createRevealCommandForInvisible (mSelectedElement : SelectedElement)
    (mActions : option SelectedActions) (mParents : Parents)
  : completion (settled (option Command)) :=
  let oRevealedElement := getElementInstance (elementId mSelectedElement) in
  let oRevealedElementOverlay :=
    match oRevealedElement with
    | Some e => getOverlay e
    | None => None
    end in
  do! mRevealData := _getRevealDataFromActions mActions oRevealedElement in
  match mRevealData with
  | None => Throw TypeError
  | Some mData =>
      let sVariantManagementReference :=
        match oRevealedElementOverlay with
        | Some o => getVariantManagementReference (Some o)
        | None => None
        end in
      if changeOnRelevantContainer (action mData) then
        match oRevealedElement with
        | None => Throw TypeError
        | Some oRevealed =>
            Return (getCommandFor
                      {| requestElement := oRevealedElement;
                         requestCommand := "reveal";
                         requestSettings :=
                           RevealSettings (getId oRevealed) (parent mParents);
                         requestVariantManagementReference :=
                           sVariantManagementReference |})
        end
      else
        Return (getCommandFor
                  {| requestElement := oRevealedElement;
                     requestCommand := "reveal";
                     requestSettings := NoSettings;
                     requestVariantManagementReference :=
                       sVariantManagementReference |})
  end.

(** [_createMoveCommandForInvisible(oSelectedElement, mParents,
    oSiblingElement, iIndex)].  ([mParents.parent] is [undefined] where
    there is no parent, [getParent()] is [null]: the two are not the
    same.) *)
Definition _createMoveCommandForInvisible (oSelectedElement : SelectedElement)
    (mParents : Parents) (oSiblingElement : option Element) (iIndex : option Z)
  : completion (settled (option Command)) :=
  let oRevealedElement := getElementInstance (elementId oSelectedElement) in
  match (match oRevealedElement with Some e => getOverlay e | None => None end) with
  | None => Throw TypeError
  | Some oRevealedElementOverlay =>
      match getParentAggregationOverlay oRevealedElementOverlay,
            getParentElementOverlay oRevealedElementOverlay,
            oRevealedElement with
      | Some oParentAggregationOverlay, Some oSourceParentOverlay, Some oRevealed =>
          let sParentAggregationName := getAggregationName oParentAggregationOverlay in
          let oSourceParent :=
            match getElement oSourceParentOverlay with
            | Some e => Some e
            | None => parent mParents
            end in
          let oTargetParent := parent mParents in
          let iRevealedSourceIndex :=
            (getIndex oSourceParent oRevealedElement (Some sParentAggregationName) - 1)%Z in
          let iRevealTargetIndex :=
            match iIndex with
            | Some i => i
            | None =>
                adjustIndexForMove oSourceParent oTargetParent iRevealedSourceIndex
                  (getIndex (parent mParents) oSiblingElement
                     (Some sParentAggregationName))
            end in
          if negb (Z.eqb iRevealTargetIndex iRevealedSourceIndex)
             || negb (match parent mParents, getParentId oRevealed with
                      | Some p, Some sParent => String.eqb (getId p) sParent
                      | _, _ => false
                      end)
          then
            Return (getCommandFor
                      {| requestElement := Some (relevantContainer mParents);
                         requestCommand := "move";
                         requestSettings :=
                           MoveSettings oRevealed iRevealedSourceIndex
                             iRevealTargetIndex oSourceParent oTargetParent
                             sParentAggregationName;
                         requestVariantManagementReference :=
                           getVariantManagementReference
                             (Some oRevealedElementOverlay) |})
          else Return (Fulfilled None)
      | _, _, _ => Throw TypeError
      end
  end.

(** [addCommand] on the composite command: the commands it has
    afterwards. *)
Definition addCommand (oCompositeCommand : option Command)
    (aCommands : list (option Command)) (oCommand : option Command)
  : settled (list (option Command)) :=
  match oCompositeCommand with
  | None => Rejected TypeError
  | Some _ => Fulfilled (aCommands ++ [oCommand])%list
  end.

(** [_createCommandsForInvisibleElement]; [aCommands] are the commands the
    composite command has. *)
Definition _createCommandsForInvisibleElement (oCompositeCommand : option Command)
    (aCommands : list (option Command)) (oSelectedElement : SelectedElement)
    (mParents : Parents) (oSiblingElement : option Element)
    (mActions : option SelectedActions) (iIndex : option Z)
  : settled (list (option Command)) :=
  sbind (settledCall (_createRevealCommandForInvisible oSelectedElement mActions mParents))
    (fun oRevealCommandForInvisible =>
       sbind (addCommand oCompositeCommand aCommands oRevealCommandForInvisible)
         (fun aCommands1 =>
            sbind (settledCall (_createMoveCommandForInvisible oSelectedElement mParents
                                  oSiblingElement iIndex))
              (fun oMoveCommandForInvisible =>
                 match oMoveCommandForInvisible with
                 | Some oMove => addCommand oCompositeCommand aCommands1 (Some oMove)
                 | None =>
                     match parent mParents, mActions with
                     | Some _, Some _ => Fulfilled aCommands1
                     | _, _ => Rejected TypeError
                     end
                 end))).

(** [function _areLibDependenciesMissing(oComponent, mRequiredLibraries)]. *)
Definition _areLibDependenciesMissing (oComponent : Element)
    (mRequiredLibraries : list string) : bool :=
  existsb (fun sRequiredLib =>
             negb (existsb (String.eqb sRequiredLib) (appLibDependencies oComponent)))
    mRequiredLibraries.

(** [_createCommandForAddLibrary(mParents, mRequiredLibraries,
    oParentAggregationDTMetadata)]; [mParents] has no [publicParent]. *)
Definition _createCommandForAddLibrary (mParents : Parents)
    (mRequiredLibraries : option (list string)) : settled (option Command) :=
  match mRequiredLibraries with
  | Some aLibraries =>
      let oComponent := relevantContainer mParents in
      if _areLibDependenciesMissing oComponent aLibraries then
        getCommandFor
          {| requestElement := None;
             requestCommand := "addLibrary";
             requestSettings := AddLibrarySettings (appReference oComponent) aLibraries;
             requestVariantManagementReference := None |}
      else Fulfilled None
  | None => Fulfilled None
  end.

(** [_createAddViaDelegateCommand]. *)
Definition _createAddViaDelegateCommand (oSelectedElement : SelectedElement)
    (mParents : Parents) (oSiblingElement : option Element)
    (mActions : SelectedActions) (mAddViaDelegate : AddViaDelegate) (iIndex : option Z)
  : completion (settled (option Command)) :=
  let mAddViaDelegateAction := delegateAction mAddViaDelegate in
  let bOnContainer := changeOnRelevantContainer mAddViaDelegateAction in
  let oParent := if bOnContainer then Some (relevantContainer mParents)
                 else parent mParents in
  let oParentOverlay := if bOnContainer then relevantContainerOverlay mParents
                        else parentOverlay mParents in
  let sVariantManagementReference := getVariantManagementReference oParentOverlay in
  let iAddTargetIndex :=
    getIndex (parent mParents) oSiblingElement (selectedAggregation mActions) in
  do! sServiceUri := oDataServiceUri (parent mParents) in
  match parent mParents with
  | None => Throw TypeError
  | Some oParentElement =>
      Return (getCommandFor
                {| requestElement := parent mParents;
                   requestCommand := "addDelegateProperty";
                   requestSettings :=
                     AddDelegatePropertySettings
                       (createFieldLabelId oParent (entityType oSelectedElement)
                          (bindingPath oSelectedElement))
                       (match iIndex with Some i => i | None => iAddTargetIndex end)
                       (bindingPath oSelectedElement) (entityType oSelectedElement)
                       (getId oParentElement) (name oSelectedElement)
                       (oDataServiceVersion oSelectedElement) sServiceUri
                       (modelType mAddViaDelegate)
                       (getId (relevantContainer mParents));
                   requestVariantManagementReference :=
                     sVariantManagementReference |})
  end.

(** [_createCommandsForAddViaDelegate]; the overlay of the aggregation is
    taken to be there. *)
Definition _createCommandsForAddViaDelegate (oCompositeCommand : option Command)
    (aCommands : list (option Command)) (oSelectedElement : SelectedElement)
    (mParents : Parents) (oSiblingElement : option Element)
    (mActions : option SelectedActions) (iIndex : option Z)
  : settled (list (option Command)) :=
  match mActions with
  | None => Rejected TypeError
  | Some m =>
      match addViaDelegate (actions m), parentOverlay mParents with
      | Some mAddViaDelegate, Some _ =>
          sbind (_createCommandForAddLibrary mParents (requiredLibraries mAddViaDelegate))
            (fun oCommandForAddLibrary =>
               sbind (match oCommandForAddLibrary with
                      | Some c => addCommand oCompositeCommand aCommands (Some c)
                      | None => Fulfilled aCommands
                      end)
                 (fun aCommands1 =>
                    sbind (settledCall
                             (_createAddViaDelegateCommand oSelectedElement mParents
                                oSiblingElement m mAddViaDelegate iIndex))
                      (fun oAddViaDelegateCommand =>
                         match oAddViaDelegateCommand with
                         | Some c => addCommand oCompositeCommand aCommands1 (Some c)
                         | None => Fulfilled aCommands1
                         end)))
      | _, _ => Rejected TypeError
      end
  end.

(** [_createCommandsForCustomElement]; the overlay of the aggregation is
    taken to be there. *)
Definition _createCommandsForCustomElement (oCompositeCommand : option Command)
    (aCommands : list (option Command)) (oSelectedElement : SelectedElement)
    (mParents : Parents) (oSiblingElement : option Element)
    (mActions : option SelectedActions) (iIndex : option Z)
  : settled (list (option Command)) :=
  match mActions, parentOverlay mParents with
  | Some m, Some _ =>
      let oChange := changeSpecificData oSelectedElement in
      let oActionSettings :=
        CustomAddSettings (itemChangeOnRelevantContainer oChange)
          (selectedAggregation m) (itemChangeType oChange) (content oChange)
          (match iIndex with
           | Some i => if Z.eqb i 0
                       then getIndex (parent mParents) oSiblingElement
                              (selectedAggregation m)
                       else i
           | None => getIndex (parent mParents) oSiblingElement (selectedAggregation m)
           end)
          (match itemId oSelectedElement with
           | Some EmptyString => None
           | other => other
           end) in
      let sVariantManagementReference :=
        match relevantContainerOverlay mParents with
        | Some o => getVariantManagementReference (Some o)
        | None => None
        end in
      sbind (getCommandFor
               {| requestElement := parent mParents;
                  requestCommand := "customAdd";
                  requestSettings := oActionSettings;
                  requestVariantManagementReference := sVariantManagementReference |})
        (fun oCustomAddCommand =>
           match oCustomAddCommand with
           | Some c => addCommand oCompositeCommand aCommands (Some c)
           | None => Fulfilled aCommands
           end)
  | _, _ => Rejected TypeError
  end.

(** [Array.prototype.sort] with the comparator of [_createCommands], which
    puts the greater label first; elements of the same label keep their
    order. *)
Fixpoint insertByLabel (oElement : SelectedElement) (aSorted : list SelectedElement)
  : list SelectedElement :=
  match aSorted with
  | [] => [oElement]
  | oNext :: aRest =>
      if String.ltb (label oElement) (label oNext)
      then oNext :: insertByLabel oElement aRest
      else oElement :: oNext :: aRest
  end.

Definition sortByLabel (aSelectedElements : list SelectedElement)
  : list SelectedElement :=
  fold_right insertByLabel [] aSelectedElements.

(** The [switch] of [_createCommands] for one selected element. *)
Definition createCommandsFor (oCompositeCommand : option Command)
    (aCommands : list (option Command)) (oSelectedElement : SelectedElement)
    (mParents : Parents) (oSiblingElement : option Element)
    (mActions : option SelectedActions) (iIndex : option Z)
  : settled (list (option Command)) :=
  if String.eqb (type oSelectedElement) "invisible" then
    _createCommandsForInvisibleElement oCompositeCommand aCommands oSelectedElement
      mParents oSiblingElement mActions iIndex
  else if String.eqb (type oSelectedElement) "delegate" then
    _createCommandsForAddViaDelegate oCompositeCommand aCommands oSelectedElement
      mParents oSiblingElement mActions iIndex
  else if String.eqb (type oSelectedElement) "custom" then
    _createCommandsForCustomElement oCompositeCommand aCommands oSelectedElement
      mParents oSiblingElement mActions iIndex
  else Fulfilled aCommands.

(** The chain of promises that [forEach] builds: one selected element after
    the other. *)
Fixpoint createCommandsForAll (oCompositeCommand : option Command)
    (aCommands : list (option Command)) (aSelectedElements : list SelectedElement)
    (mParents : Parents) (oSiblingElement : option Element)
    (mActions : option SelectedActions) (iIndex : option Z)
  : settled (list (option Command)) :=
  match aSelectedElements with
  | [] => Fulfilled aCommands
  | oSelectedElement :: aRest =>
      sbind (createCommandsFor oCompositeCommand aCommands oSelectedElement mParents
               oSiblingElement mActions iIndex)
        (fun aCommands' =>
           createCommandsForAll oCompositeCommand aCommands' aRest mParents
             oSiblingElement mActions iIndex)
  end.

(** What [fireElementModified] is called with: the composite command and
    the commands added to it. *)
Record ElementModified : Type := {
  command : option Command;
  commands : list (option Command)
}.

(** [_createCommands(mParents, oSiblingElement, mActions, iIndex)], given
    what [getDialog().getSelectedElements()] returns: the event fired, if
    any. *)
Definition _createCommands (aSelected : list SelectedElement) (mParents : Parents)
    (oSiblingElement : option Element) (mActions : option SelectedActions)
    (iIndex : option Z) : settled (option ElementModified) :=
  let aSelectedElements := sortByLabel aSelected in
  if (0 <? List.length aSelectedElements)%nat then
    match sbind (getCommandFor
                   {| requestElement := parent mParents;
                      requestCommand := "composite";
                      requestSettings := NoSettings;
                      requestVariantManagementReference := None |})
            (fun oCompositeCommand =>
               sbind (createCommandsForAll oCompositeCommand [] aSelectedElements
                        mParents oSiblingElement mActions iIndex)
                 (fun aCommands =>
                    Fulfilled (Some {| command := oCompositeCommand;
                                       commands := aCommands |}))) with
    | Rejected vMessage => Rejected (propagateError vMessage)
    | other => other
    end
  else Fulfilled None.

End WithFramework.
End AdditionalElementsCommands.

Module AdditionalElementsMenu.
Import Js AdditionalElementsPlugin AdditionalElementsCommands.
Local Open Scope promise_scope.

(** What [getAllElements] collects for one aggregation. *)
Record AggregationElements : Type := {
  elementsAggregation : string;
  aggregationElements : list SelectedElement
}.

(** What [FieldExtensibility.getExtensionData] delivers. *)
Record ExtensibilityInfo : Type := {
  extensionData : list string
}.

(** An object with the keys [asSibling] and [asChild], either of which may
    be missing. *)
Record PerRelation (A : Type) : Type := {
  forSibling : option A;
  forChild : option A
}.
Arguments forSibling {A} _.
Arguments forChild {A} _.

(** The members of the plugin that [isEnabled] reads. *)
Record PluginState : Type := {
  _oCachedElements : option (PerRelation (list AggregationElements));
  _oExtensibilityInfo : option (PerRelation ExtensibilityInfo);
  _mAddActions : Store
}.

(** [getCachedElements(bOverlayIsSibling)]. *)
Definition getCachedElements (st : PluginState) (bOverlayIsSibling : bool)
  : option (list AggregationElements) :=
  match _oCachedElements st with
  | Some o => if bOverlayIsSibling then forSibling o else forChild o
  | None => None
  end.

(** [getExtensibilityInfo(bOverlayIsSibling)]. *)
Definition getExtensibilityInfo (st : PluginState) (bOverlayIsSibling : bool)
  : option ExtensibilityInfo :=
  match _oExtensibilityInfo st with
  | Some o => if bOverlayIsSibling then forSibling o else forChild o
  | None => None
  end.

(** [clearCachedElements()]. *)
Definition clearCachedElements (st : PluginState) : PluginState :=
  {| _oCachedElements := None;
     _oExtensibilityInfo := _oExtensibilityInfo st;
     _mAddActions := _mAddActions st |}.

(** The closures a menu item holds, by what they call. *)
Inductive ItemText : Type :=
| Text (sText : string)
| ContextMenuTitle (bOverlayIsSibling : bool) (oOverlay : option ElementOverlay)
    (sAggregationName : option string) (bSubMenu : bool).

Inductive ItemEnabled : Type :=
| Always
| IsEnabled (bOverlayIsSibling : bool) (sAggregationName : option string).

Inductive ItemHandler : Type :=
| ShowAvailableElements (bOverlayIsSibling : bool) (sAggregationName : option string)
    (sDisplayText : option string).

(** An item of the context menu; [submenu] holds items of the same
    kind. *)
Inductive MenuItem : Type := Item {
  id : string;
  text : ItemText;
  enabled : ItemEnabled;
  rank : option nat;
  icon : string;
  handler : option ItemHandler;
  submenu : option (list MenuItem)
}.

Section WithFramework.
Context {F : Framework}.

(** [_isEditableByPlugin] and [enhanceItemWithResponsibleElement] of the
    base class, and [getAllElements], which goes through the analyzer, the
    field extensibility and the caches of the plugin: by the promise it
    returns. *)
Variable _isEditableByPlugin : ElementOverlay -> bool -> bool.
Variable enhanceItemWithResponsibleElement :
  MenuItem -> list ElementOverlay -> list string -> MenuItem.
Variable getAllElements :
  bool -> list ElementOverlay -> completion (settled (list AggregationElements)).

(** [isAvailable(bOverlayIsSibling, aElementOverlays)]. *)
Definition isAvailable (bOverlayIsSibling : bool) (aElementOverlays : list ElementOverlay)
  : bool :=
  forallb (fun oElementOverlay => _isEditableByPlugin oElementOverlay bOverlayIsSibling)
    aElementOverlays.

(** [m[sAggregationName]], the name possibly being [undefined]. *)
Definition actionsFor (sAggregationName : option string) (m : ActionsMap)
  : option AggregationActions :=
  actionsOf (match sAggregationName with
             | Some s => s
             | None => "undefined"
             end) m.

Definition isSome {A} (o : option A) : bool :=
  match o with
  | Some _ => true
  | None => false
  end.

(** [isEnabled(bOverlayIsSibling, aElementOverlays, sAggregationName)]. *)
Definition isEnabled (st : PluginState) (bOverlayIsSibling : bool)
    (aElementOverlays : list ElementOverlay) (sAggregationName : option string)
  : completion bool :=
  if (1 <? List.length aElementOverlays)%nat then Return false
  else
    do! oOverlay := getResponsibleElementOverlay (hd_error aElementOverlays) in
    do! bIsEnabled :=
      (if bOverlayIsSibling then
         Return (isSome (getParentElementOverlay oOverlay))
       else
         match _getActionsOrUndef bOverlayIsSibling oOverlay (_mAddActions st) with
         | None => Throw TypeError
         | Some mAllActions =>
             Return
               match actionsFor sAggregationName mAllActions with
               | Some mActions =>
                   match reveal mActions with
                   | Some mReveal => (0 <? List.length (elements mReveal))%nat
                   | None => false
                   end
                   || isSome (addViaCustom mActions)
                   || isSome (addViaDelegate mActions)
               | None => false
               end
         end) in
    let bElementsAvailable :=
      match getCachedElements st bOverlayIsSibling with
      | Some oCachedElements => (0 <? List.length oCachedElements)%nat
      | None => false
      end in
    Return (bIsEnabled
            && (bElementsAvailable
                || isSome (getExtensibilityInfo st bOverlayIsSibling))).

(** [getMenuItemText] of [_buildSubmenuItems]. *)
Definition getMenuItemText (bOverlayIsSibling : bool) (sAggregationName : string)
    (aElementOverlays : list ElementOverlay) : completion string :=
  match hd_error aElementOverlays with
  | None => Throw TypeError
  | Some oFirst =>
      match (if bOverlayIsSibling then getParentElementOverlay oFirst else Some oFirst) with
      | None => Throw TypeError
      | Some oElementOverlay =>
          match getDesignTimeMetadata oElementOverlay with
          | None => Throw TypeError
          | Some dtm =>
              Return match getAggregationDisplayName dtm sAggregationName
                             (getElement oElementOverlay) with
                     | Some oNames => singular oNames
                     | None => sAggregationName
                     end
          end
      end
  end.

(** [_buildSubmenuItems(bOverlayIsSibling, aElementOverlays,
    aElementsWithAggregation)], [iPosition] counting from the given
    number. *)
Fixpoint buildSubmenuItemsFrom (iPosition : nat) (bOverlayIsSibling : bool)
    (aElementOverlays : list ElementOverlay)
    (aElementsWithAggregation : list AggregationElements)
  : completion (list MenuItem) :=
  match aElementsWithAggregation with
  | [] => Return []
  | mElementsWithAggregation :: aRest =>
      let sPluginId := if bOverlayIsSibling then "CTX_ADD_ELEMENTS_AS_SIBLING"
                       else "CTX_ADD_ELEMENTS_AS_CHILD" in
      let sAggregationName := elementsAggregation mElementsWithAggregation in
      do! sDisplayText :=
        getMenuItemText bOverlayIsSibling sAggregationName aElementOverlays in
      let oItem :=
        {| id := sPluginId ++ "_" ++ nat_to_string iPosition;
           text := Text sDisplayText;
           enabled := IsEnabled bOverlayIsSibling (Some sAggregationName);
           rank := None;
           icon := if bOverlayIsSibling
                   then "sap-icon://BusinessSuiteInAppSymbols/icon-add-outside"
                   else "sap-icon://add";
           handler := Some (ShowAvailableElements bOverlayIsSibling
                              (Some sAggregationName) (Some sDisplayText));
           submenu := None |} in
      do! aItems := buildSubmenuItemsFrom (S iPosition) bOverlayIsSibling
                      aElementOverlays aRest in
      Return (enhanceItemWithResponsibleElement oItem aElementOverlays
                ["addViaDelegate"; "reveal"; "custom"] :: aItems)
  end.

Definition _buildSubmenuItems (bOverlayIsSibling : bool)
    (aElementOverlays : list ElementOverlay)
    (aElementsWithAggregation : list AggregationElements)
  : completion (list MenuItem) :=
  buildSubmenuItemsFrom 0 bOverlayIsSibling aElementOverlays aElementsWithAggregation.

(** [_buildMenuItem(sPluginId, bOverlayIsSibling, aElementOverlays,
    aElementsWithAggregations, bHasSubMenu)]. *)
Definition _buildMenuItem (sPluginId : string) (bOverlayIsSibling : bool)
    (aElementOverlays : list ElementOverlay)
    (aElementsWithAggregations :
       list AggregationElements * list AggregationElements)
    (bHasSubMenu : bool) : completion MenuItem :=
  let aRelevantElements := if bOverlayIsSibling then snd aElementsWithAggregations
                           else fst aElementsWithAggregations in
  let sAggregationName := option_map elementsAggregation (hd_error aRelevantElements) in
  do! aSubMenuItems :=
    (if bHasSubMenu then
       do! aChildItems :=
         _buildSubmenuItems false aElementOverlays (fst aElementsWithAggregations) in
       if String.eqb sPluginId "CTX_ADD_ELEMENTS_CHILD_AND_SIBLING" then
         do! aSiblingItems :=
           _buildSubmenuItems true aElementOverlays (snd aElementsWithAggregations) in
         Return (Some (aChildItems ++ aSiblingItems)%list)
       else Return (Some aChildItems)
     else Return None) in
  Return {| id := sPluginId;
            text := ContextMenuTitle bOverlayIsSibling (hd_error aElementOverlays)
                      sAggregationName bHasSubMenu;
            enabled := if bHasSubMenu then Always
                       else IsEnabled bOverlayIsSibling sAggregationName;
            rank := Some 20;
            icon := "sap-icon://add";
            handler := if bHasSubMenu then None
                       else Some (ShowAvailableElements bOverlayIsSibling
                                    sAggregationName None);
            submenu := aSubMenuItems |}.

(** The callback of [getMenuItems], given what the two promises of
    [getAllElements] resolved with. *)
Definition menuItemsFor (aElementOverlays : list ElementOverlay)
    (aElementsWithAggregations :
       list AggregationElements * list AggregationElements)
  : completion (list MenuItem) :=
  let bHasChildren := (0 <? List.length (fst aElementsWithAggregations))%nat in
  let bHasMultipleAggregations := (1 <? List.length (fst aElementsWithAggregations))%nat in
  let bHasSiblings := (0 <? List.length (snd aElementsWithAggregations))%nat in
  let bIsAvailableForChildren := isAvailable false aElementOverlays in
  let bIsAvailableForSibling := isAvailable true aElementOverlays in
  do! oMenuItem :=
    (if bIsAvailableForSibling && (negb bIsAvailableForChildren || negb bHasChildren) then
       do! oItem := _buildMenuItem "CTX_ADD_ELEMENTS_AS_SIBLING" true aElementOverlays
                      aElementsWithAggregations false in
       Return (Some oItem)
     else if negb bIsAvailableForSibling && bIsAvailableForChildren
             && negb bHasMultipleAggregations then
       do! oItem := _buildMenuItem "CTX_ADD_ELEMENTS_AS_CHILD" false aElementOverlays
                      aElementsWithAggregations false in
       Return (Some oItem)
     else if negb bIsAvailableForSibling && bIsAvailableForChildren
             && bHasMultipleAggregations then
       do! oItem := _buildMenuItem "CTX_ADD_ELEMENTS_AS_CHILD" false aElementOverlays
                      aElementsWithAggregations true in
       Return (Some oItem)
     else if bIsAvailableForChildren && bIsAvailableForSibling && bHasChildren
             && bHasSiblings then
       do! oItem := _buildMenuItem "CTX_ADD_ELEMENTS_CHILD_AND_SIBLING" false
                      aElementOverlays aElementsWithAggregations true in
       Return (Some oItem)
     else Return None) in
  Return match oMenuItem with
         | Some oItem =>
             [enhanceItemWithResponsibleElement oItem aElementOverlays
                ["addViaDelegate"; "reveal"; "custom"]]
         | None => []
         end.

(** [Promise.all] of two promises, the first rejection in the order of the
    array being reported when both reject. *)
Definition bothSettled {A B} (a : settled A) (b : settled B) : settled (A * B) :=
  match a, b with
  | Fulfilled x, Fulfilled y => Fulfilled (x, y)
  | Rejected e, _ => Rejected e
  | _, Rejected e => Rejected e
  | _, _ => Pending
  end.

(** [getMenuItems(aElementOverlays)]. *)
Definition getMenuItems (aElementOverlays : list ElementOverlay)
  : completion (settled (list MenuItem)) :=
  do! oChildren := getAllElements false aElementOverlays in
  do! oSiblings := getAllElements true aElementOverlays in
  Return (sbind (bothSettled oChildren oSiblings)
            (fun aElementsWithAggregations =>
               settle (menuItemsFor aElementOverlays aElementsWithAggregations))).

End WithFramework.
End AdditionalElementsMenu.

(* ================================================================== *)
(** * A form with three fields *)
(* ================================================================== *)

(** A small application to run the plugin on: a form with the fields
    [name], which is visible, and [city] and [zip], which are hidden; there
    is a change handler to reveal [city], none for [zip]. *)
Module Workbench.
Import Js AdditionalElementsPlugin AdditionalElementsCommands AdditionalElementsMenu.

Definition oForm : Element := {| getId := "form"; getParentId := None |}.
Definition oName : Element := {| getId := "name"; getParentId := Some "form" |}.
Definition oCity : Element := {| getId := "city"; getParentId := Some "form" |}.
Definition oZip : Element := {| getId := "zip"; getParentId := Some "form" |}.

Definition mField : ControlTypeName := {| singular := "Field"; plural := "Fields" |}.

Definition mRevealAction : Action :=
  {| changeType := Some "unhideControl";
     changeOnRelevantContainer := false;
     aggregation := "content" |}.

Definition mAddAction : Action :=
  {| changeType := Some "addFields";
     changeOnRelevantContainer := false;
     aggregation := "content" |}.

Definition oFieldMetadata : DesignTimeMetadata :=
  {| getAction := fun sAction _ =>
                    if String.eqb sAction "reveal" then Some mRevealAction else None;
     getName := fun _ => Some mField;
     getAggregationDisplayName := fun _ _ => None |}.

Definition oFormMetadata : DesignTimeMetadata :=
  {| getAction := fun _ _ => None;
     getName := fun _ => None;
     getAggregationDisplayName :=
       fun sAggregationName _ =>
         if String.eqb sAggregationName "content" then Some mField else None |}.

Definition oContent : AggregationOverlay :=
  {| getAggregationName := "content"; isIgnored := fun _ => false |}.

Definition oFormOverlay : ElementOverlay :=
  {| getOverlayId := "overlay-form";
     getElement := Some oForm;
     getParentElementOverlay := None;
     getElementVisibility := true;
     getRelevantContainer := fun _ => oForm;
     getDesignTimeMetadata := Some oFormMetadata;
     getParentAggregationOverlay := None;
     getAggregationOverlays := [oContent] |}.

Definition fieldOverlay (oField : Element) (bVisible : bool) : ElementOverlay :=
  {| getOverlayId := "overlay-" ++ getId oField;
     getElement := Some oField;
     getParentElementOverlay := Some oFormOverlay;
     getElementVisibility := bVisible;
     getRelevantContainer := fun _ => oForm;
     getDesignTimeMetadata := Some oFieldMetadata;
     getParentAggregationOverlay := Some oContent;
     getAggregationOverlays := [] |}.

Definition oNameOverlay : ElementOverlay := fieldOverlay oName true.
Definition oCityOverlay : ElementOverlay := fieldOverlay oCity false.
Definition oZipOverlay : ElementOverlay := fieldOverlay oZip false.

Definition mAddViaDelegate : AddViaDelegate :=
  {| delegateAction := mAddAction;
     requiredLibraries := Some ["sap.ui.comp"];
     modelType := "sap.ui.model.odata.v2.ODataModel" |}.

Definition byId {A : Type} (sId : string) (aEntries : list (string * A)) : option A :=
  option_map snd (find (fun e => String.eqb sId (fst e)) aEntries).

Definition framework : Framework :=
  {| getOverlay := fun oElement =>
       byId (getId oElement)
         [("form", oFormOverlay); ("name", oNameOverlay); ("city", oCityOverlay);
          ("zip", oZipOverlay)];
     getAggregation := fun oElement sAggregationName =>
       if String.eqb (getId oElement) "form" && String.eqb sAggregationName "content"
       then [oName; oCity; oZip] else [];
     findAllSiblingsInContainer := fun oParent _ =>
       match oParent with
       | Some o => [o]
       | None => []
       end;
     hasStableId := fun oOverlay =>
       match oOverlay with
       | Some _ => true
       | None => false
       end;
     hasChangeHandler := fun _ oElement =>
       Fulfilled (negb (String.eqb (getId oElement) "zip"));
     isResponsibleElementActionAvailable := fun _ _ => false;
     getResponsibleElementOverlay := fun oOverlay =>
       match oOverlay with
       | Some o => Return o
       | None => Throw TypeError
       end;
     addViaDelegateActionData := fun bSibling oOverlay =>
       Fulfilled (if negb bSibling && String.eqb (getOverlayId oOverlay) "overlay-form"
                  then [("content", mAddViaDelegate)] else []);
     customAddActionData := fun _ _ => Fulfilled [] |}.

(** The command factory hands out the request as the command. *)
Definition services : Services :=
  {| Command := CommandRequest;
     getCommandFor := fun r => Fulfilled (Some r);
     getElementInstance := fun sId =>
       byId sId [("form", oForm); ("name", oName); ("city", oCity); ("zip", oZip)];
     getIndex := fun oParent oSibling sAggregationName =>
       match oParent, sAggregationName with
       | Some o, Some s =>
           let aControls := @getAggregation framework o s in
           match oSibling with
           | Some oControl =>
               (fix indexOf (l : list Element) (i : Z) : Z :=
                  match l with
                  | [] => Z.of_nat (List.length aControls)
                  | c :: l' => if sameElement c oControl then (i + 1)%Z
                               else indexOf l' (i + 1)%Z
                  end) aControls 0%Z
           | None => Z.of_nat (List.length aControls)
           end
       | _, _ => 0%Z
       end;
     adjustIndexForMove := fun oSource oTarget iSource iTarget =>
       if sameOptElement oSource oTarget && (iSource <? iTarget)%Z && (-1 <? iSource)%Z
       then (iTarget - 1)%Z else iTarget;
     getVariantManagementReference := fun _ => None;
     createFieldLabelId := fun oParent sEntityType sBindingPath =>
       match oParent with
       | Some o => getId o ++ "_" ++ sEntityType ++ "_" ++ sBindingPath
       | None => "_" ++ sEntityType ++ "_" ++ sBindingPath
       end;
     appLibDependencies := fun _ => ["sap.m"; "sap.ui.layout"];
     appReference := fun _ => "workbench.app";
     oDataServiceUri := fun _ => Return "/sap/opu/odata/workbench/";
     propagateError := fun e => e |}.

(** What the form has as a child: the hidden field that can be revealed,
    and the properties that a delegate can add. *)
Definition mRevealCity : RevealElement :=
  {| element := oCity;
     designTimeMetadata := Some oFieldMetadata;
     action := mRevealAction |}.

Definition mFormActions : ActionsMap :=
  [("content",
    {| reveal := Some {| elements := [mRevealCity]; controlTypeNames := [mField] |};
       addViaDelegate := Some mAddViaDelegate;
       addViaCustom := None |})].

Definition noStore : Store := fun _ => None.

(** Two elements of the dialog: the hidden field and a property of the
    service. *)
Definition noChange : ChangeSpecificData :=
  {| itemChangeOnRelevantContainer := false; itemChangeType := None; content := "" |}.

Definition mCity : SelectedElement :=
  {| label := "City"; type := "invisible"; elementId := "city"; entityType := "";
     bindingPath := ""; name := ""; oDataServiceVersion := "";
     changeSpecificData := noChange; itemId := None |}.

Definition mPhone : SelectedElement :=
  {| label := "Phone"; type := "delegate"; elementId := ""; entityType := "Person";
     bindingPath := "Phone"; name := "Phone"; oDataServiceVersion := "2.0";
     changeSpecificData := noChange; itemId := None |}.

Definition mFormParents : Parents :=
  {| responsibleElementOverlay := oFormOverlay;
     relevantContainerOverlay := Some oFormOverlay;
     parentOverlay := Some oFormOverlay;
     relevantContainer := oForm;
     parent := Some oForm |}.

Definition mContentActions : SelectedActions :=
  {| actions := {| reveal := Some {| elements := [mRevealCity];
                                     controlTypeNames := [mField] |};
                   addViaDelegate := Some mAddViaDelegate;
                   addViaCustom := None |};
     selectedAggregation := Some "content" |}.

(** The menu: the form is editable as a parent only. *)
Definition _isEditableByPlugin (oOverlay : ElementOverlay) (bOverlayIsSibling : bool)
  : bool :=
  negb bOverlayIsSibling && String.eqb (getOverlayId oOverlay) "overlay-form".

Definition enhanceItemWithResponsibleElement (oItem : MenuItem)
    (aElementOverlays : list ElementOverlay) (aActionNames : list string) : MenuItem :=
  oItem.

Definition aContentElements : list AggregationElements :=
  [{| elementsAggregation := "content"; aggregationElements := [mCity; mPhone] |}].

Definition getAllElements (bOverlayIsSibling : bool)
    (aElementOverlays : list ElementOverlay)
  : completion (settled (list AggregationElements)) :=
  Return (Fulfilled (if bOverlayIsSibling then [] else aContentElements)).

(** The item of the context menu of the form. *)
Definition oAddAsChild : MenuItem :=
  {| id := "CTX_ADD_ELEMENTS_AS_CHILD";
     text := ContextMenuTitle false (Some oFormOverlay) (Some "content") false;
     enabled := IsEnabled false (Some "content");
     rank := Some 20;
     icon := "sap-icon://add";
     handler := Some (ShowAvailableElements false (Some "content") None);
     submenu := None |}.

Definition oPlugin : PluginState :=
  {| _oCachedElements := None; _oExtensibilityInfo := None; _mAddActions := noStore |}.

End Workbench.

(* ================================================================== *)
(** * Data paths and their indices *)
(* ================================================================== *)

Module DataPathSpec.
Import Js ODataMetaModel.

(** The segments of a data path without the indices among them. *)
Definition withoutIndices (aSegments : list string) : list string :=
  filter (fun sSegment => negb (rNumber_test sSegment)) aSegments.

(** The first segment, if there is one, is no index. *)
Definition startsWithName (aSegments : list string) : Prop :=
  match aSegments with
  | sSegment :: _ => rNumber_test sSegment = false
  | [] => True
  end.

(** No index is followed by another index. *)
Fixpoint noAdjacentIndices (aSegments : list string) : bool :=
  match aSegments with
  | sSegment :: aRest =>
      match aRest with
      | sNext :: _ => negb (rNumber_test sSegment && rNumber_test sNext)
      | [] => true
      end && noAdjacentIndices aRest
  | [] => true
  end.

(** What a promise is fulfilled with, if it is fulfilled. *)
Definition fulfilled {A : Type} (s : settled A) : option A :=
  match s with
  | Fulfilled a => Some a
  | _ => None
  end.

End DataPathSpec.

(* ================================================================== *)
(** * A service that refers to another service *)
(* ================================================================== *)

(** An entity set with a navigation property binding whose target is in
    the entity container of another service: the target has a path and no
    name. *)
Module Remote.
Import Js ODataMetaModel.

Definition oOrdersTarget : value :=
  VObj [("Path", VStr "Sales.Container/ORDERS")].

Definition oOrdersBinding : value :=
  VObj [("Name", VStr "PARTNER_2_ORDERS"); ("Target", oOrdersTarget)].

Definition sPartners : value :=
  VObj [("Name", VStr "PARTNERS"); ("EntityType", Service.ref "T.Partner");
        ("NavigationPropertyBindings", VArr [oOrdersBinding])].

Definition oEntityContainer : value :=
  VObj [("Name", VStr "Container"); ("EntitySets", VArr [sPartners])].

Definition oHelper : Helper := Service.helper oEntityContainer [].

End Remote.
(* ================================================================== *)
(** * The elements to reveal, declaratively *)
(* ================================================================== *)

Module RevealSpec.
Import Js AdditionalElementsPlugin.

Section Spec.
Context {F : Framework}.

(** The overlays between an overlay and the overlay of the relevant
    container, both included; up to the root where the overlay of the
    relevant container is not above the overlay. *)
Fixpoint overlaysUpTo (oRelevantContainerOverlay : option ElementOverlay)
    (oOverlay : ElementOverlay) : list ElementOverlay :=
  oOverlay
  :: (if match oRelevantContainerOverlay with
         | Some o => sameOverlay oOverlay o
         | None => false
         end
      then []
      else match getParentElementOverlay oOverlay with
           | Some oParent => overlaysUpTo oRelevantContainerOverlay oParent
           | None => []
           end).

(** The element of the overlay is not visible. *)
Definition hidden (oOverlay : ElementOverlay) : bool :=
  negb (getElementVisibility oOverlay).

(** An element of an aggregation counts as invisible under a parent: it
    has a stable id, and it is hidden itself or below something hidden. *)
Definition countsAsInvisible (oParentOverlay : ElementOverlay) (oControl : Element)
  : bool :=
  hasStableId (getOverlay oControl)
  && (existsb hidden
        (overlaysUpTo (getOverlay (getRelevantContainer oParentOverlay true))
           oParentOverlay)
      || match getOverlay oControl with
         | Some oOverlay => hidden oOverlay
         | None => false
         end).

(** An invisible element passes the checks of [_invisibleToReveal]. *)
Definition revealable (oInvisibleElement : Element) : bool :=
  match revealEnabled oInvisibleElement with
  | Fulfilled (true, _, _) => true
  | _ => false
  end.

End Spec.
End RevealSpec.

(* ================================================================== *)
(** * The selected elements, declaratively *)
(* ================================================================== *)

Module SelectionSpec.
Import Js AdditionalElementsPlugin AdditionalElementsCommands.

(** The greater label comes first, and no label comes twice. *)
Definition strictlyDescending (a b : SelectedElement) : Prop :=
  String.ltb (label b) (label a) = true.

(** An element of a type that [_createCommands] treats. *)
Definition treated (oSelectedElement : SelectedElement) : bool :=
  String.eqb (type oSelectedElement) "invisible"
  || String.eqb (type oSelectedElement) "delegate"
  || String.eqb (type oSelectedElement) "custom".

(** The last element of the list that the test holds for. *)
Definition findLast {A : Type} (f : A -> bool) (l : list A) : option A :=
  find f (List.rev l).

End SelectionSpec.
(* ================================================================== *)
(** * The elements that can be added, and what the plugin keeps *)
(* ================================================================== *)

Module AdditionalElementsElements.
Import Js AdditionalElementsPlugin AdditionalElementsCommands AdditionalElementsMenu.
Local Open Scope promise_scope.

(** [o[bOverlayIsSibling ? "asSibling" : "asChild"] = v]. *)
Definition setRelation {A : Type} (bOverlayIsSibling : bool) (v : option A)
    (o : PerRelation A) : PerRelation A :=
  if bOverlayIsSibling then {| forSibling := v; forChild := forChild o |}
  else {| forSibling := forSibling o; forChild := v |}.

(** [{}]. *)
Definition noRelation {A : Type} : PerRelation A :=
  {| forSibling := None; forChild := None |}.

(** [setCachedElements(aElements, bOverlayIsSibling)]. *)
Definition setCachedElements (st : PluginState) (aElements : list AggregationElements)
    (bOverlayIsSibling : bool) : PluginState :=
  {| _oCachedElements :=
       Some (setRelation bOverlayIsSibling (Some aElements)
               match _oCachedElements st with
               | Some o => o
               | None => noRelation
               end);
     _oExtensibilityInfo := _oExtensibilityInfo st;
     _mAddActions := _mAddActions st |}.

(** [clearExtensibilityInfo(bOverlayIsSibling)]. *)
Definition clearExtensibilityInfo (st : PluginState) (bOverlayIsSibling : bool)
  : PluginState :=
  match _oExtensibilityInfo st with
  | Some o =>
      {| _oCachedElements := _oCachedElements st;
         _oExtensibilityInfo := Some (setRelation bOverlayIsSibling None o);
         _mAddActions := _mAddActions st |}
  | None => st
  end.

(** [setExtensibilityInfo(bOverlayIsSibling, oExtensibilityInfo)]. *)
Definition setExtensibilityInfo (st : PluginState) (bOverlayIsSibling : bool)
    (oExtensibilityInfo : option ExtensibilityInfo) : PluginState :=
  {| _oCachedElements := _oCachedElements st;
     _oExtensibilityInfo :=
       Some (setRelation bOverlayIsSibling oExtensibilityInfo
               match _oExtensibilityInfo st with
               | Some o => o
               | None => noRelation
               end);
     _mAddActions := _mAddActions st |}.

(** The [_mAddActions] of the overlays after a call of [_getActions]. *)
Definition withAddActions (st : PluginState) (mAddActions : Store) : PluginState :=
  {| _oCachedElements := _oCachedElements st;
     _oExtensibilityInfo := _oExtensibilityInfo st;
     _mAddActions := mAddActions |}.

(** The analyzer of the plugin, [FieldExtensibility] and
    [Utils.isServiceUpToDate]; none of them is part of the sources.  Each
    of the functions but [getFilteredItemsList] hands out a promise. *)
Class Analyzer : Type := {
  enhanceInvisibleElements :
    option Element -> SelectedActions -> settled (list SelectedElement);
  getUnrepresentedDelegateProperties :
    option Element -> AddViaDelegate -> settled (list SelectedElement);
  getCustomAddItems :
    option Element -> AddViaCustom -> string -> settled (list SelectedElement);
  getFilteredItemsList : list (list SelectedElement) -> list SelectedElement;
  onControlSelected : option Element -> settled unit;
  isServiceUpToDate : option Element -> settled unit;
  isExtensibilityEnabled : option Element -> settled bool;
  getExtensionData : option Element -> settled (option ExtensibilityInfo)
}.

Section WithFramework.
Context {F : Framework} {An : Analyzer}.

(** [function handleExtensibility(oControl)]. *)
Definition handleExtensibility (oControl : option Element)
  : settled (option ExtensibilityInfo) :=
  sbind (onControlSelected oControl)
    (fun _ =>
       sbind (bothSettled (isServiceUpToDate oControl) (isExtensibilityEnabled oControl))
         (fun aResult =>
            let bExtensibilityEnabled := snd aResult in
            if bExtensibilityEnabled then getExtensionData oControl
            else Fulfilled None)).

(** An entry of [aPromises]. *)
Record ElementPromises : Type := {
  promisesAggregation : string;
  elementPromises :
    settled (list SelectedElement) * settled (list SelectedElement)
    * settled (list SelectedElement)
}.

(** What the callback of [each] in [getAllElements] pushes for an
    aggregation; the actions are handed to the analyzer with the name of
    the aggregation set. *)
Definition promisesFor (oParent : option Element) (sAggregationName : string)
    (mActions : AggregationActions) : ElementPromises :=
  {| promisesAggregation := sAggregationName;
     elementPromises :=
       (match reveal mActions with
        | Some _ =>
            enhanceInvisibleElements oParent
              {| actions := mActions; selectedAggregation := Some sAggregationName |}
        | None => Fulfilled []
        end,
        match addViaDelegate mActions with
        | Some mAddViaDelegate =>
            getUnrepresentedDelegateProperties oParent mAddViaDelegate
        | None => Fulfilled []
        end,
        match addViaCustom mActions with
        | Some mAddViaCustom => getCustomAddItems oParent mAddViaCustom sAggregationName
        | None => Fulfilled []
        end) |}.

(** [Promise.all] of an array of promises, the first rejection in the
    order of the array being reported when several reject. *)
Fixpoint allSettled {A : Type} (aPromises : list (settled A)) : settled (list A) :=
  match aPromises with
  | [] => Fulfilled []
  | oPromise :: aRest =>
      match oPromise, allSettled aRest with
      | Fulfilled a, Fulfilled aValues => Fulfilled (a :: aValues)
      | Rejected e, _ => Rejected e
      | _, Rejected e => Rejected e
      | _, _ => Pending
      end
  end.

(** [_combineAnalyzerResults(aAllPromises)]. *)
Definition _combineAnalyzerResults (aAllPromises : list ElementPromises)
  : settled (list AggregationElements) :=
  let aCollectedPromises :=
    map (fun aPromisesByAggregation =>
           let '(oInvisible, oDelegate, oCustom) :=
             elementPromises aPromisesByAggregation in
           sbind (all3 oInvisible oDelegate oCustom)
             (fun aAnalyzerValues =>
                let '(aInvisible, aDelegate, aCustom) := aAnalyzerValues in
                Fulfilled
                  {| elementsAggregation := promisesAggregation aPromisesByAggregation;
                     aggregationElements :=
                       getFilteredItemsList [aInvisible; aDelegate; aCustom] |}))
      aAllPromises in
  sbind (allSettled aCollectedPromises)
    (fun aElementsPerAggregation =>
       Fulfilled
         (filter (fun oElementsPerAggregation =>
                    (0 <? List.length (aggregationElements oElementsPerAggregation))%nat)
            aElementsPerAggregation)).

(** [getAllElements(bOverlayIsSibling, aElementOverlays)], where
    [oElementOverlay] is [aElementOverlays[0]], taken to be there: what is
    returned (the array that is kept, or a promise), and the plugin
    afterwards. *)
Definition getAllElements (st : PluginState) (bOverlayIsSibling : bool)
    (oElementOverlay : ElementOverlay)
  : completion (settled (list AggregationElements) * PluginState) :=
  do! mParents := _getParents bOverlayIsSibling oElementOverlay true in
  match getCachedElements st bOverlayIsSibling with
  | Some aCachedElements => Return (Fulfilled aCachedElements, st)
  | None =>
      let st1 := clearExtensibilityInfo st bOverlayIsSibling in
      let oActions :=
        _getActions bOverlayIsSibling oElementOverlay false (_mAddActions st1) in
      let st2 := withAddActions st1 (snd oActions) in
      Return
        match fst oActions with
        | Pending => (Pending, st2)
        | Rejected oError => (Rejected oError, st2)
        | Fulfilled mAllActions =>
            let aPromises :=
              map (fun mEntry => promisesFor (parent mParents) (fst mEntry) (snd mEntry))
                mAllActions in
            let bCheckExtensibility :=
              existsb (fun mEntry => isSome (addViaDelegate (snd mEntry))) mAllActions in
            match (if bCheckExtensibility then handleExtensibility (parent mParents)
                   else Fulfilled None) with
            | Pending => (Pending, st2)
            | Rejected oError => (Rejected oError, st2)
            | Fulfilled oExtensibilityInfo =>
                let st3 :=
                  setExtensibilityInfo st2 bOverlayIsSibling oExtensibilityInfo in
                match _combineAnalyzerResults aPromises with
                | Pending => (Pending, st3)
                | Rejected oError => (Rejected oError, st3)
                | Fulfilled aAllElements =>
                    (Fulfilled aAllElements,
                     setCachedElements st3 aAllElements bOverlayIsSibling)
                end
            end
        end
  end.

End WithFramework.
End AdditionalElementsElements.

(* ================================================================== *)
(** * Whether elements can be added to an overlay *)
(* ================================================================== *)

Module AdditionalElementsEditable.
Import Js AdditionalElementsPlugin.
Local Open Scope promise_scope.

(** [Utils.doIfAllControlsAreAvailable] and [checkAggregationsOnSelf] of
    the base class; neither is part of the sources.  The first is given
    overlays and a function without arguments, here by what a call of the
    function completes with, and returns a boolean or [undefined]. *)
Class Checks : Type := {
  doIfAllControlsAreAvailable :
    list (option ElementOverlay) -> completion bool -> completion (option bool);
  checkAggregationsOnSelf :
    option ElementOverlay -> string -> option string -> string -> bool
}.

Section WithFramework.
Context {F : Framework} {K : Checks}.

(** [function _isThereAnAggregationActionForSameAggregation(mActions,
    mParents)]. *)
Definition _isThereAnAggregationActionForSameAggregation (mActions : ActionsMap)
    (mParents : Parents) : completion bool :=
  match getParentAggregationOverlay (responsibleElementOverlay mParents) with
  | None => Throw TypeError
  | Some oParentAggregationOverlay =>
      let sResponsibleElementsParentAggregation :=
        getAggregationName oParentAggregationOverlay in
      Return (existsb (fun mEntry =>
                         String.eqb (fst mEntry) sResponsibleElementsParentAggregation)
                mActions)
  end.

(** The callback of [some] in [_isEditableCheck], from one aggregation to
    the next: [bEditable] is set once and ends the iteration. *)
Fixpoint someEditable (bOverlayIsSibling : bool) (mParents : Parents)
    (bEditable : bool) (mActions : ActionsMap) : bool :=
  match mActions with
  | [] => false
  | (_, mAggregationActions) :: mRest =>
      let bEditable1 :=
        if negb bEditable && AdditionalElementsMenu.isSome (reveal mAggregationActions) then true
        else bEditable in
      let bEditable2 :=
        if negb bEditable1 && negb bOverlayIsSibling
        then if AdditionalElementsMenu.isSome (addViaDelegate mAggregationActions)
             then checkAggregationsOnSelf (parentOverlay mParents) "add" None "delegate"
             else bEditable1
        else bEditable1 in
      let bEditable3 :=
        if negb bEditable2 && negb bOverlayIsSibling
           && AdditionalElementsMenu.isSome (addViaCustom mAggregationActions)
        then true else bEditable2 in
      if bEditable3 then true
      else someEditable bOverlayIsSibling mParents bEditable3 mRest
  end.

(** The function that [_isEditableCheck] hands to
    [doIfAllControlsAreAvailable]. *)
Definition editableByActions (bOverlayIsSibling : bool) (mParents : Parents)
    (mActions : ActionsMap) : completion bool :=
  do! bEditable :=
    (if bOverlayIsSibling
     then _isThereAnAggregationActionForSameAggregation mActions mParents
     else Return false) in
  Return (someEditable bOverlayIsSibling mParents bEditable mActions).

(** [_isEditableCheck(oOverlay, bOverlayIsSibling)]: what the promise
    settles in ([None] is [undefined]), and the [_mAddActions] of the
    overlays afterwards. *)
Definition _isEditableCheck (oOverlay : ElementOverlay) (bOverlayIsSibling : bool)
    (st : Store) : settled (option bool) * Store :=
  match _getParents bOverlayIsSibling oOverlay true with
  | Throw e => (Rejected e, st)
  | Return mParents =>
      match relevantContainerOverlay mParents with
      | None => (Fulfilled (Some false), st)
      | Some _ =>
          let oActions := _getActions bOverlayIsSibling oOverlay true st in
          (sbind (fst oActions)
             (fun mActions =>
                sbind (settle (doIfAllControlsAreAvailable
                                 [Some oOverlay; parentOverlay mParents]
                                 (editableByActions bOverlayIsSibling mParents mActions)))
                  (fun bEditable =>
                     Fulfilled
                       match bEditable with
                       | Some true =>
                           Some (hasStableId (Some oOverlay)
                                 && hasStableId (parentOverlay mParents))
                       | bNotEditable => bNotEditable
                       end)),
           snd oActions)
      end
  end.

(** What [_isEditable] resolves with. *)
Record Editable : Type := {
  editableAsSibling : option bool;
  editableAsChild : option bool
}.

(** [_isEditable(oOverlay, mPropertyBag)], where [oSourceElementOverlay]
    is [mPropertyBag.sourceElementOverlay]; an error is logged, and the
    promise resolves with [undefined]. *)
Definition _isEditable (oSourceElementOverlay : ElementOverlay) (st : Store)
  : settled (option Editable) * Store :=
  let oAsSibling := _isEditableCheck oSourceElementOverlay true st in
  let oAsChild := _isEditableCheck oSourceElementOverlay false (snd oAsSibling) in
  (match AdditionalElementsMenu.bothSettled (fst oAsSibling) (fst oAsChild) with
   | Pending => Pending
   | Rejected vError => Fulfilled None
   | Fulfilled aPromiseValues =>
       Fulfilled (Some {| editableAsSibling := fst aPromiseValues;
                          editableAsChild := snd aPromiseValues |})
   end,
   snd oAsChild).

End WithFramework.
End AdditionalElementsEditable.

(* ================================================================== *)
(** * The text of a menu item *)
(* ================================================================== *)

Module AdditionalElementsText.
Import Js AdditionalElementsPlugin.
Local Open Scope promise_scope.

(** The design time metadata that [_getText] asks for the description of
    an aggregation. *)
Record Description : Type := {
  getAggregationDescription : option string -> option Element -> option ControlTypeName
}.

(** What [_getText] reads of the actions of an aggregation: the name of
    the aggregation, the design time metadata of the two [add] actions,
    each of which may be missing, and the [reveal] action. *)
Record TextActions : Type := {
  textAggregation : option string;
  textAddViaCustom : option (option Description);
  textAddViaDelegate : option (option Description);
  textReveal : option Reveal
}.

Section WithResources.
(** [oTextResources.getText(sKey, aArgs)] of the library [sap.ui.rta]. *)
Variable getText : string -> list string -> string.

(** [function _getDTMetadataFromActions(mActions)]. *)
Definition _getDTMetadataFromActions (mActions : TextActions) : option Description :=
  match match textAddViaDelegate mActions with
        | Some mAddViaDelegate => mAddViaDelegate
        | None => None
        end with
  | Some oDesignTimeMetadata => Some oDesignTimeMetadata
  | None =>
      match textAddViaCustom mActions with
      | Some mAddViaCustom => mAddViaCustom
      | None => None
      end
  end.

(** [bSingular ? mControlType.singular : mControlType.plural]. *)
Definition controlTypeOf (bSingular : bool) (mControlType : ControlTypeName) : string :=
  if bSingular then singular mControlType else plural mControlType.

(** The names that [_getText] collects in [aNames]. *)
Definition collectNames (mActions : TextActions) (oParentElement : option Element)
    (bSingular : bool) : completion (list string) :=
  let sAggregationName := textAggregation mActions in
  do! aNames :=
    (match textAddViaCustom mActions, textAddViaDelegate mActions with
     | None, None => Return []
     | _, _ =>
         match _getDTMetadataFromActions mActions with
         | None => Throw TypeError
         | Some oDesignTimeMetadata =>
             Return match getAggregationDescription oDesignTimeMetadata
                            sAggregationName oParentElement with
                    | Some mControlType => [controlTypeOf bSingular mControlType]
                    | None => []
                    end
         end
     end) in
  Return (aNames
          ++ match textReveal mActions with
             | Some mReveal => map (controlTypeOf bSingular) (controlTypeNames mReveal)
             | None => []
             end)%list.

(** The [reduce] of [_getText]: a name is pushed unless it is there. *)
Fixpoint nonDuplicateNames (_aNames aNames : list string) : list string :=
  match aNames with
  | [] => _aNames
  | sName :: aRest =>
      nonDuplicateNames
        (if existsb (String.eqb sName) _aNames then _aNames
         else (_aNames ++ [sName])%list) aRest
  end.

(** [function _getText(sRtaTextKey, mActions, oParentElement, bSingular,
    sControlName)]. *)
Definition _getText (sRtaTextKey : string) (mActions : TextActions)
    (oParentElement : option Element) (bSingular : bool) (sControlName : option string)
  : completion string :=
  do! aNames := collectNames mActions oParentElement bSingular in
  let aNonDuplicateNames := nonDuplicateNames [] aNames in
  let sControlType :=
    match aNonDuplicateNames with
    | [sName] => sName
    | _ =>
        match sControlName with
        | Some (String c s) => String c s
        | _ => getText "MULTIPLE_CONTROL_NAME" []
        end
    end in
  Return (getText sRtaTextKey [sControlType]).

End WithResources.
End AdditionalElementsText.

(* ================================================================== *)
(** * The elements of the form *)
(* ================================================================== *)

Module ElementsSpec.

(** The first list is made of elements of the second, in their order. *)
Inductive keptInOrder {A : Type} : list A -> list A -> Prop :=
| kept_nil : keptInOrder [] []
| kept_skip (a : A) (l l' : list A) : keptInOrder l l' -> keptInOrder l (a :: l')
| kept_keep (a : A) (l l' : list A) : keptInOrder l l' -> keptInOrder (a :: l) (a :: l').

End ElementsSpec.

(** The analyzer finds the hidden field and a property of the service for
    the form; custom fields can be created for the entity type of the
    form; an overlay can be checked where it is there. *)
Module WorkbenchAnalyzer.
Import Js AdditionalElementsPlugin AdditionalElementsCommands AdditionalElementsMenu.
Import AdditionalElementsElements AdditionalElementsEditable Workbench.

Definition oPersonInfo : ExtensibilityInfo := {| extensionData := ["Person"] |}.

Definition analyzer : Analyzer :=
  {| enhanceInvisibleElements := fun _ _ => Fulfilled [mCity];
     getUnrepresentedDelegateProperties := fun _ _ => Fulfilled [mPhone];
     getCustomAddItems := fun _ _ _ => Fulfilled [];
     getFilteredItemsList := @List.concat SelectedElement;
     onControlSelected := fun _ => Fulfilled tt;
     isServiceUpToDate := fun _ => Fulfilled tt;
     isExtensibilityEnabled := fun _ => Fulfilled true;
     getExtensionData := fun _ => Fulfilled (Some oPersonInfo) |}.

Definition checks : Checks :=
  {| doIfAllControlsAreAvailable := fun aOverlays fnCallback =>
       if forallb isSome aOverlays
       then cbind fnCallback (fun bResult => Return (Some bResult))
       else Return None;
     checkAggregationsOnSelf := fun oOverlay _ _ _ => isSome oOverlay |}.

(** An element of the dialog of a type that is not treated. *)
Definition mSeparator : SelectedElement :=
  {| label := "Separator"; type := "separator"; elementId := ""; entityType := "";
     bindingPath := ""; name := ""; oDataServiceVersion := "";
     changeSpecificData := noChange; itemId := None |}.

(** The hidden field, revealed by two entries. *)
Definition mRevealCityAgain : RevealElement :=
  {| element := oCity; designTimeMetadata := None; action := mRevealAction |}.

Definition mTwiceActions : SelectedActions :=
  {| actions := {| reveal := Some {| elements := [mRevealCity; mRevealCityAgain];
                                     controlTypeNames := [mField] |};
                   addViaDelegate := None;
                   addViaCustom := None |};
     selectedAggregation := Some "content" |}.

(** The plugin once the elements for the children of the form were
    collected. *)
Definition oPluginWithElements : PluginState :=
  {| _oCachedElements :=
       Some {| forSibling := None; forChild := Some aContentElements |};
     _oExtensibilityInfo :=
       Some {| forSibling := None; forChild := Some oPersonInfo |};
     _mAddActions :=
       setAddActions oFormOverlay {| asSibling := []; asChild := mFormActions |}
         noStore |}.

End WorkbenchAnalyzer.

(* ================================================================== *)
(** * requestObject: what the promise settles in *)
(* ================================================================== *)

Module RequestObjectSpec.
Import Js ODataMetaModel.


Section Spec.
Context {H : Helper}.
Variable sPath : string.


End Spec.
End RequestObjectSpec.

(* ================================================================== *)
(** * requestUI5Type: the type and its constraints *)
(* ================================================================== *)

Module UI5TypeSpec.
Import Js ODataMetaModel.









End UI5TypeSpec.

(* ================================================================== *)
(** * requestMetaContext: the meta path of a data path *)
(* ================================================================== *)

Module RequestMetaContextSpec.
Import Js ODataMetaModel.
Local Open Scope promise_scope.

Section Spec.
Context {H : Helper}.
Variable sPath : string.

(** The element of the array [oObject[sIn]] that has the name [sName]. *)
Definition childByName (oObject : value) (sIn : string) (sName : value)
  : completion (option value) :=
  do! bIn := has sIn oObject in
  if bIn then
    do! aChildren := get oObject sIn in
    do! oChild := findInArray aChildren "Name" sName in
    Return (if truthy oChild then Some oChild else None)
  else Return None.

(** The first of the arrays [aIn] of [oObject] that has an element of the
    name, and the element. *)
Fixpoint firstByName (oObject : value) (aIn : list string) (sName : value)
  : completion (option (value * string)) :=
  match aIn with
  | [] => Return None
  | sIn :: aIn' =>
      do! oFound := childByName oObject sIn sName in
      match oFound with
      | Some oChild => Return (Some (oChild, sIn))
      | None => firstByName oObject aIn' sName
      end
  end.

(** The segment of a meta path that addresses the child of an array by its
    name: [/EntitySets('TEAMS')]. *)
Definition byName (sIn : string) (oChild : value) : string :=
  "/" ++ sIn ++ "('"
  ++ match get oChild "Name" with
     | Return vName => to_str vName
     | Throw _ => ""
     end
  ++ "')".

(** Where the type of an entity set, and where the type of a singleton
    is. *)
Definition typeProperty (sFoundIn : string) : string :=
  if String.eqb sFoundIn "EntitySets" then "EntityType" else "Type".

(** The first segment "is looked up as an EntitySet or Singleton by Name
    in the entity container". *)
Definition setOrSingleton (oEntityContainer : value) (sName : value)
  : settled (value * string) :=
  match firstByName oEntityContainer ["EntitySets"; "Singletons"] sName with
  | Throw e => Rejected e
  | Return None =>
      Rejected (Error ("No EntitySet or Singleton with name '" ++ to_str sName
                       ++ "' found: " ++ sPath))
  | Return (Some oFound) => Fulfilled oFound
  end.

(** "Subsequent segments are followed through NavigationPropertyBindings as
    long as they match, appending '/Target' to the meta path for each": the
    part of the meta path for the bindings, the entity set or singleton
    reached, and the segments that are left (none when the path ends
    here).  An index in the data path is skipped. *)
Fixpoint bindings (oEntityContainer : value) (aSegments : list string)
    (oObject : value) (sFoundIn : string)
  : settled (string * (value * string) * list string) :=
  let aRest :=
    match aSegments with
    | sIndex :: aSegments' => if rNumber_test sIndex then aSegments' else aSegments
    | [] => aSegments
    end in
  match aRest with
  | [] => Fulfilled ("", (oObject, sFoundIn), [])
  | sSegment :: aRest' =>
      if String.eqb sSegment "" then Fulfilled ("", (oObject, sFoundIn), []) else
      match childByName oObject "NavigationPropertyBindings" (VStr sSegment) with
      | Throw e => Rejected e
      | Return None => Fulfilled ("", (oObject, sFoundIn), aRest)
      | Return (Some oBinding) =>
          match (do! oTarget := get oBinding "Target" in get oTarget "Name") with
          | Throw e => Rejected e
          | Return sName =>
              if negb (truthy sName) then
                Rejected (Error ("Unsupported cross-service reference: " ++ sPath))
              else
                sbind (setOrSingleton oEntityContainer sName)
                  (fun oTargetSet =>
                     sbind (bindings oEntityContainer aRest' (fst oTargetSet)
                              (snd oTargetSet))
                       (fun r =>
                          Fulfilled
                            (byName "NavigationPropertyBindings" oBinding ++ "/Target"
                             ++ fst (fst r), snd (fst r), snd r)))
          end
      end
  end.

(** The type of a property: the one in place, or the one requested when
    there is but one key in its place. *)
Definition typeOf (oProperty : value) : settled value :=
  match get oProperty "Type" with
  | Throw e => Rejected e
  | Return oPropertyType =>
      match keys oPropertyType with
      | Throw e => Rejected e
      | Return aKeys =>
          if Nat.eqb (List.length aKeys) 1
          then requestTypeForNavigationProperty oProperty "Type"
          else Fulfilled oPropertyType
      end
  end.

(** "Remaining segments are matched against the type's Properties and
    NavigationProperties, rejecting with 'Unknown property' when a segment
    matches neither": the part of the meta path below the type.  From a
    property the path goes on in its type. *)
Fixpoint properties (aSegments : list string) (oType : value) : settled string :=
  match aSegments with
  | [] => Fulfilled ""
  | sSegment :: aSegments' =>
      if String.eqb sSegment "" then Fulfilled "" else
      match firstByName oType ["Properties"; "NavigationProperties"] (VStr sSegment) with
      | Throw e => Rejected e
      | Return None =>
          match get oType "QualifiedName" with
          | Throw e => Rejected e
          | Return vQualifiedName =>
              Rejected (Error ("Unknown property: " ++ to_str vQualifiedName ++ "/"
                               ++ sSegment ++ ": " ++ sPath))
          end
      | Return (Some (oProperty, sFoundIn)) =>
          let aRest :=
            match aSegments' with
            | sIndex :: aSegments'' =>
                if rNumber_test sIndex then aSegments'' else aSegments'
            | [] => aSegments'
            end in
          match aRest with
          | [] => Fulfilled (byName sFoundIn oProperty)
          | sNext :: _ =>
              if String.eqb sNext "" then Fulfilled (byName sFoundIn oProperty) else
              sbind (typeOf oProperty)
                (fun oPropertyType =>
                   sbind (properties aRest oPropertyType)
                     (fun sMore =>
                        Fulfilled (byName sFoundIn oProperty ++ "/Type" ++ sMore)))
          end
      end
  end.

(** The meta path of the data path whose first segment names [sName] and
    whose further segments are [aSegments]: the entity set or singleton,
    the bindings followed, and, "once a segment is not a
    navigation-property binding", the type ("appending '/EntityType' for
    entity sets or '/Type' for singletons") and the properties below it. *)
Definition metaPath (sName : string) (aSegments : list string) : settled string :=
  sbind requestEntityContainer
    (fun oEntityContainer =>
       sbind (setOrSingleton oEntityContainer (VStr sName))
         (fun oFirst =>
            sbind (bindings oEntityContainer aSegments (fst oFirst) (snd oFirst))
              (fun r =>
                 let sHead := byName (snd oFirst) (fst oFirst) ++ fst (fst r) in
                 match snd r with
                 | [] => Fulfilled sHead
                 | _ :: _ =>
                     let oSet := fst (snd (fst r)) in
                     let sType := typeProperty (snd (snd (fst r))) in
                     sbind (requestTypeForNavigationProperty oSet sType)
                       (fun oType =>
                          sbind (properties (snd r) oType)
                            (fun sProperties =>
                               Fulfilled (sHead ++ "/" ++ sType ++ sProperties)))
                 end))).

End Spec.
End RequestMetaContextSpec.

(* ================================================================== *)
(** * isEnabled and getMenuItems *)
(* ================================================================== *)

Module MenuSpec.
Import Js AdditionalElementsPlugin AdditionalElementsCommands AdditionalElementsMenu.

(** Which of the four cases of [getMenuItems] applies: the id of the menu
    item, whether the overlay is a sibling, whether there is a submenu. *)
Definition menuCase (bIsAvailableForChildren bIsAvailableForSibling : bool)
    (nChildren nSiblings : nat) : option (string * bool * bool) :=
  if bIsAvailableForSibling && (negb bIsAvailableForChildren || (nChildren =? 0)%nat)
  then Some ("CTX_ADD_ELEMENTS_AS_SIBLING", true, false)
  else if negb bIsAvailableForSibling && bIsAvailableForChildren
  then Some ("CTX_ADD_ELEMENTS_AS_CHILD", false, (1 <? nChildren)%nat)
  else if bIsAvailableForChildren && bIsAvailableForSibling
          && (0 <? nChildren)%nat && (0 <? nSiblings)%nat
  then Some ("CTX_ADD_ELEMENTS_CHILD_AND_SIBLING", false, true)
  else None.

End MenuSpec.

(* ================================================================== *)
(** * _createCommands *)
(* ================================================================== *)

Module CommandsSpec.
Import Js AdditionalElementsPlugin AdditionalElementsCommands.

(** The greater label comes first. *)
Definition descending (a b : SelectedElement) : Prop :=
  String.ltb (label a) (label b) = false.


Section Spec.
Context {F : Framework} {S : Services}.

(** The request for the composite command. *)
Definition compositeRequest (mParents : Parents) : CommandRequest :=
  {| requestElement := parent mParents;
     requestCommand := "composite";
     requestSettings := NoSettings;
     requestVariantManagementReference := None |}.



End Spec.
End CommandsSpec.

(* ================================================================== *)
(** * _getActions *)
(* ================================================================== *)

Module ActionsSpec.
Import Js AdditionalElementsPlugin.



Section Spec.
Context {F : Framework}.







(** ** The maps of the three computations *)





(** The map that [_getActions] computes and keeps. *)
Definition computed (bSibling : bool) (oSourceElementOverlay : ElementOverlay)
    (st : Store) (mAllActions : ActionsMap) : Store :=
  let mAddActions :=
    match st (getOverlayId oSourceElementOverlay) with
    | Some m => m
    | None => {| asSibling := []; asChild := [] |}
    end in
  setAddActions oSourceElementOverlay
    (if bSibling
     then {| asSibling := mAllActions; asChild := asChild mAddActions |}
     else {| asSibling := asSibling mAddActions; asChild := mAllActions |})
    st.

End Spec.
End ActionsSpec.

(* ================================================================== *)
(** * Facts about the JavaScript fragment *)
(* ================================================================== *)

Module JsFacts.
Import Js.

Lemma append_assoc (a b c : string) : (a ++ b) ++ c = a ++ b ++ c.
Proof.
  induction a as [|x a IH]; simpl; [reflexivity | now rewrite IH].
Qed.

Lemma append_nil_r (a : string) : a ++ "" = a.
Proof.
  induction a as [|x a IH]; simpl; [reflexivity | now rewrite IH].
Qed.


Lemma lookup_none_iff (k : string) (fields : list (string * value)) :
  lookup k fields = None <-> existsb (String.eqb k) (map fst fields) = false.
Proof.
  induction fields as [|[k' v] fields IH]; simpl.
  - tauto.
  - destruct (String.eqb k k'); simpl.
    + split; discriminate.
    + exact IH.
Qed.

(** A property that [in] does not find reads as [undefined]. *)
Lemma has_false_get (k : string) (v : value) :
  has k v = Return false -> get v k = Return VUndefined.
Proof.
  destruct v; simpl; intros Hh; try discriminate.
  - injection Hh as Hh. apply orb_false_iff in Hh as [Hl Hi].
    rewrite Hl. destruct (array_index k) as [i|]; [|reflexivity].
    apply Nat.ltb_ge in Hi. now rewrite nth_overflow.
  - injection Hh as Hh. apply lookup_none_iff in Hh. now rewrite Hh.
Qed.


Lemma state_andThen {A B} (p : promise A) (k : A -> promise B) :
  state (andThen p k)
  = match state p with
    | Pending => Pending
    | Rejected e => Rejected e
    | Fulfilled a => state (k a)
    end.
Proof.
  unfold andThen, state. destruct (snd p); reflexivity.
Qed.

Lemma requests_andThen {A B} (p : promise A) (k : A -> promise B) :
  requests (andThen p k)
  = match state p with
    | Fulfilled a => (requests p ++ requests (k a))%list
    | _ => requests p
    end.
Proof.
  unfold andThen, state, requests. destruct (snd p); reflexivity.
Qed.

Lemma andThen_lift_Return {A B} (a : A) (k : A -> promise B) :
  andThen (lift (Return a)) k = k a.
Proof.
  unfold andThen, lift, resolve. simpl. now destruct (k a).
Qed.

Lemma andThen_lift_Throw {A B} (e : exn) (k : A -> promise B) :
  andThen (lift (Throw e)) k = reject e.
Proof.
  reflexivity.
Qed.

Lemma andThen_resolve {A B} (a : A) (k : A -> promise B) :
  andThen (resolve a) k = k a.
Proof.
  unfold andThen, resolve. simpl. now destruct (k a).
Qed.

End JsFacts.

(* ================================================================== *)
(** * requestObject: proofs *)
(* ================================================================== *)

Module RequestObjectProofs.
Import Js ODataMetaModel JsFacts RequestObjectSpec.

Section Proofs.
Context {H : Helper}.









End Proofs.



End RequestObjectProofs.

(* ================================================================== *)
(** * When the type of a navigation property is requested *)
(* ================================================================== *)

Module LazyTypes.
Import Js ODataMetaModel JsFacts RequestObjectSpec RequestObjectProofs.

Section Proofs.
Context {H : Helper}.


(** One round of the loop of [followPath] in [requestMetaContext]. *)
Lemma requestMetaContext_followPath_cons (sPath sSegment : string)
    (aSegments' : list string) (oType : value) (sMetaPath : string) :
  requestMetaContext_followPath sPath (sSegment :: aSegments') oType sMetaPath
  = if String.eqb sSegment "" then resolve sMetaPath else
    andThen (lift (findChild oType ["Properties"; "NavigationProperties"]
                     (VStr sSegment) false sMetaPath))
      (fun oResult =>
         match oResult with
         | (None, _) =>
             andThen (lift (get oType "QualifiedName"))
               (fun vQualifiedName =>
                  reject (error ("Unknown property: " ++ to_str vQualifiedName ++ "/"
                                 ++ sSegment) sPath))
         | (Some (oProperty, _), sMetaPath1) =>
             match skipIndex aSegments' with
             | [] => resolve sMetaPath1
             | sNext :: _ =>
                 if String.eqb sNext "" then resolve sMetaPath1 else
                 andThen (lift (get oProperty "Type"))
                   (fun oPropertyType =>
                      andThen (lift (keys oPropertyType))
                        (fun aKeys =>
                           if Nat.eqb (List.length aKeys) 1 then
                             andThen (requestType oProperty "Type")
                               (fun oLoaded =>
                                  requestMetaContext_followPath sPath
                                    (skipIndex aSegments') oLoaded
                                    (sMetaPath1 ++ "/Type"))
                           else requestMetaContext_followPath sPath
                                  (skipIndex aSegments') oPropertyType
                                  (sMetaPath1 ++ "/Type")))
             end
         end).
Proof.
  reflexivity.
Qed.

(** One round of the loop over the navigation property bindings. *)
Lemma followBindings_unfold (sPath : string) (oEntityContainer : value)
    (aSegments : list string) (oObject : value) (sFoundIn sMetaPath : string) :
  followBindings sPath oEntityContainer aSegments oObject sFoundIn sMetaPath
  = let sProperty := if String.eqb sFoundIn "EntitySets" then "EntityType" else "Type" in
    match skipIndex aSegments with
    | [] => resolve sMetaPath
    | sSegment :: aRest' =>
        if String.eqb sSegment "" then resolve sMetaPath else
        andThen (lift (findChild oObject ["NavigationPropertyBindings"]
                         (VStr sSegment) false sMetaPath))
          (fun oNavigationResult =>
             match oNavigationResult with
             | (None, _) =>
                 andThen (requestType oObject sProperty)
                   (fun oType =>
                      requestMetaContext_followPath sPath (skipIndex aSegments) oType
                        (sMetaPath ++ "/" ++ sProperty))
             | (Some (oBinding, _), sMetaPath1) =>
                 andThen (lift (get oBinding "Target"))
                   (fun oTarget =>
                      andThen (lift (get oTarget "Name"))
                        (fun sName =>
                           if negb (truthy sName) then
                             reject (error "Unsupported cross-service reference" sPath)
                           else
                             andThen (lift (findSetOrSingleton sPath oEntityContainer
                                              sName true sMetaPath1))
                               (fun oResult =>
                                  let '(oSet, sFoundIn', sMetaPath2) := oResult in
                                  followBindings sPath oEntityContainer aRest' oSet
                                    sFoundIn' (sMetaPath2 ++ "/Target"))))
             end)
    end.
Proof.
  destruct aSegments as [|sIndex aSegments']; [reflexivity|].
  cbn [followBindings skipIndex]. destruct (rNumber_test sIndex); reflexivity.
Qed.





End Proofs.



End LazyTypes.

(* ================================================================== *)
(** * requestUI5Type: proofs *)
(* ================================================================== *)

Module UI5TypeProofs.
Import Js ODataMetaModel JsFacts UI5TypeSpec.

Lemma unorm_nonnil (d : Decimal.uint) : Decimal.unorm d <> Decimal.Nil.
Proof.
  unfold Decimal.unorm. destruct (Decimal.nzhead d); discriminate.
Qed.

Lemma to_uint_nonnil (n : nat) : Nat.to_uint n <> Decimal.Nil.
Proof.
  rewrite <- (DecimalNat.Unsigned.of_to n) at 1.
  rewrite DecimalNat.Unsigned.to_of. apply unorm_nonnil.
Qed.

(** The decimal spelling of an index is read back as that index. *)
Lemma array_index_nat_to_string (i : nat) : array_index (nat_to_string i) = Some i.
Proof.
  unfold array_index, nat_to_string.
  rewrite NilZero.usu by apply to_uint_nonnil.
  rewrite DecimalNat.Unsigned.of_to, String.eqb_refl. reflexivity.
Qed.

Lemma nat_to_string_not_length (i : nat) : String.eqb (nat_to_string i) "length" = false.
Proof.
  apply String.eqb_neq. intros Heq.
  pose proof (array_index_nat_to_string i) as Hi. rewrite Heq in Hi.
  discriminate Hi.
Qed.

(** [aArray[i]] on an array. *)
Lemma get_index (items : list value) (i : nat) :
  get (VArr items) (nat_to_string i) = Return (nth i items VUndefined).
Proof.
  simpl. now rewrite nat_to_string_not_length, array_index_nat_to_string.
Qed.













Section WithHelper.
Context {H : Helper}.




End WithHelper.




End UI5TypeProofs.

(* ================================================================== *)
(** * requestCanonicalUrl *)
(* ================================================================== *)

Module CanonicalUrlProofs.
Import Js ODataMetaModel JsFacts.

Section WithHelper.
Context {H : Helper}.
Variable bReadSettlesFirst : bool.

(** C2.  The data being read and the path resolving to a meta context
    whose object is an entity set, [requestCanonicalUrl] resolves with the
    service root URL, followed by the URI-encoded name of the entity set,
    followed by the key predicate of the entity type and the entity read;
    if the object of the meta context has no property [EntityType], the
    promise is rejected with [Not an entity: <path>]. *)
Theorem requestCanonicalUrl_entity (sServiceUrl sPath : string)
    (fnRead : string -> bool -> completion (settled value))
    (oEntityInstance : value) (pMeta : promise Context) (oMetaContext : Context)
    (pSet : promise value) (oEntitySet : value) :
  fnRead sPath true = Return (Fulfilled oEntityInstance) ->
  requestMetaContext sPath = Return pMeta ->
  state pMeta = Fulfilled oMetaContext ->
  requestObject "" (Some oMetaContext) = Return pSet ->
  state pSet = Fulfilled oEntitySet ->
  exists p : promise string,
    requestCanonicalUrl bReadSettlesFirst sServiceUrl sPath fnRead = Return p
    /\ (has "EntityType" oEntitySet = Return false ->
        state p = Rejected (Error ("Not an entity: " ++ sPath)))
    /\ (forall vEntityType pType oEntityType vName sKeyPredicate,
          get oEntitySet "EntityType" = Return vEntityType ->
          truthy vEntityType = true ->
          requestObject "EntityType" (Some oMetaContext) = Return pType ->
          state pType = Fulfilled oEntityType ->
          get oEntitySet "Name" = Return vName ->
          getKeyPredicate oEntityType oEntityInstance = Return sKeyPredicate ->
          state p
          = Fulfilled (sServiceUrl ++ encodeURIComponent (to_str vName)
                       ++ sKeyPredicate)).
Proof.
  intros Hread Hmeta Hctx Hset HentitySet.
  unfold requestCanonicalUrl. rewrite Hread, Hmeta. cbn [cbind].
  eexists. split; [reflexivity|].
  assert (Hall : state (all2 bReadSettlesFirst (external (Fulfilled oEntityInstance))
                          pMeta)
                 = Fulfilled (oEntityInstance, oMetaContext)).
  { unfold all2, external, state in *. simpl. now rewrite Hctx. }
  split.
  - intros Hhas. apply has_false_get in Hhas.
    rewrite state_andThen, Hall, state_andThen, Hset. cbn [called].
    rewrite HentitySet, Hhas, andThen_lift_Return. reflexivity.
  - intros vEntityType pType oEntityType vName sKeyPredicate
           Hget Htruthy Htype HentityType Hname Hkey.
    rewrite state_andThen, Hall, state_andThen, Hset. cbn [called].
    rewrite HentitySet, Hget, andThen_lift_Return, Htruthy. cbn [negb].
    rewrite state_andThen, Htype. cbn [called]. rewrite HentityType.
    rewrite Hname, andThen_lift_Return, Hkey, andThen_lift_Return.
    reflexivity.
Qed.

End WithHelper.

(** The statement at the first employee of the service. *)
Lemma requestCanonicalUrl_entity_witness :
  exists p : promise string,
    @requestCanonicalUrl Service.oHelper true "/service/" "/EMPLOYEES[0]"
      Service.fnRead = Return p
    /\ state p = Fulfilled "/service/EMPLOYEES(ID='1')".
Proof.
  edestruct (@requestCanonicalUrl_entity Service.oHelper true "/service/"
               "/EMPLOYEES[0]" Service.fnRead) as [p [Hp [_ Hurl]]].
  - reflexivity.
  - reflexivity.
  - reflexivity.
  - reflexivity.
  - reflexivity.
  - exists p. split; [exact Hp|].
    exact (Hurl (Service.ref "T.Worker") _ Service.tWorker (VStr "EMPLOYEES")
             "(ID='1')" eq_refl eq_refl eq_refl eq_refl eq_refl eq_refl).
Defined.

End CanonicalUrlProofs.

(* ================================================================== *)
(** * requestMetaContext: proofs *)
(* ================================================================== *)

Module RequestMetaContextProofs.
Import Js ODataMetaModel JsFacts RequestMetaContextSpec LazyTypes.

Section Proofs.
Context {H : Helper}.
Variable sPath : string.

Lemma state_then {A B} (p : promise A) (k : A -> promise B) :
  state (andThen p k) = sbind (state p) (fun a => state (k a)).
Proof.
  rewrite state_andThen. now destruct (state p).
Qed.

Lemma state_try {A B} (c : completion A) (k : A -> promise B) :
  state (andThen (lift c) k) = sbind (settle c) (fun a => state (k a)).
Proof.
  destruct c; [reflexivity | now rewrite andThen_lift_Return].
Qed.

Lemma state_requestType {B} (oObject : value) (sProperty : string)
    (k : value -> promise B) :
  state (andThen (requestType oObject sProperty) k)
  = sbind (requestTypeForNavigationProperty oObject sProperty)
      (fun oType => state (k oType)).
Proof.
  now rewrite state_then.
Qed.

Lemma sbind_sbind {A B C} (s : settled A) (k : A -> settled B) (k' : B -> settled C) :
  sbind (sbind s k) k' = sbind s (fun a => sbind (k a) k').
Proof.
  now destruct s.
Qed.

Lemma sbind_ext {A B} (s : settled A) (k k' : A -> settled B) :
  (forall a, k a = k' a) -> sbind s k = sbind s k'.
Proof.
  intros Hk. destruct s; simpl; auto.
Qed.

(** A truthy value has properties to read. *)
Lemma truthy_get (v : value) (k : string) :
  truthy v = true -> exists x, get v k = Return x.
Proof.
  destruct v; simpl; intros Ht; try discriminate; eauto.
Qed.

(** [findChild] finds what [firstByName] finds and, unless hidden, appends
    the segment that addresses it. *)
Lemma findChild_firstByName (oObject : value) (aIn : list string) (sName : value)
    (bHidden : bool) (sMetaPath : string) :
  findChild oObject aIn sName bHidden sMetaPath
  = cbind (firstByName oObject aIn sName)
      (fun oFound =>
         Return match oFound with
                | None => (None, sMetaPath)
                | Some (oChild, sIn) =>
                    (Some (oChild, sIn),
                     if bHidden then sMetaPath else sMetaPath ++ byName sIn oChild)
                end).
Proof.
  induction aIn as [|sIn aIn' IH]; cbn [findChild firstByName cbind].
  - reflexivity.
  - unfold childByName.
    destruct (has sIn oObject) as [e|bIn]; cbn [cbind]; [reflexivity|].
    destruct bIn; cbn [cbind]; [|exact IH].
    destruct (get oObject sIn) as [e|aChildren]; cbn [cbind]; [reflexivity|].
    destruct (findInArray aChildren "Name" sName) as [e|oChild]; cbn [cbind];
      [reflexivity|].
    destruct (truthy oChild) eqn:Htruthy; cbn [cbind]; [|exact IH].
    destruct bHidden; [reflexivity|].
    destruct (truthy_get oChild "Name" Htruthy) as [vName HName].
    unfold byName. rewrite HName. reflexivity.
Qed.

Lemma findSetOrSingleton_setOrSingleton (oEntityContainer sName : value)
    (bHidden : bool) (sMetaPath : string) :
  settle (findSetOrSingleton sPath oEntityContainer sName bHidden sMetaPath)
  = sbind (setOrSingleton sPath oEntityContainer sName)
      (fun oFound =>
         Fulfilled (fst oFound, snd oFound,
                    if bHidden then sMetaPath
                    else sMetaPath ++ byName (snd oFound) (fst oFound))).
Proof.
  unfold findSetOrSingleton, setOrSingleton. rewrite findChild_firstByName.
  destruct (firstByName oEntityContainer ["EntitySets"; "Singletons"] sName)
    as [e|[[oChild sIn]|]]; cbn [cbind settle sbind fst snd].
  - reflexivity.
  - reflexivity.
  - unfold error. now rewrite !append_assoc.
Qed.

(** One round of [properties]. *)
Lemma properties_cons (sSegment : string) (aSegments' : list string) (oType : value) :
  properties sPath (sSegment :: aSegments') oType
  = if String.eqb sSegment "" then Fulfilled "" else
    match firstByName oType ["Properties"; "NavigationProperties"] (VStr sSegment) with
    | Throw e => Rejected e
    | Return None =>
        match get oType "QualifiedName" with
        | Throw e => Rejected e
        | Return vQualifiedName =>
            Rejected (Error ("Unknown property: " ++ to_str vQualifiedName ++ "/"
                             ++ sSegment ++ ": " ++ sPath))
        end
    | Return (Some (oProperty, sFoundIn)) =>
        match skipIndex aSegments' with
        | [] => Fulfilled (byName sFoundIn oProperty)
        | sNext :: _ =>
            if String.eqb sNext "" then Fulfilled (byName sFoundIn oProperty) else
            sbind (typeOf oProperty)
              (fun oPropertyType =>
                 sbind (properties sPath (skipIndex aSegments') oPropertyType)
                   (fun sMore =>
                      Fulfilled (byName sFoundIn oProperty ++ "/Type" ++ sMore)))
        end
    end.
Proof.
  reflexivity.
Qed.

(** One round of [bindings]. *)
Lemma bindings_unfold (oEntityContainer : value) (aSegments : list string)
    (oObject : value) (sFoundIn : string) :
  bindings sPath oEntityContainer aSegments oObject sFoundIn
  = match skipIndex aSegments with
    | [] => Fulfilled ("", (oObject, sFoundIn), [])
    | sSegment :: aRest' =>
        if String.eqb sSegment "" then Fulfilled ("", (oObject, sFoundIn), []) else
        match childByName oObject "NavigationPropertyBindings" (VStr sSegment) with
        | Throw e => Rejected e
        | Return None => Fulfilled ("", (oObject, sFoundIn), skipIndex aSegments)
        | Return (Some oBinding) =>
            match cbind (get oBinding "Target") (fun oTarget => get oTarget "Name") with
            | Throw e => Rejected e
            | Return sName =>
                if negb (truthy sName) then
                  Rejected (Error ("Unsupported cross-service reference: " ++ sPath))
                else
                  sbind (setOrSingleton sPath oEntityContainer sName)
                    (fun oTargetSet =>
                       sbind (bindings sPath oEntityContainer aRest' (fst oTargetSet)
                                (snd oTargetSet))
                         (fun r =>
                            Fulfilled
                              (byName "NavigationPropertyBindings" oBinding
                               ++ "/Target" ++ fst (fst r), snd (fst r), snd r)))
            end
        end
    end.
Proof.
  destruct aSegments as [|sIndex aSegments']; [reflexivity|].
  cbn [bindings skipIndex]. destruct (rNumber_test sIndex); reflexivity.
Qed.

Lemma skipIndex_length (aSegments : list string) :
  List.length (skipIndex aSegments) <= List.length aSegments.
Proof.
  destruct aSegments as [|s r]; simpl; [lia|].
  destruct (rNumber_test s); simpl; lia.
Qed.

(** [followPath] appends to the meta path what [properties] tells. *)
Lemma followPath_properties (n : nat) :
  forall (aSegments : list string) (oType : value) (sMetaPath : string),
    List.length aSegments <= n ->
    state (requestMetaContext_followPath sPath aSegments oType sMetaPath)
    = sbind (properties sPath aSegments oType)
        (fun sProperties => Fulfilled (sMetaPath ++ sProperties)).
Proof.
  induction n as [|n IH]; intros aSegments oType sMetaPath Hlen.
  - destruct aSegments; [|simpl in Hlen; lia].
    simpl. now rewrite append_nil_r.
  - destruct aSegments as [|sSegment aSegments'].
    { simpl. now rewrite append_nil_r. }
    rewrite requestMetaContext_followPath_cons, properties_cons.
    destruct (String.eqb sSegment "").
    { simpl. now rewrite append_nil_r. }
    rewrite state_try, findChild_firstByName.
    destruct (firstByName oType ["Properties"; "NavigationProperties"] (VStr sSegment))
      as [e|[[oProperty sFoundIn]|]]; cbn [cbind settle sbind].
    + reflexivity.
    + assert (Hrest : List.length (skipIndex aSegments') <= n).
      { pose proof (skipIndex_length aSegments'). simpl in Hlen. lia. }
      destruct (skipIndex aSegments') as [|sNext aMore] eqn:Hskip.
      { reflexivity. }
      destruct (String.eqb sNext "").
      { reflexivity. }
      rewrite state_try. unfold typeOf.
      destruct (get oProperty "Type") as [e|oPropertyType]; cbn [settle sbind];
        [reflexivity|].
      rewrite state_try.
      destruct (keys oPropertyType) as [e|aKeys]; cbn [settle sbind]; [reflexivity|].
      destruct (Nat.eqb (List.length aKeys) 1).
      * rewrite state_requestType.
        destruct (requestTypeForNavigationProperty oProperty "Type")
          as [|e|oLoaded]; cbn [sbind]; try reflexivity.
        rewrite (IH _ _ _ Hrest).
        destruct (properties sPath (sNext :: aMore) oLoaded); cbn [sbind];
          try reflexivity.
        now rewrite !append_assoc.
      * cbn [sbind]. rewrite (IH _ _ _ Hrest).
        destruct (properties sPath (sNext :: aMore) oPropertyType); cbn [sbind];
          try reflexivity.
        now rewrite !append_assoc.
    + rewrite state_try.
      destruct (get oType "QualifiedName") as [e|vQualifiedName]; cbn [settle sbind];
        [reflexivity|].
      unfold error. cbn [reject state snd]. now rewrite !append_assoc.
Qed.

(** The loop over the bindings appends what [bindings] tells and goes on
    into the type when segments are left. *)
Lemma followBindings_bindings (oEntityContainer : value) (n : nat) :
  forall (aSegments : list string) (oObject : value) (sFoundIn sMetaPath : string),
    List.length aSegments <= n ->
    state (followBindings sPath oEntityContainer aSegments oObject sFoundIn sMetaPath)
    = sbind (bindings sPath oEntityContainer aSegments oObject sFoundIn)
        (fun r =>
           let sHead := sMetaPath ++ fst (fst r) in
           match snd r with
           | [] => Fulfilled sHead
           | _ :: _ =>
               let oSet := fst (snd (fst r)) in
               let sType := typeProperty (snd (snd (fst r))) in
               sbind (requestTypeForNavigationProperty oSet sType)
                 (fun oType =>
                    sbind (properties sPath (snd r) oType)
                      (fun sProperties =>
                         Fulfilled (sHead ++ "/" ++ sType ++ sProperties)))
           end).
Proof.
  induction n as [|n IH]; intros aSegments oObject sFoundIn sMetaPath Hlen.
  - destruct aSegments; [|simpl in Hlen; lia].
    simpl. now rewrite append_nil_r.
  - rewrite followBindings_unfold, bindings_unfold. cbv zeta.
    pose proof (skipIndex_length aSegments) as Hskiplen.
    destruct (skipIndex aSegments) as [|sSegment aRest'] eqn:Hskip.
    { simpl. now rewrite append_nil_r. }
    destruct (String.eqb sSegment "") eqn:Hempty.
    { simpl. now rewrite append_nil_r. }
    rewrite state_try, findChild_firstByName. cbn [firstByName cbind].
    destruct (childByName oObject "NavigationPropertyBindings" (VStr sSegment))
      as [e|[oBinding|]]; cbn [cbind settle sbind fst snd].
    + reflexivity.
    + rewrite state_try.
      destruct (get oBinding "Target") as [e|oTarget]; cbn [cbind settle sbind];
        [reflexivity|].
      rewrite state_try.
      destruct (get oTarget "Name") as [e|sName]; cbn [settle sbind]; [reflexivity|].
      destruct (truthy sName); cbn [negb]; [|reflexivity].
      rewrite state_try, findSetOrSingleton_setOrSingleton, !sbind_sbind.
      apply sbind_ext. intros [oSet sFoundIn']. cbn [sbind fst snd].
      rewrite IH by (simpl in Hskiplen; simpl in Hlen; lia).
      rewrite sbind_sbind. apply sbind_ext. intros [[sMore oReached] aLeft].
      cbn [sbind fst snd]. cbv zeta. rewrite !append_assoc.
      destruct aLeft; [reflexivity|].
      apply sbind_ext. intros oType. apply sbind_ext. intros sProperties.
      now rewrite !append_assoc.
    + rewrite state_requestType. rewrite append_nil_r.
      apply sbind_ext. intros oType.
      rewrite (followPath_properties (List.length (sSegment :: aRest'))) by lia.
      apply sbind_ext. intros sProperties. unfold typeProperty.
      now rewrite !append_assoc.
Qed.

(** C1.  For a data path that is split into segments the first of which
    names an entity set or singleton (an identifier, possibly followed by
    an opening bracket or parenthesis), [requestMetaContext] returns a
    promise that settles as [metaPath] tells: the name is looked up in the
    [EntitySets] and then in the [Singletons] of the entity container and
    the promise rejected with an error naming it if it is in neither; the
    following segments are followed through the
    [NavigationPropertyBindings] as long as they match, [/Target] being
    appended for each; at the first segment that is no binding the path
    goes into the type ([/EntityType] for an entity set, [/Type] for a
    singleton) and the remaining segments are matched against its
    [Properties] and [NavigationProperties], the promise being rejected
    with [Unknown property] when one matches neither; the promise resolves
    with the context of the meta path accumulated. *)
Theorem requestMetaContext_resolution (sFirst sName : string) (aRest : list string) :
  splitPath sPath = Return (sFirst :: aRest) ->
  rEntitySetName_exec sFirst = Some sName ->
  exists p : promise Context,
    requestMetaContext sPath = Return p
    /\ state p
       = sbind (metaPath sPath sName aRest)
           (fun sMetaPath => Fulfilled (getContext sMetaPath))
    /\ (forall oEntityContainer,
          requestEntityContainer = Fulfilled oEntityContainer ->
          firstByName oEntityContainer ["EntitySets"; "Singletons"] (VStr sName)
          = Return None ->
          state p
          = Rejected (Error ("No EntitySet or Singleton with name '" ++ sName
                             ++ "' found: " ++ sPath))).
Proof.
  intros Hsplit Hname. unfold requestMetaContext.
  rewrite Hsplit. cbn [cbind]. rewrite Hname.
  eexists. split; [reflexivity|].
  assert (Hstate :
            state
              (andThen
                 (andThen (external requestEntityContainer)
                    (fun oEntityContainer =>
                       andThen
                         (lift (findSetOrSingleton sPath oEntityContainer
                                  (VStr sName) false ""))
                         (fun oResult =>
                            let '(oSet, sFoundIn, sMetaPath) := oResult in
                            followBindings sPath oEntityContainer aRest oSet sFoundIn
                              sMetaPath)))
                 (fun sMetaPath => resolve (getContext sMetaPath)))
            = sbind (metaPath sPath sName aRest)
                (fun sMetaPath => Fulfilled (getContext sMetaPath))).
  { rewrite !state_then. unfold metaPath, external, state at 1. cbn [snd].
    rewrite !sbind_sbind. apply sbind_ext. intros oEntityContainer.
    rewrite state_try, findSetOrSingleton_setOrSingleton, !sbind_sbind.
    apply sbind_ext. intros [oSet sFoundIn]. cbn [sbind fst snd].
    rewrite (followBindings_bindings oEntityContainer (List.length aRest))
      by apply le_n.
    rewrite !sbind_sbind. apply sbind_ext. intros [[sMore oReached] aLeft].
    cbn [fst snd]. cbv zeta.
    destruct aLeft as [|sLeft aLeft]; [reflexivity|].
    rewrite !sbind_sbind. apply sbind_ext. intros oType.
    rewrite !sbind_sbind. apply sbind_ext. intros sProperties. reflexivity. }
  split; [exact Hstate|].
  intros oEntityContainer Hcontainer Hnone. rewrite Hstate.
  unfold metaPath, setOrSingleton. rewrite Hcontainer. cbn [sbind].
  rewrite Hnone. reflexivity.
Qed.

End Proofs.

(** The statement at a path of the service that follows a binding and goes
    on into the type of its target. *)
Lemma requestMetaContext_resolution_witness :
  exists p : promise Context,
    @requestMetaContext Service.oHelper
      "/EMPLOYEES[0]/EMPLOYEE_2_TEAM/TEAM_2_EMPLOYEES/3/AGE" = Return p
    /\ state p
       = Fulfilled
           (getContext
              ("/EntitySets('EMPLOYEES')"
               ++ "/NavigationPropertyBindings('EMPLOYEE_2_TEAM')/Target"
               ++ "/EntityType/NavigationProperties('TEAM_2_EMPLOYEES')"
               ++ "/Type/Properties('AGE')")).
Proof.
  destruct (@requestMetaContext_resolution Service.oHelper
              "/EMPLOYEES[0]/EMPLOYEE_2_TEAM/TEAM_2_EMPLOYEES/3/AGE"
              "EMPLOYEES[0]" "EMPLOYEES"
              ["EMPLOYEE_2_TEAM"; "TEAM_2_EMPLOYEES"; "3"; "AGE"]
              eq_refl eq_refl) as [p [Hp [Hstate _]]].
  exists p. split; [exact Hp|]. rewrite Hstate. reflexivity.
Defined.

End RequestMetaContextProofs.

(* ================================================================== *)
(** * isEnabled and getMenuItems: proofs *)
(* ================================================================== *)

Module MenuProofs.
Import Js AdditionalElementsPlugin AdditionalElementsCommands AdditionalElementsMenu.
Import MenuSpec.

Section Proofs.
Context {F : Framework}.
Variable _isEditableByPlugin : ElementOverlay -> bool -> bool.
Variable enhanceItemWithResponsibleElement :
  MenuItem -> list ElementOverlay -> list string -> MenuItem.
Variable getAllElements :
  bool -> list ElementOverlay -> completion (settled (list AggregationElements)).

(** C9.  With more than one overlay [isEnabled] returns [false], whatever
    the relation, the aggregation, the actions, the cached elements and the
    extensibility information are. *)
Theorem isEnabled_several_overlays (st : PluginState) (bOverlayIsSibling : bool)
    (aElementOverlays : list ElementOverlay) (sAggregationName : option string) :
  1 < List.length aElementOverlays ->
  isEnabled st bOverlayIsSibling aElementOverlays sAggregationName = Return false.
Proof.
  intros Hseveral. unfold isEnabled.
  apply Nat.ltb_lt in Hseveral. now rewrite Hseveral.
Qed.

(** The callback of [getMenuItems] builds the item of the case that
    applies, and no other. *)
Lemma menuItemsFor_case (aElementOverlays : list ElementOverlay)
    (aChildren aSiblings : list AggregationElements) :
  menuItemsFor _isEditableByPlugin enhanceItemWithResponsibleElement aElementOverlays
    (aChildren, aSiblings)
  = match menuCase (isAvailable _isEditableByPlugin false aElementOverlays)
            (isAvailable _isEditableByPlugin true aElementOverlays)
            (List.length aChildren) (List.length aSiblings) with
    | Some (sPluginId, bOverlayIsSibling, bHasSubMenu) =>
        cbind (_buildMenuItem enhanceItemWithResponsibleElement sPluginId
                 bOverlayIsSibling aElementOverlays (aChildren, aSiblings) bHasSubMenu)
          (fun oItem =>
             Return [enhanceItemWithResponsibleElement oItem aElementOverlays
                       ["addViaDelegate"; "reveal"; "custom"]])
    | None => Return []
    end.
Proof.
  unfold menuItemsFor, menuCase. cbn [fst snd].
  destruct (isAvailable _isEditableByPlugin true aElementOverlays),
    (isAvailable _isEditableByPlugin false aElementOverlays);
    destruct aChildren as [|c1 [|c2 aChildren]];
    destruct aSiblings as [|s1 aSiblings]; cbn;
    repeat match goal with
           | |- context [_buildMenuItem ?e ?i ?b ?o ?a ?s] =>
               destruct (_buildMenuItem e i b o a s)
           end; reflexivity.
Qed.

(** C10.  The two promises of [getAllElements] being resolved,
    [getMenuItems] returns a promise that, when it resolves, resolves with
    at most one menu item: with none when none of the four cases applies,
    and with the one item built for the case that applies (with its
    submenu, if it has one) otherwise.  There are never two top-level
    items, one for the sibling and one for the child. *)
Theorem getMenuItems_at_most_one (aElementOverlays : list ElementOverlay)
    (aChildren aSiblings : list AggregationElements) :
  getAllElements false aElementOverlays = Return (Fulfilled aChildren) ->
  getAllElements true aElementOverlays = Return (Fulfilled aSiblings) ->
  exists s : settled (list MenuItem),
    getMenuItems _isEditableByPlugin enhanceItemWithResponsibleElement getAllElements
      aElementOverlays = Return s
    /\ (forall aMenuItems, s = Fulfilled aMenuItems -> List.length aMenuItems <= 1)
    /\ (menuCase (isAvailable _isEditableByPlugin false aElementOverlays)
          (isAvailable _isEditableByPlugin true aElementOverlays)
          (List.length aChildren) (List.length aSiblings) = None ->
        s = Fulfilled [])
    /\ (forall sPluginId bOverlayIsSibling bHasSubMenu oItem,
          menuCase (isAvailable _isEditableByPlugin false aElementOverlays)
            (isAvailable _isEditableByPlugin true aElementOverlays)
            (List.length aChildren) (List.length aSiblings)
          = Some (sPluginId, bOverlayIsSibling, bHasSubMenu) ->
          (forall aMenuItems, s = Fulfilled aMenuItems -> List.length aMenuItems = 1)
          /\ (_buildMenuItem enhanceItemWithResponsibleElement sPluginId
                bOverlayIsSibling aElementOverlays (aChildren, aSiblings) bHasSubMenu
              = Return oItem ->
              s = Fulfilled [enhanceItemWithResponsibleElement oItem aElementOverlays
                               ["addViaDelegate"; "reveal"; "custom"]]
              /\ id oItem = sPluginId
              /\ (isSome (submenu oItem) = bHasSubMenu))).
Proof.
  intros Hchildren Hsiblings. unfold getMenuItems.
  rewrite Hchildren, Hsiblings. cbn [cbind bothSettled sbind].
  eexists. split; [reflexivity|].
  rewrite menuItemsFor_case.
  destruct (menuCase (isAvailable _isEditableByPlugin false aElementOverlays)
              (isAvailable _isEditableByPlugin true aElementOverlays)
              (List.length aChildren) (List.length aSiblings))
    as [[[sPluginId bOverlayIsSibling] bHasSubMenu]|].
  - destruct (_buildMenuItem enhanceItemWithResponsibleElement sPluginId
                bOverlayIsSibling aElementOverlays (aChildren, aSiblings) bHasSubMenu)
      as [e|oItem] eqn:Hbuild; cbn [cbind settle].
    + split; [intros ? [=]|]. split; [intros [=]|].
      intros ? ? ? ? [= <- <- <-]. split; [intros ? [=]|]. congruence.
    + split; [intros ? [= <-]; simpl; lia|]. split; [intros [=]|].
      intros ? ? ? oItem' [= <- <- <-]. split; [intros ? [= <-]; reflexivity|].
      intros Hbuild'. assert (oItem' = oItem) as -> by congruence. clear Hbuild'.
      split; [reflexivity|].
      unfold _buildMenuItem in Hbuild.
      destruct bHasSubMenu; cbn [cbind] in Hbuild.
      * destruct (_buildSubmenuItems enhanceItemWithResponsibleElement false
                    aElementOverlays (fst (aChildren, aSiblings))); cbn [cbind] in Hbuild;
          [discriminate|].
        destruct (String.eqb sPluginId "CTX_ADD_ELEMENTS_CHILD_AND_SIBLING");
          cbn [cbind] in Hbuild.
        -- destruct (_buildSubmenuItems enhanceItemWithResponsibleElement true
                       aElementOverlays (snd (aChildren, aSiblings)));
             cbn [cbind] in Hbuild; [discriminate|].
           injection Hbuild as <-. split; reflexivity.
        -- injection Hbuild as <-. split; reflexivity.
      * injection Hbuild as <-. split; reflexivity.
  - cbn [settle]. split; [intros ? [= <-]; simpl; lia|].
    split; [reflexivity|]. intros ? ? ? ? [=].
Qed.

End Proofs.
End MenuProofs.

(* ================================================================== *)
(** * _createCommands: proofs *)
(* ================================================================== *)

Module CommandsProofs.
Import Js AdditionalElementsPlugin AdditionalElementsCommands CommandsSpec.

Lemma ltb_asym (a b : string) : String.ltb a b = true -> String.ltb b a = false.
Proof.
  unfold String.ltb. rewrite (String.compare_antisym b a).
  destruct (String.compare a b); simpl; congruence.
Qed.

Lemma insertByLabel_perm (x : SelectedElement) (l : list SelectedElement) :
  Permutation (x :: l) (insertByLabel x l).
Proof.
  induction l as [|y l IH]; simpl.
  - apply Permutation_refl.
  - destruct (String.ltb (label x) (label y)).
    + eapply perm_trans; [apply perm_swap|]. now apply perm_skip.
    + apply Permutation_refl.
Qed.

Lemma sortByLabel_perm (l : list SelectedElement) : Permutation l (sortByLabel l).
Proof.
  induction l as [|x l IH]; simpl.
  - apply perm_nil.
  - eapply perm_trans; [apply perm_skip, IH | apply insertByLabel_perm].
Qed.

Lemma insertByLabel_hd (x y : SelectedElement) (l : list SelectedElement) :
  HdRel descending y l -> descending y x -> HdRel descending y (insertByLabel x l).
Proof.
  intros Hhd Hyx. destruct l as [|z l]; simpl.
  - now constructor.
  - destruct (String.ltb (label x) (label z)); constructor; auto.
    now inversion Hhd.
Qed.

Lemma insertByLabel_sorted (x : SelectedElement) (l : list SelectedElement) :
  Sorted descending l -> Sorted descending (insertByLabel x l).
Proof.
  induction 1 as [|y l Hsorted IH Hhd]; simpl.
  - repeat constructor.
  - destruct (String.ltb (label x) (label y)) eqn:Hxy.
    + constructor; [exact IH|]. apply insertByLabel_hd; [exact Hhd|].
      now apply ltb_asym.
    + constructor; [now constructor|]. now constructor.
Qed.

Lemma sortByLabel_sorted (l : list SelectedElement) : Sorted descending (sortByLabel l).
Proof.
  induction l as [|x l IH]; simpl.
  - constructor.
  - now apply insertByLabel_sorted.
Qed.

Lemma sortByLabel_nil (l : list SelectedElement) : sortByLabel l = [] -> l = [].
Proof.
  intros Hnil. pose proof (sortByLabel_perm l) as Hperm. rewrite Hnil in Hperm.
  now apply Permutation_sym, Permutation_nil in Hperm.
Qed.

Section Proofs.
Context {F : Framework} {S : Services}.













End Proofs.
End CommandsProofs.

(* ================================================================== *)
(** * _getActions: proofs *)
(* ================================================================== *)

Module ActionsProofs.
Import Js AdditionalElementsPlugin ActionsSpec.

Lemma actionsOf_setActions (k k' : string) (a : AggregationActions) (m : ActionsMap) :
  actionsOf k (setActions k' a m) = if String.eqb k k' then Some a else actionsOf k m.
Proof.
  induction m as [|[k0 a0] m IH]; simpl.
  - reflexivity.
  - destruct (String.eqb k' k0) eqn:Hk'; simpl.
    + apply String.eqb_eq in Hk'. subst k0. now destruct (String.eqb k k').
    + rewrite IH. destruct (String.eqb k k0) eqn:Hk; [|reflexivity].
      apply String.eqb_eq in Hk. subst k0. now rewrite String.eqb_sym, Hk'.
Qed.





Section Field.
Context {X : Type} (f : AggregationActions -> option X).
Hypothesis f_merge :
  forall a b, f (mergeActions a b) = match f b with Some x => Some x | None => f a end.
Hypothesis f_none : f noActions = None.





End Field.

Section Proofs.
Context {F : Framework}.





(** ** The [reveal] entries *)










(** ** [merge] of the three maps *)







(** ** [_getActions] *)

Lemma getActions_cached (bSibling : bool) (oSourceElementOverlay : ElementOverlay)
    (st : Store) (mAddActions : AddActions) :
  st (getOverlayId oSourceElementOverlay) = Some mAddActions ->
  _getActions bSibling oSourceElementOverlay false st
  = (Fulfilled (if bSibling then asSibling mAddActions else asChild mAddActions), st).
Proof.
  intros Hcached. unfold _getActions. cbn [negb]. now rewrite Hcached.
Qed.


Lemma getActions_computed (bSibling : bool) (oSourceElementOverlay : ElementOverlay)
    (bInvalidate : bool) (st st' : Store) (mActions : ActionsMap) :
  bInvalidate = true \/ st (getOverlayId oSourceElementOverlay) = None ->
  _getActions bSibling oSourceElementOverlay bInvalidate st = (Fulfilled mActions, st') ->
  exists mReveal mAddViaDelegate mAddViaCustom,
    _getRevealActions bSibling oSourceElementOverlay = Return (Fulfilled mReveal)
    /\ _getAddViaDelegateActions bSibling oSourceElementOverlay
       = Return (Fulfilled mAddViaDelegate)
    /\ _getCustomAddActions bSibling oSourceElementOverlay
       = Return (Fulfilled mAddViaCustom)
    /\ mActions = merge mReveal mAddViaDelegate mAddViaCustom
    /\ st' = computed bSibling oSourceElementOverlay st mActions.
Proof.
  intros Hcompute. unfold _getActions.
  assert (Hnone : (if negb bInvalidate then st (getOverlayId oSourceElementOverlay)
                   else None) = None).
  { destruct Hcompute as [->|Hnone]; [reflexivity|].
    rewrite Hnone. now destruct (negb bInvalidate). }
  rewrite Hnone.
  destruct (_getRevealActions bSibling oSourceElementOverlay) as [e|sReveal];
    [discriminate|].
  destruct (_getAddViaDelegateActions bSibling oSourceElementOverlay) as [e|sDelegate];
    [discriminate|].
  destruct (_getCustomAddActions bSibling oSourceElementOverlay) as [e|sCustom];
    [discriminate|].
  destruct (_checkInvalidAddActions bSibling oSourceElementOverlay) as [e|[]];
    [discriminate|].
  cbn [cbind].
  destruct sReveal as [|eReveal|mReveal], sDelegate as [|eDelegate|mDelegate],
    sCustom as [|eCustom|mCustom]; cbn [all3]; try discriminate.
  intros [= <- <-]. now exists mReveal, mDelegate, mCustom.
Qed.



End Proofs.
End ActionsProofs.

(* ================================================================== *)
(** * The plugin on the form *)
(* ================================================================== *)

Module WorkbenchFacts.
Import Js AdditionalElementsPlugin AdditionalElementsCommands AdditionalElementsMenu.
Import ActionsSpec CommandsSpec MenuSpec Workbench.


Lemma isEnabled_several_overlays_witness :
  1 < List.length [oFormOverlay; oNameOverlay]
  /\ @isEnabled framework oPlugin false [oFormOverlay; oNameOverlay] (Some "content")
     = Return false.
Proof.
  assert (Hseveral : 1 < List.length [oFormOverlay; oNameOverlay]) by (simpl; lia).
  split; [exact Hseveral|].
  exact (@MenuProofs.isEnabled_several_overlays framework oPlugin false
           [oFormOverlay; oNameOverlay] (Some "content") Hseveral).
Defined.

Lemma getMenuItems_at_most_one_witness :
  getAllElements false [oFormOverlay] = Return (Fulfilled aContentElements)
  /\ getAllElements true [oFormOverlay] = Return (Fulfilled [])
  /\ getMenuItems _isEditableByPlugin enhanceItemWithResponsibleElement
       getAllElements [oFormOverlay] = Return (Fulfilled [oAddAsChild]).
Proof.
  split; [reflexivity|]. split; [reflexivity|].
  destruct (MenuProofs.getMenuItems_at_most_one _isEditableByPlugin
              enhanceItemWithResponsibleElement getAllElements [oFormOverlay]
              aContentElements [] eq_refl eq_refl) as (s & Hitems & _ & _ & Hcase).
  destruct (Hcase "CTX_ADD_ELEMENTS_AS_CHILD" false false oAddAsChild eq_refl)
    as [_ Hitem].
  destruct (Hitem eq_refl) as (Hs & _).
  now rewrite Hitems, Hs.
Defined.


End WorkbenchFacts.

(* ================================================================== *)
(** * The meta model: paths that are refused, indices, type requests *)
(* ================================================================== *)

Module MetaModelFacts.
Import Js ODataMetaModel JsFacts RequestMetaContextSpec RequestMetaContextProofs.
Import LazyTypes DataPathSpec.
Local Open Scope promise_scope.

(** ** The regular expression of the first segment *)

Lemma span_word (p : ascii -> bool) (s : string) :
  forall w r,
    span p s = (w, r) ->
    s = w ++ r /\ string_forall p w = true
    /\ match r with
       | String c _ => p c = false
       | EmptyString => True
       end.
Proof.
  induction s as [|c s IH]; intros w r; simpl.
  - intros [= <- <-]. auto.
  - destruct (p c) eqn:Hc.
    + destruct (span p s) as [a b]. intros [= <- <-].
      destruct (IH a b eq_refl) as (-> & Hall & Hrest).
      simpl. rewrite Hc, Hall. auto.
    + intros [= <- <-]. simpl. rewrite Hc. auto.
Qed.

Lemma span_stops (p : ascii -> bool) (w : string) (c : ascii) (r : string) :
  string_forall p w = true -> p c = false ->
  span p (w ++ String c r) = (w, String c r).
Proof.
  induction w as [|a w IH]; simpl; intros Hall Hc.
  - now rewrite Hc.
  - apply andb_prop in Hall as [Ha Hw]. now rewrite Ha, (IH Hw Hc).
Qed.

Lemma span_all (p : ascii -> bool) (w : string) :
  string_forall p w = true -> span p w = (w, "").
Proof.
  induction w as [|a w IH]; simpl; intros Hall; [reflexivity|].
  apply andb_prop in Hall as [Ha Hw]. now rewrite Ha, (IH Hw).
Qed.

(** X1. [rEntitySetName] finds the name in a segment exactly when the
    segment is a non-empty word, alone or followed by an opening bracket
    or parenthesis and anything after it; the name is that word. *)
Theorem rEntitySetName_exec_matches (s w : string) :
  rEntitySetName_exec s = Some w
  <-> w <> ""
      /\ string_forall is_word_char w = true
      /\ (s = w \/ exists r, s = w ++ "[" ++ r \/ s = w ++ "(" ++ r).
Proof.
  unfold rEntitySetName_exec. split.
  - destruct (span is_word_char s) as [a b] eqn:Hspan.
    destruct (span_word _ _ _ _ Hspan) as (-> & Hall & Hrest).
    destruct a as [|c a]; [discriminate|].
    destruct b as [|d b].
    + intros [= <-]. split; [discriminate|]. split; [exact Hall|].
      left. now rewrite append_nil_r.
    + destruct (Ascii.eqb d "[") eqn:Hbracket.
      * intros [= <-]. apply Ascii.eqb_eq in Hbracket. subst d.
        split; [discriminate|]. split; [exact Hall|]. right. exists b. now left.
      * destruct (Ascii.eqb d "(") eqn:Hparen; [|discriminate].
        intros [= <-]. apply Ascii.eqb_eq in Hparen. subst d.
        split; [discriminate|]. split; [exact Hall|]. right. exists b. now right.
  - intros (Hne & Hall & [-> | (r & [-> | ->])]).
    + rewrite (span_all _ _ Hall). destruct w; [congruence|reflexivity].
    + cbn [append]. rewrite (span_stops _ _ "["%char r Hall eq_refl).
      destruct w; [congruence|reflexivity].
    + cbn [append]. rewrite (span_stops _ _ "("%char r Hall eq_refl).
      destruct w; [congruence|reflexivity].
Qed.

Section Facts.
Context {H : Helper}.

(** ** Requests for types *)

Lemma requests_try {A B} (c : completion A) (k : A -> promise B) :
  requests (andThen (lift c) k)
  = match c with
    | Throw _ => []
    | Return a => requests (k a)
    end.
Proof.
  destruct c; [reflexivity | now rewrite andThen_lift_Return].
Qed.

Lemma requests_requestType_then {B} (oObject : value) (sProperty : string)
    (k : value -> promise B) :
  requests (andThen (requestType oObject sProperty) k)
  = TypeRequest oObject sProperty
    :: match requestTypeForNavigationProperty oObject sProperty with
       | Fulfilled oType => requests (k oType)
       | _ => []
       end.
Proof.
  rewrite requests_andThen. unfold requestType, state, requests. cbn [fst snd].
  now destruct (requestTypeForNavigationProperty oObject sProperty).
Qed.

Lemma requestObject_followPath_requests (sPath : string) (aSegments : list string) :
  forall oObject,
    List.length (requests (requestObject_followPath sPath aSegments oObject))
    <= List.length aSegments.
Proof.
  induction aSegments as [|sSegment aSegments' IH]; intros oObject.
  - simpl. lia.
  - cbn [requestObject_followPath List.length]. rewrite requests_try.
    destruct (parseSegment sSegment) as [e|oPart]; [simpl; lia|].
    rewrite requests_try.
    destruct (has (property oPart) oObject) as [e|[|]]; cbn [negb];
      [simpl; lia| |simpl; lia].
    rewrite requests_try.
    destruct (get oObject (property oPart)) as [e|oNextObject]; [simpl; lia|].
    destruct (hasName oPart) as [sName|].
    + destruct (isArray oNextObject); cbn [negb]; [|simpl; lia].
      rewrite requests_try.
      destruct (findInArray oNextObject "Name" (VStr sName)) as [e|oFound];
        [simpl; lia|].
      destruct (truthy oFound); cbn [negb]; [|simpl; lia].
      specialize (IH oFound). lia.
    + rewrite requests_try.
      destruct (notResolvedYet oNextObject) as [e|[|]]; [simpl; lia| |].
      * rewrite requests_requestType_then. cbn [List.length].
        destruct (requestTypeForNavigationProperty oObject (property oPart))
          as [|e|oType]; [simpl; lia|simpl; lia|].
        specialize (IH oType). lia.
      * specialize (IH oNextObject). lia.
Qed.

Lemma followPath_requests (sPath : string) (n : nat) :
  forall (aSegments : list string) (oType : value) (sMetaPath : string),
    List.length aSegments <= n ->
    List.length (requests (requestMetaContext_followPath sPath aSegments oType sMetaPath))
    <= pred (List.length aSegments).
Proof.
  induction n as [|n IH]; intros aSegments oType sMetaPath Hlen.
  - destruct aSegments; [simpl; lia | simpl in Hlen; lia].
  - destruct aSegments as [|sSegment aSegments']; [simpl; lia|].
    rewrite requestMetaContext_followPath_cons. cbn [List.length pred].
    destruct (String.eqb sSegment ""); [simpl; lia|].
    rewrite requests_try.
    destruct (findChild oType ["Properties"; "NavigationProperties"] (VStr sSegment)
                false sMetaPath) as [e|[[[oProperty sFoundIn]|] sMetaPath1]];
      [simpl; lia| |].
    + pose proof (skipIndex_length aSegments') as Hskip.
      destruct (skipIndex aSegments') as [|sNext aMore] eqn:Hrest; [simpl; lia|].
      destruct (String.eqb sNext ""); [simpl; lia|].
      rewrite requests_try.
      destruct (get oProperty "Type") as [e|oPropertyType]; [simpl; lia|].
      rewrite requests_try.
      destruct (keys oPropertyType) as [e|aKeys]; [simpl; lia|].
      assert (Hmore : forall oNext,
                 List.length
                   (requests (requestMetaContext_followPath sPath (sNext :: aMore)
                                oNext (sMetaPath1 ++ "/Type")))
                 <= List.length aMore).
      { intros oNext. apply (IH (sNext :: aMore)). simpl in *. lia. }
      destruct (Nat.eqb (List.length aKeys) 1).
      * rewrite requests_requestType_then. cbn [List.length].
        destruct (requestTypeForNavigationProperty oProperty "Type") as [|e|oLoaded];
          [simpl in *; lia|simpl in *; lia|].
        specialize (Hmore oLoaded). simpl in *. lia.
      * specialize (Hmore oPropertyType). simpl in *. lia.
    + rewrite requests_try. destruct (get oType "QualifiedName"); simpl; lia.
Qed.

Lemma followBindings_requests (sPath : string) (oEntityContainer : value) (n : nat) :
  forall (aSegments : list string) (oObject : value) (sFoundIn sMetaPath : string),
    List.length aSegments <= n ->
    List.length
      (requests (followBindings sPath oEntityContainer aSegments oObject sFoundIn
                   sMetaPath))
    <= List.length aSegments.
Proof.
  induction n as [|n IH]; intros aSegments oObject sFoundIn sMetaPath Hlen.
  - destruct aSegments; [simpl; lia | simpl in Hlen; lia].
  - rewrite followBindings_unfold. cbv zeta.
    pose proof (skipIndex_length aSegments) as Hskip.
    destruct (skipIndex aSegments) as [|sSegment aRest'] eqn:Hrest; [simpl; lia|].
    destruct (String.eqb sSegment ""); [simpl; lia|].
    rewrite requests_try.
    destruct (findChild oObject ["NavigationPropertyBindings"] (VStr sSegment) false
                sMetaPath) as [e|[[[oBinding sIn]|] sMetaPath1]]; [simpl; lia| |].
    + rewrite requests_try.
      destruct (get oBinding "Target") as [e|oTarget]; [simpl; lia|].
      rewrite requests_try.
      destruct (get oTarget "Name") as [e|sName]; [simpl; lia|].
      destruct (negb (truthy sName)); [simpl; lia|].
      rewrite requests_try.
      destruct (findSetOrSingleton sPath oEntityContainer sName true sMetaPath1)
        as [e|[[oSet sFoundIn'] sMetaPath2]]; [simpl; lia|].
      specialize (IH aRest' oSet sFoundIn' (sMetaPath2 ++ "/Target")).
      simpl in *. lia.
    + rewrite requests_requestType_then. cbn [List.length].
      destruct (requestTypeForNavigationProperty oObject
                  (if String.eqb sFoundIn "EntitySets" then "EntityType" else "Type"))
        as [|e|oType]; [simpl in *; lia|simpl in *; lia|].
      pose proof (followPath_requests sPath (List.length (sSegment :: aRest'))
                    (sSegment :: aRest') oType
                    (sMetaPath ++ "/"
                     ++ (if String.eqb sFoundIn "EntitySets" then "EntityType"
                         else "Type")) (le_n _)) as Hpath.
      simpl in *. lia.
Qed.

(** X2. [requestMetaContext] asks for the type of a navigation property at
    most once per segment that follows the first. *)
Theorem requestMetaContext_requests_bounded (sPath sFirst sName : string)
    (aRest : list string) :
  splitPath sPath = Return (sFirst :: aRest) ->
  rEntitySetName_exec sFirst = Some sName ->
  exists p : promise Context,
    requestMetaContext sPath = Return p
    /\ List.length (requests p) <= List.length aRest.
Proof.
  intros Hsplit Hname. unfold requestMetaContext.
  rewrite Hsplit. cbn [cbind]. rewrite Hname.
  eexists. split; [reflexivity|].
  rewrite !requests_andThen. unfold external, state. cbn [fst snd].
  destruct requestEntityContainer as [|e|oEntityContainer]; [simpl; lia|simpl; lia|].
  change (@nil type_request, Fulfilled oEntityContainer)
    with (resolve oEntityContainer).
  rewrite andThen_resolve.
  destruct (findSetOrSingleton sPath oEntityContainer (VStr sName) false "")
    as [e|[[oSet sFoundIn] sMetaPath]].
  { rewrite andThen_lift_Throw. simpl. lia. }
  rewrite andThen_lift_Return.
  pose proof (followBindings_requests sPath oEntityContainer (List.length aRest) aRest
                oSet sFoundIn sMetaPath (le_n _)) as Hbound.
  unfold requests in *.
  destruct (followBindings sPath oEntityContainer aRest oSet sFoundIn sMetaPath)
    as [l [|e|sMeta]]; cbn [fst snd] in *; rewrite ?app_nil_r; simpl; lia.
Qed.

(** X3. On its way [requestObject] asks for the type of a navigation
    property at most once per segment of the resolved path, and not at all
    unless the entity container is delivered. *)
Theorem requestObject_requests_bounded (sPath : string) (oContext : option Context)
    (sResolvedPath : string) (aSegments : list string) :
  resolvePath sPath oContext = Some sResolvedPath ->
  sResolvedPath <> "" ->
  splitPath sResolvedPath = Return aSegments ->
  exists p : promise value,
    requestObject sPath oContext = Return p
    /\ List.length (requests p) <= List.length aSegments
    /\ match requestEntityContainer with
       | Fulfilled _ => True
       | _ => requests p = []
       end.
Proof.
  intros Hresolved Hne Hsplit. unfold requestObject. rewrite Hresolved.
  destruct sResolvedPath as [|c r]; [congruence|].
  rewrite Hsplit. cbn [cbind]. eexists. split; [reflexivity|].
  rewrite requests_andThen. unfold external, state. cbn [fst snd].
  destruct requestEntityContainer as [|e|oEntityContainer].
  - split; [simpl; lia|reflexivity].
  - split; [simpl; lia|reflexivity].
  - split; [apply requestObject_followPath_requests|exact I].
Qed.

(** ** The meta path and the indices of the data path *)

(** [requestMetaContext] returns the promise that settles as [metaPath]
    tells. *)
Lemma requestMetaContext_settles (sPath sFirst sName : string) (aRest : list string) :
  splitPath sPath = Return (sFirst :: aRest) ->
  rEntitySetName_exec sFirst = Some sName ->
  exists p : promise Context,
    requestMetaContext sPath = Return p
    /\ state p
       = sbind (metaPath sPath sName aRest)
           (fun sMetaPath => Fulfilled (getContext sMetaPath)).
Proof.
  intros Hsplit Hname. unfold requestMetaContext.
  rewrite Hsplit. cbn [cbind]. rewrite Hname.
  eexists. split; [reflexivity|].
  rewrite !state_then. unfold metaPath, external, state at 1. cbn [snd].
  rewrite !sbind_sbind. apply sbind_ext. intros oEntityContainer.
  rewrite state_try, findSetOrSingleton_setOrSingleton, !sbind_sbind.
  apply sbind_ext. intros [oSet sFoundIn]. cbn [sbind fst snd].
  rewrite (followBindings_bindings sPath oEntityContainer (List.length aRest))
    by apply le_n.
  rewrite !sbind_sbind. apply sbind_ext. intros [[sMore oReached] aLeft].
  cbn [fst snd]. cbv zeta.
  destruct aLeft as [|sLeft aLeft]; [reflexivity|].
  rewrite !sbind_sbind. apply sbind_ext. intros oType.
  rewrite !sbind_sbind. apply sbind_ext. intros sProperties. reflexivity.
Qed.

Lemma skipIndex_withoutIndices (aSegments : list string) :
  skipIndex (withoutIndices aSegments) = withoutIndices aSegments.
Proof.
  induction aSegments as [|s r IH]; [reflexivity|].
  unfold withoutIndices in *. cbn [filter].
  destruct (rNumber_test s) eqn:Hs; cbn [negb]; [exact IH|].
  cbn [skipIndex]. now rewrite Hs.
Qed.

Lemma withoutIndices_skipIndex (aSegments : list string) :
  withoutIndices (skipIndex aSegments) = withoutIndices aSegments.
Proof.
  destruct aSegments as [|s r]; [reflexivity|].
  unfold withoutIndices. cbn [skipIndex filter].
  destruct (rNumber_test s) eqn:Hs; cbn [negb]; [reflexivity|].
  cbn [filter]. now rewrite Hs.
Qed.

Lemma noAdjacentIndices_tail (s : string) (r : list string) :
  noAdjacentIndices (s :: r) = true -> noAdjacentIndices r = true.
Proof.
  cbn [noAdjacentIndices]. intros Hadj. now apply andb_prop in Hadj.
Qed.

Lemma skipIndex_names (aSegments : list string) :
  noAdjacentIndices aSegments = true ->
  noAdjacentIndices (skipIndex aSegments) = true
  /\ startsWithName (skipIndex aSegments).
Proof.
  destruct aSegments as [|s r]; [now split|].
  intros Hadj. cbn [skipIndex]. destruct (rNumber_test s) eqn:Hs.
  - split; [exact (noAdjacentIndices_tail _ _ Hadj)|].
    cbn [noAdjacentIndices] in Hadj. destruct r as [|t r]; [exact I|].
    rewrite Hs in Hadj. cbn in Hadj |- *.
    now destruct (rNumber_test t).
  - split; [exact Hadj | exact Hs].
Qed.

Lemma withoutIndices_names (s : string) (r : list string) :
  rNumber_test s = false -> withoutIndices (s :: r) = s :: withoutIndices r.
Proof.
  intros Hs. unfold withoutIndices. cbn [filter]. now rewrite Hs.
Qed.

(** Below the type: the indices are not looked at. *)
Lemma properties_withoutIndices (sPath : string) (n : nat) :
  forall (aSegments : list string) (oType : value),
    List.length aSegments <= n ->
    noAdjacentIndices aSegments = true ->
    startsWithName aSegments ->
    properties sPath (withoutIndices aSegments) oType
    = properties sPath aSegments oType.
Proof.
  induction n as [|n IH]; intros aSegments oType Hlen Hadj Hname.
  - destruct aSegments; [reflexivity | simpl in Hlen; lia].
  - destruct aSegments as [|s r]; [reflexivity|].
    cbn [startsWithName] in Hname.
    rewrite (withoutIndices_names _ _ Hname), !properties_cons.
    destruct (String.eqb s ""); [reflexivity|].
    destruct (firstByName oType ["Properties"; "NavigationProperties"] (VStr s))
      as [e|[[oProperty sFoundIn]|]]; try reflexivity.
    rewrite skipIndex_withoutIndices, <- withoutIndices_skipIndex.
    destruct (skipIndex_names r (noAdjacentIndices_tail _ _ Hadj)) as [Hadj' Hname'].
    pose proof (skipIndex_length r) as Hskip.
    destruct (skipIndex r) as [|sNext aMore] eqn:Hr; [reflexivity|].
    cbn [startsWithName] in Hname'.
    rewrite (withoutIndices_names _ _ Hname').
    destruct (String.eqb sNext ""); [reflexivity|].
    apply sbind_ext. intros oPropertyType.
    rewrite <- (withoutIndices_names _ _ Hname').
    rewrite (IH (sNext :: aMore) oPropertyType); [reflexivity| |exact Hadj'|exact Hname'].
    simpl in Hlen. lia.
Qed.

(** Along the bindings: the same set or singleton is reached, and what is
    left of the path is left without its indices. *)
Lemma bindings_withoutIndices (sPath : string) (oEntityContainer : value) (n : nat) :
  forall (aSegments : list string) (oObject : value) (sFoundIn : string),
    List.length aSegments <= n ->
    noAdjacentIndices aSegments = true ->
    bindings sPath oEntityContainer (withoutIndices aSegments) oObject sFoundIn
    = sbind (bindings sPath oEntityContainer aSegments oObject sFoundIn)
        (fun r => Fulfilled (fst r, withoutIndices (snd r))).
Proof.
  induction n as [|n IH]; intros aSegments oObject sFoundIn Hlen Hadj.
  - destruct aSegments; [reflexivity | simpl in Hlen; lia].
  - rewrite (bindings_unfold sPath oEntityContainer (withoutIndices aSegments)),
      (bindings_unfold sPath oEntityContainer aSegments).
    rewrite skipIndex_withoutIndices, <- withoutIndices_skipIndex.
    destruct (skipIndex_names aSegments Hadj) as [Hadj' Hname'].
    pose proof (skipIndex_length aSegments) as Hskip.
    destruct (skipIndex aSegments) as [|s aRest'] eqn:Hrest; [reflexivity|].
    cbn [startsWithName] in Hname'.
    rewrite (withoutIndices_names _ _ Hname').
    destruct (String.eqb s ""); [reflexivity|].
    destruct (childByName oObject "NavigationPropertyBindings" (VStr s))
      as [e|[oBinding|]]; [reflexivity| |].
    + destruct (cbind (get oBinding "Target") (fun oTarget => get oTarget "Name"))
        as [e|sName]; [reflexivity|].
      destruct (negb (truthy sName)); [reflexivity|].
      rewrite sbind_sbind. apply sbind_ext. intros oTargetSet.
      rewrite IH; [|destruct aSegments; simpl in *; lia
                   |exact (noAdjacentIndices_tail _ _ Hadj')].
      rewrite !sbind_sbind. apply sbind_ext. intros r. reflexivity.
    + cbn [sbind fst snd]. now rewrite (withoutIndices_names _ _ Hname').
Qed.

(** What the bindings leave of a path starts with a name. *)
Lemma bindings_leave_names (sPath : string) (oEntityContainer : value) (n : nat) :
  forall (aSegments : list string) (oObject : value) (sFoundIn : string) r,
    List.length aSegments <= n ->
    noAdjacentIndices aSegments = true ->
    bindings sPath oEntityContainer aSegments oObject sFoundIn = Fulfilled r ->
    noAdjacentIndices (snd r) = true /\ startsWithName (snd r).
Proof.
  induction n as [|n IH]; intros aSegments oObject sFoundIn r Hlen Hadj.
  - destruct aSegments; [|simpl in Hlen; lia]. intros [= <-]. now split.
  - rewrite (bindings_unfold sPath oEntityContainer aSegments).
    destruct (skipIndex_names aSegments Hadj) as [Hadj' Hname'].
    pose proof (skipIndex_length aSegments) as Hskip.
    destruct (skipIndex aSegments) as [|s aRest'] eqn:Hrest.
    { intros [= <-]. now split. }
    destruct (String.eqb s ""). { intros [= <-]. now split. }
    destruct (childByName oObject "NavigationPropertyBindings" (VStr s))
      as [e|[oBinding|]]; [discriminate| |].
    + destruct (cbind (get oBinding "Target") (fun oTarget => get oTarget "Name"))
        as [e|sName]; [discriminate|].
      destruct (negb (truthy sName)); [discriminate|].
      destruct (setOrSingleton sPath oEntityContainer sName) as [|e|oTargetSet];
        cbn [sbind]; try discriminate.
      destruct (bindings sPath oEntityContainer aRest' (fst oTargetSet)
                  (snd oTargetSet)) as [|e|r'] eqn:Hmore; cbn [sbind];
        try discriminate.
      intros [= <-]. cbn [snd].
      apply (IH aRest' (fst oTargetSet) (snd oTargetSet) r');
        [destruct aSegments; simpl in *; lia
        |exact (noAdjacentIndices_tail _ _ Hadj') | exact Hmore].
    + intros [= <-]. cbn [snd]. now split.
Qed.

(** The meta path of a data path is the one of the path without its
    indices. *)
Lemma metaPath_withoutIndices (sPath sName : string) (aSegments : list string) :
  noAdjacentIndices aSegments = true ->
  metaPath sPath sName (withoutIndices aSegments) = metaPath sPath sName aSegments.
Proof.
  intros Hadj. unfold metaPath.
  apply sbind_ext. intros oEntityContainer.
  apply sbind_ext. intros oFirst.
  rewrite (bindings_withoutIndices sPath oEntityContainer (List.length aSegments))
    by (auto; lia).
  rewrite sbind_sbind.
  destruct (bindings sPath oEntityContainer aSegments (fst oFirst) (snd oFirst))
    as [|e|r] eqn:Hbindings; try reflexivity.
  cbn [sbind fst snd].
  destruct (bindings_leave_names sPath oEntityContainer (List.length aSegments)
              aSegments (fst oFirst) (snd oFirst) r (le_n _) Hadj Hbindings)
    as [Hadj' Hname'].
  destruct (snd r) as [|s aLeft] eqn:Hleft; [reflexivity|].
  cbn [startsWithName] in Hname'.
  rewrite (withoutIndices_names _ _ Hname').
  apply sbind_ext. intros oType.
  rewrite <- (withoutIndices_names _ _ Hname').
  now rewrite (properties_withoutIndices sPath (List.length (s :: aLeft)))
    by (auto; lia).
Qed.

(** ** The path in the messages of the errors *)

Lemma fulfilled_sbind {A B} (s s' : settled A) (k k' : A -> settled B) :
  fulfilled s = fulfilled s' ->
  (forall a, fulfilled (k a) = fulfilled (k' a)) ->
  fulfilled (sbind s k) = fulfilled (sbind s' k').
Proof.
  intros Hs Hk. destruct s, s'; simpl in *; try discriminate; try reflexivity.
  injection Hs as <-. apply Hk.
Qed.

Lemma setOrSingleton_fulfilled (sPath sPath' : string) (oEntityContainer sName : value) :
  fulfilled (setOrSingleton sPath oEntityContainer sName)
  = fulfilled (setOrSingleton sPath' oEntityContainer sName).
Proof.
  unfold setOrSingleton.
  now destruct (firstByName oEntityContainer ["EntitySets"; "Singletons"] sName)
    as [e|[oFound|]].
Qed.

Lemma properties_fulfilled (sPath sPath' : string) (n : nat) :
  forall (aSegments : list string) (oType : value),
    List.length aSegments <= n ->
    fulfilled (properties sPath aSegments oType)
    = fulfilled (properties sPath' aSegments oType).
Proof.
  induction n as [|n IH]; intros aSegments oType Hlen.
  - destruct aSegments; [reflexivity | simpl in Hlen; lia].
  - destruct aSegments as [|s r]; [reflexivity|].
    rewrite !properties_cons.
    destruct (String.eqb s ""); [reflexivity|].
    destruct (firstByName oType ["Properties"; "NavigationProperties"] (VStr s))
      as [e|[[oProperty sFoundIn]|]]; [reflexivity| |].
    + pose proof (skipIndex_length r) as Hskip.
      destruct (skipIndex r) as [|sNext aMore] eqn:Hr; [reflexivity|].
      destruct (String.eqb sNext ""); [reflexivity|].
      apply fulfilled_sbind; [reflexivity|]. intros oPropertyType.
      apply fulfilled_sbind; [|reflexivity].
      apply IH. simpl in Hlen. lia.
    + now destruct (get oType "QualifiedName").
Qed.

Lemma bindings_fulfilled (sPath sPath' : string) (oEntityContainer : value) (n : nat) :
  forall (aSegments : list string) (oObject : value) (sFoundIn : string),
    List.length aSegments <= n ->
    fulfilled (bindings sPath oEntityContainer aSegments oObject sFoundIn)
    = fulfilled (bindings sPath' oEntityContainer aSegments oObject sFoundIn).
Proof.
  induction n as [|n IH]; intros aSegments oObject sFoundIn Hlen.
  - destruct aSegments; [reflexivity | simpl in Hlen; lia].
  - rewrite (bindings_unfold sPath), (bindings_unfold sPath').
    pose proof (skipIndex_length aSegments) as Hskip.
    destruct (skipIndex aSegments) as [|s aRest'] eqn:Hrest; [reflexivity|].
    destruct (String.eqb s ""); [reflexivity|].
    destruct (childByName oObject "NavigationPropertyBindings" (VStr s))
      as [e|[oBinding|]]; try reflexivity.
    destruct (cbind (get oBinding "Target") (fun oTarget => get oTarget "Name"))
      as [e|sName]; [reflexivity|].
    destruct (negb (truthy sName)); [reflexivity|].
    apply fulfilled_sbind; [apply setOrSingleton_fulfilled|]. intros oTargetSet.
    apply fulfilled_sbind; [|reflexivity].
    apply IH. destruct aSegments; simpl in *; lia.
Qed.

Lemma metaPath_fulfilled (sPath sPath' sName : string) (aSegments : list string) :
  fulfilled (metaPath sPath sName aSegments)
  = fulfilled (metaPath sPath' sName aSegments).
Proof.
  unfold metaPath.
  apply fulfilled_sbind; [reflexivity|]. intros oEntityContainer.
  apply fulfilled_sbind; [apply setOrSingleton_fulfilled|]. intros oFirst.
  apply fulfilled_sbind; [apply (bindings_fulfilled _ _ _ (List.length aSegments)), le_n|].
  intros r. destruct (snd r) as [|s aLeft]; [reflexivity|].
  apply fulfilled_sbind; [reflexivity|]. intros oType.
  apply fulfilled_sbind; [|reflexivity].
  apply (properties_fulfilled _ _ (List.length (s :: aLeft))), le_n.
Qed.

(** X4. The meta context does not depend on the indices of the data path,
    nor on what follows the name in its first segment: a path and the
    same path without its indices (no index following another) resolve
    to the same meta context, if they resolve. *)
Theorem requestMetaContext_ignores_indices (sPath sPath' sFirst sFirst' sName : string)
    (aRest : list string) :
  splitPath sPath = Return (sFirst :: aRest) ->
  splitPath sPath' = Return (sFirst' :: withoutIndices aRest) ->
  rEntitySetName_exec sFirst = Some sName ->
  rEntitySetName_exec sFirst' = Some sName ->
  noAdjacentIndices aRest = true ->
  exists p p' : promise Context,
    requestMetaContext sPath = Return p
    /\ requestMetaContext sPath' = Return p'
    /\ forall oMetaContext,
         state p = Fulfilled oMetaContext <-> state p' = Fulfilled oMetaContext.
Proof.
  intros Hsplit Hsplit' Hname Hname' Hadj.
  destruct (requestMetaContext_settles sPath sFirst sName aRest Hsplit Hname)
    as (p & Hp & Hstate).
  destruct (requestMetaContext_settles sPath' sFirst' sName (withoutIndices aRest)
              Hsplit' Hname') as (p' & Hp' & Hstate').
  exists p, p'. split; [exact Hp|]. split; [exact Hp'|].
  intros oMetaContext. rewrite Hstate, Hstate'.
  rewrite (metaPath_withoutIndices sPath' sName aRest Hadj).
  pose proof (metaPath_fulfilled sPath sPath' sName aRest) as Hsame.
  destruct (metaPath sPath sName aRest), (metaPath sPath' sName aRest);
    simpl in *; try discriminate; try (split; discriminate).
  injection Hsame as <-. reflexivity.
Qed.

(** ** Paths that are refused, paths that end at the set *)

(** X5. A path that has no segments, or whose first segment does not start
    with a name, is refused at once: [requestMetaContext] throws
    [Unsupported: <path>] instead of returning a promise, and so do
    [requestUI5Type] and, once [fnRead] has returned, [requestCanonicalUrl],
    which call it. *)
Theorem unsupported_path_throws (bReadSettlesFirst : bool) (sServiceUrl sPath : string)
    (fnRead : string -> bool -> completion (settled value)) (oRead : settled value)
    (aSegments : list string) :
  splitPath sPath = Return aSegments ->
  match aSegments with
  | [] => True
  | sFirst :: _ => rEntitySetName_exec sFirst = None
  end ->
  fnRead sPath true = Return oRead ->
  requestMetaContext sPath = Throw (Error ("Unsupported: " ++ sPath))
  /\ requestUI5Type sPath = Throw (Error ("Unsupported: " ++ sPath))
  /\ requestCanonicalUrl bReadSettlesFirst sServiceUrl sPath fnRead
     = Throw (Error ("Unsupported: " ++ sPath)).
Proof.
  intros Hsplit Hrefused Hread.
  assert (Hmeta : requestMetaContext sPath = Throw (Error ("Unsupported: " ++ sPath))).
  { unfold requestMetaContext. rewrite Hsplit. cbn [cbind].
    destruct aSegments as [|sFirst aRest]; [reflexivity|]. now rewrite Hrefused. }
  split; [exact Hmeta|]. split.
  - unfold requestUI5Type. now rewrite Hmeta.
  - unfold requestCanonicalUrl. now rewrite Hread, Hmeta.
Qed.

Lemma firstByName_found (oObject : value) (aIn : list string) (sName : value)
    (oChild : value) (sIn : string) :
  firstByName oObject aIn sName = Return (Some (oChild, sIn)) ->
  In sIn aIn /\ truthy oChild = true.
Proof.
  induction aIn as [|sIn' aIn' IH]; cbn [firstByName]; [discriminate|].
  unfold childByName.
  destruct (has sIn' oObject) as [e|[|]]; cbn [cbind]; [discriminate| |].
  - destruct (get oObject sIn') as [e|aChildren]; cbn [cbind]; [discriminate|].
    destruct (findInArray aChildren "Name" sName) as [e|oFound]; cbn [cbind];
      [discriminate|].
    destruct (truthy oFound) eqn:Hfound.
    + intros [= <- <-]. split; [now left|exact Hfound].
    + intros Hrest. destruct (IH Hrest) as [Hin Htruthy]. split; [now right|exact Htruthy].
  - intros Hrest. destruct (IH Hrest) as [Hin Htruthy]. split; [now right|exact Htruthy].
Qed.

(** The set or singleton found by its name, and the meta path to it. *)
Lemma findSetOrSingleton_found (sPath : string) (oEntityContainer sName oSet : value)
    (sFoundIn sMetaPath : string) :
  findSetOrSingleton sPath oEntityContainer sName false "" = Return (oSet, sFoundIn, sMetaPath) ->
  (sFoundIn = "EntitySets" \/ sFoundIn = "Singletons")
  /\ exists vName,
       get oSet "Name" = Return vName
       /\ sMetaPath = "/" ++ sFoundIn ++ "('" ++ to_str vName ++ "')".
Proof.
  unfold findSetOrSingleton. rewrite findChild_firstByName.
  destruct (firstByName oEntityContainer ["EntitySets"; "Singletons"] sName)
    as [e|[[oChild sIn]|]] eqn:Hfirst; cbn [cbind]; try discriminate.
  intros [= <- <- <-].
  destruct (firstByName_found _ _ _ _ _ Hfirst) as [Hin Htruthy].
  split.
  - destruct Hin as [<-|[<-|[]]]; auto.
  - destruct (truthy_get oChild "Name" Htruthy) as [vName Hname].
    exists vName. split; [exact Hname|]. unfold byName. now rewrite Hname.
Qed.

(** X6. For a path that ends at the entity set or singleton (after its
    name nothing follows but, at most, an index or an empty segment) the
    promise is resolved with the context of [/EntitySets('<Name>')] or
    [/Singletons('<Name>')], and no type is requested. *)
Theorem requestMetaContext_of_set (sPath sFirst sName : string) (aRest : list string)
    (oEntityContainer oSet : value) (sFoundIn sMetaPath : string) :
  splitPath sPath = Return (sFirst :: aRest) ->
  rEntitySetName_exec sFirst = Some sName ->
  requestEntityContainer = Fulfilled oEntityContainer ->
  findSetOrSingleton sPath oEntityContainer (VStr sName) false ""
  = Return (oSet, sFoundIn, sMetaPath) ->
  skipIndex aRest = [] \/ (exists aMore, skipIndex aRest = "" :: aMore) ->
  exists p : promise Context,
    requestMetaContext sPath = Return p
    /\ requests p = []
    /\ state p = Fulfilled (getContext sMetaPath)
    /\ (sFoundIn = "EntitySets" \/ sFoundIn = "Singletons")
    /\ exists vName,
         get oSet "Name" = Return vName
         /\ sMetaPath = "/" ++ sFoundIn ++ "('" ++ to_str vName ++ "')".
Proof.
  intros Hsplit Hname Hcontainer Hset Hends. unfold requestMetaContext.
  rewrite Hsplit. cbn [cbind]. rewrite Hname, Hcontainer.
  change (external (Fulfilled oEntityContainer)) with (resolve oEntityContainer).
  rewrite andThen_resolve, Hset, andThen_lift_Return, followBindings_unfold.
  cbv zeta.
  assert (Hpromise :
            forall k : string -> list string -> promise string,
              match skipIndex aRest with
              | [] => resolve sMetaPath
              | sSegment :: aRest' =>
                  if String.eqb sSegment "" then resolve sMetaPath else k sSegment aRest'
              end = resolve sMetaPath).
  { intros k. destruct Hends as [-> | [aMore ->]]; reflexivity. }
  rewrite Hpromise, andThen_resolve. eexists. split; [reflexivity|].
  split; [reflexivity|]. split; [reflexivity|].
  exact (findSetOrSingleton_found _ _ _ _ _ _ Hset).
Qed.


End Facts.

Lemma unsupported_path_throws_witness :
  @requestMetaContext Service.oHelper "/" = Throw (Error "Unsupported: /")
  /\ @requestUI5Type Service.oHelper "/" = Throw (Error "Unsupported: /")
  /\ @requestCanonicalUrl Service.oHelper true "/service/" "/" Service.fnRead
     = Throw (Error "Unsupported: /").
Proof.
  exact (@unsupported_path_throws Service.oHelper true "/service/" "/" Service.fnRead
           _ [""] eq_refl eq_refl eq_refl).
Defined.

Lemma requestMetaContext_of_set_witness :
  exists p : promise Context,
    @requestMetaContext Service.oHelper "/TEAMS/7" = Return p
    /\ requests p = []
    /\ state p = Fulfilled (getContext "/EntitySets('TEAMS')").
Proof.
  destruct (@requestMetaContext_of_set Service.oHelper "/TEAMS/7" "TEAMS" "TEAMS" ["7"]
              Service.oEntityContainer Service.sTeams "EntitySets"
              "/EntitySets('TEAMS')" eq_refl eq_refl eq_refl eq_refl
              (or_introl eq_refl)) as (p & Hp & Hrequests & Hstate & _).
  now exists p.
Defined.


Lemma requestMetaContext_requests_bounded_witness :
  exists p : promise Context,
    @requestMetaContext Service.oHelper
      "/EMPLOYEES[0]/EMPLOYEE_2_TEAM/TEAM_2_EMPLOYEES/3/AGE" = Return p
    /\ List.length (requests p) <= 4.
Proof.
  exact (@requestMetaContext_requests_bounded Service.oHelper
           "/EMPLOYEES[0]/EMPLOYEE_2_TEAM/TEAM_2_EMPLOYEES/3/AGE"
           "EMPLOYEES[0]" "EMPLOYEES"
           ["EMPLOYEE_2_TEAM"; "TEAM_2_EMPLOYEES"; "3"; "AGE"] eq_refl eq_refl).
Defined.

Lemma requestMetaContext_ignores_indices_witness :
  exists p p' : promise Context,
    @requestMetaContext Service.oHelper
      "/EMPLOYEES[0]/EMPLOYEE_2_TEAM/TEAM_2_EMPLOYEES/3/AGE" = Return p
    /\ @requestMetaContext Service.oHelper
         "/EMPLOYEES/EMPLOYEE_2_TEAM/TEAM_2_EMPLOYEES/AGE" = Return p'
    /\ forall oMetaContext,
         state p = Fulfilled oMetaContext <-> state p' = Fulfilled oMetaContext.
Proof.
  exact (@requestMetaContext_ignores_indices Service.oHelper
           "/EMPLOYEES[0]/EMPLOYEE_2_TEAM/TEAM_2_EMPLOYEES/3/AGE"
           "/EMPLOYEES/EMPLOYEE_2_TEAM/TEAM_2_EMPLOYEES/AGE"
           "EMPLOYEES[0]" "EMPLOYEES" "EMPLOYEES"
           ["EMPLOYEE_2_TEAM"; "TEAM_2_EMPLOYEES"; "3"; "AGE"]
           eq_refl eq_refl eq_refl eq_refl eq_refl).
Defined.

Lemma requestObject_requests_bounded_witness :
  exists p : promise value,
    @requestObject Service.oHelper Service.sFacetValuePath None = Return p
    /\ List.length (requests p) <= 6.
Proof.
  destruct (@requestObject_requests_bounded Service.oHelper Service.sFacetValuePath None
              Service.sFacetValuePath Service.aFacetValueSegments eq_refl)
    as (p & Hp & Hbound & _); [discriminate|reflexivity|].
  exists p. split; [exact Hp|exact Hbound].
Defined.

End MetaModelFacts.

(* ================================================================== *)
(** * The actions that are kept, and the elements to reveal *)
(* ================================================================== *)

Module ActionsFacts.
Import Js AdditionalElementsPlugin ActionsSpec ActionsProofs RevealSpec.

Section Facts.
Context {F : Framework}.

(** [_getActions] either takes what is kept or computes. *)
Lemma getActions_cases (bSibling : bool) (oSourceElementOverlay : ElementOverlay)
    (bInvalidate : bool) (st : Store) :
  (bInvalidate = true \/ st (getOverlayId oSourceElementOverlay) = None)
  \/ (bInvalidate = false
      /\ exists mAddActions, st (getOverlayId oSourceElementOverlay) = Some mAddActions).
Proof.
  destruct bInvalidate; [now left; left|].
  destruct (st (getOverlayId oSourceElementOverlay)) as [m|];
    [right; split; [reflexivity|now exists m] | now left; right].
Qed.

Lemma computed_kept (bSibling : bool) (oSourceElementOverlay : ElementOverlay)
    (st : Store) (mAllActions : ActionsMap) :
  exists mAddActions,
    computed bSibling oSourceElementOverlay st mAllActions
      (getOverlayId oSourceElementOverlay) = Some mAddActions
    /\ (if bSibling then asSibling mAddActions else asChild mAddActions) = mAllActions
    /\ (if bSibling then asChild mAddActions else asSibling mAddActions)
       = match st (getOverlayId oSourceElementOverlay) with
         | Some mKept => if bSibling then asChild mKept else asSibling mKept
         | None => []
         end.
Proof.
  unfold computed, setAddActions. rewrite String.eqb_refl.
  eexists. split; [reflexivity|].
  destruct bSibling, (st (getOverlayId oSourceElementOverlay)); now split.
Qed.

(** What [_getActions] resolved with is kept with the overlay. *)
Lemma getActions_kept (bSibling : bool) (oSourceElementOverlay : ElementOverlay)
    (bInvalidate : bool) (st st' : Store) (mActions : ActionsMap) :
  _getActions bSibling oSourceElementOverlay bInvalidate st = (Fulfilled mActions, st') ->
  exists mAddActions,
    st' (getOverlayId oSourceElementOverlay) = Some mAddActions
    /\ (if bSibling then asSibling mAddActions else asChild mAddActions) = mActions.
Proof.
  intros Hactions.
  destruct (getActions_cases bSibling oSourceElementOverlay bInvalidate st)
    as [Hcompute|(-> & mKept & Hkept)].
  - destruct (getActions_computed _ _ _ _ _ _ Hcompute Hactions)
      as (mReveal & mDelegate & mCustom & _ & _ & _ & _ & ->).
    destruct (computed_kept bSibling oSourceElementOverlay st mActions)
      as (mAddActions & Hst' & Hsame & _).
    now exists mAddActions.
  - rewrite (getActions_cached _ _ _ _ Hkept) in Hactions.
    injection Hactions as <- <-. now exists mKept.
Qed.

(** X8. What [_getActions] resolved with is kept with the overlay: asked
    again for the same relation, without invalidation, it resolves with the
    same map and changes nothing, and [_getActionsOrUndef] returns that
    map. *)
Theorem getActions_again (bSibling : bool) (oSourceElementOverlay : ElementOverlay)
    (bInvalidate : bool) (st st' : Store) (mActions : ActionsMap) :
  _getActions bSibling oSourceElementOverlay bInvalidate st = (Fulfilled mActions, st') ->
  _getActions bSibling oSourceElementOverlay false st' = (Fulfilled mActions, st')
  /\ _getActionsOrUndef bSibling oSourceElementOverlay st' = Some mActions.
Proof.
  intros Hactions.
  destruct (getActions_kept _ _ _ _ _ _ Hactions) as (mAddActions & Hst' & <-). split.
  - exact (getActions_cached _ _ _ _ Hst').
  - unfold _getActionsOrUndef. now rewrite Hst'.
Qed.

(** X9. Once actions are kept with an overlay for one relation, the other
    relation is not computed unless invalidation is asked for: where
    nothing was kept before, [_getActions] resolves for it with the empty
    map. *)
Theorem getActions_other_relation_empty (bSibling : bool)
    (oSourceElementOverlay : ElementOverlay) (bInvalidate : bool) (st st' : Store)
    (mActions : ActionsMap) :
  st (getOverlayId oSourceElementOverlay) = None ->
  _getActions bSibling oSourceElementOverlay bInvalidate st = (Fulfilled mActions, st') ->
  _getActions (negb bSibling) oSourceElementOverlay false st' = (Fulfilled [], st').
Proof.
  intros Hnone Hactions.
  destruct (getActions_computed _ _ _ _ _ _ (or_intror Hnone) Hactions)
    as (mReveal & mDelegate & mCustom & _ & _ & _ & _ & ->).
  destruct (computed_kept bSibling oSourceElementOverlay st mActions)
    as (mAddActions & Hst' & _ & Hother).
  rewrite Hnone in Hother.
  rewrite (getActions_cached _ _ _ _ Hst'). now destruct bSibling; cbn [negb]; rewrite Hother.
Qed.

(** X10. What [_getActions] leaves alone: the actions kept with other
    overlays, the map kept for the other relation, and everything when it
    does not resolve. *)
Theorem getActions_frame (bSibling : bool) (oSourceElementOverlay : ElementOverlay)
    (bInvalidate : bool) (st : Store) :
  let result := _getActions bSibling oSourceElementOverlay bInvalidate st in
  (forall sOverlayId,
      sOverlayId <> getOverlayId oSourceElementOverlay ->
      snd result sOverlayId = st sOverlayId)
  /\ (forall mKept,
        st (getOverlayId oSourceElementOverlay) = Some mKept ->
        exists mAddActions,
          snd result (getOverlayId oSourceElementOverlay) = Some mAddActions
          /\ (if bSibling then asChild mAddActions else asSibling mAddActions)
             = (if bSibling then asChild mKept else asSibling mKept))
  /\ ((forall mActions, fst result <> Fulfilled mActions) -> snd result = st).
Proof.
  cbv zeta.
  destruct (_getActions bSibling oSourceElementOverlay bInvalidate st)
    as [sActions st'] eqn:Hactions. cbn [fst snd].
  assert (Hsame : (exists mActions,
                      sActions = Fulfilled mActions
                      /\ st' = computed bSibling oSourceElementOverlay st mActions)
                  \/ st' = st).
  { destruct (getActions_cases bSibling oSourceElementOverlay bInvalidate st)
      as [Hcompute|(-> & mKept & Hkept)].
    - destruct sActions as [|e|mActions].
      + right. revert Hactions. unfold _getActions.
        destruct (if negb bInvalidate then st (getOverlayId oSourceElementOverlay)
                  else None); [discriminate|].
        match goal with
        | |- match ?c with _ => _ end = _ -> _ => destruct c as [e|[|e|[[r d] c']]]
        end; congruence.
      + right. revert Hactions. unfold _getActions.
        destruct (if negb bInvalidate then st (getOverlayId oSourceElementOverlay)
                  else None); [discriminate|].
        match goal with
        | |- match ?c with _ => _ end = _ -> _ => destruct c as [e'|[|e'|[[r d] c']]]
        end; congruence.
      + left. exists mActions. split; [reflexivity|].
        now destruct (getActions_computed _ _ _ _ _ _ Hcompute Hactions)
          as (mReveal & mDelegate & mCustom & _ & _ & _ & _ & ->).
    - right. rewrite (getActions_cached _ _ _ _ Hkept) in Hactions. congruence. }
  split; [|split].
  - intros sOverlayId Hother. destruct Hsame as [(mActions & _ & ->)| ->]; [|reflexivity].
    unfold computed, setAddActions. apply String.eqb_neq in Hother. now rewrite Hother.
  - intros mKept Hkept. destruct Hsame as [(mActions & _ & ->)| ->].
    + destruct (computed_kept bSibling oSourceElementOverlay st mActions)
        as (mAddActions & Hst' & _ & Hother).
      exists mAddActions. split; [exact Hst'|]. now rewrite Hother, Hkept.
    + now exists mKept.
  - intros Hnot. destruct Hsame as [(mActions & -> & _)| ->]; [|reflexivity].
    now destruct (Hnot mActions).
Qed.

(** ** The invisible elements *)

(** The loop of [_getInvisibleElements] looks for a hidden overlay from the
    parent up to the overlay of the relevant container. *)
Lemma anyParentInvisible_upTo (oRelevantContainerOverlay : option ElementOverlay) :
  forall oOverlayToCheck,
    anyParentInvisible oRelevantContainerOverlay oOverlayToCheck
    = existsb hidden (overlaysUpTo oRelevantContainerOverlay oOverlayToCheck).
Proof.
  fix IH 1.
  intros [sId oElement oParent bVisible fContainer oMetadata oAggregation aOverlays].
  cbn [anyParentInvisible overlaysUpTo existsb getElementVisibility
         getParentElementOverlay].
  unfold hidden at 1. cbn [getElementVisibility].
  destruct bVisible; cbn [negb orb]; [|reflexivity].
  destruct (match oRelevantContainerOverlay with
            | Some o => sameOverlay _ o
            | None => false
            end); [reflexivity|].
  destruct oParent as [oParent|]; [apply IH | reflexivity].
Qed.

(** X11. [_getInvisibleElements] returns the elements of the aggregation, in
    their order, that have a stable id and are hidden themselves or stand
    below a hidden overlay, the overlays above the relevant container not
    counting; with no element of the parent there are none. *)
Theorem getInvisibleElements_filter (oParentOverlay : ElementOverlay)
    (sAggregationName : string) (aInvisibleElements : list Element) :
  _getInvisibleElements oParentOverlay sAggregationName = Return aInvisibleElements ->
  aInvisibleElements
  = match getElement oParentOverlay with
    | Some oParentElement =>
        filter (countsAsInvisible oParentOverlay)
          (getAggregation oParentElement sAggregationName)
    | None => []
    end.
Proof.
  unfold _getInvisibleElements.
  destruct (getElement oParentOverlay) as [oParentElement|]; [|now intros [= <-]].
  revert aInvisibleElements.
  induction (getAggregation oParentElement sAggregationName) as [|c aControls IH];
    intros aInvisibleElements.
  - now intros [= <-].
  - cbn [filter]. unfold countsAsInvisible at 1.
    rewrite <- anyParentInvisible_upTo.
    destruct (hasStableId (getOverlay c)); cbn [negb andb cbind].
    + destruct (anyParentInvisible
                  (getOverlay (getRelevantContainer oParentOverlay true)) oParentOverlay);
        cbn [orb cbind].
      * match goal with
        | |- cbind ?rest _ = _ -> _ =>
            destruct rest as [e|aRest] eqn:Hrest; [discriminate|]
        end.
        cbn [cbind]. intros [= <-]. now rewrite (IH aRest eq_refl).
      * destruct (getOverlay c) as [o|]; [|discriminate]. cbn [cbind].
        match goal with
        | |- cbind ?rest _ = _ -> _ =>
            destruct rest as [e|aRest] eqn:Hrest; [discriminate|]
        end.
        cbn [cbind]. intros [= <-]. unfold hidden.
        now rewrite (IH aRest eq_refl).
    + match goal with
      | |- cbind ?rest _ = _ -> _ =>
          destruct rest as [e|aRest] eqn:Hrest; [discriminate|]
      end.
      cbn [cbind]. intros [= <-]. now rewrite (IH aRest eq_refl).
Qed.

(** ** The elements that are revealed *)

Lemma invisibleToReveal_revealable (mReveal mReveal' : Reveal)
    (oInvisibleElement : Element) :
  _invisibleToReveal mReveal oInvisibleElement = Fulfilled mReveal' ->
  map element (elements mReveal')
  = (map element (elements mReveal)
     ++ (if revealable oInvisibleElement then [oInvisibleElement] else []))%list.
Proof.
  unfold _invisibleToReveal, revealable.
  destruct (revealEnabled oInvisibleElement) as [|e|[[[|] oMetadata] mAction]];
    cbn [sbind]; try discriminate.
  - destruct oMetadata as [dtm|]; [|discriminate].
    destruct mAction as [mAction|]; [|discriminate].
    intros [= <-]. cbn [elements]. now rewrite map_app.
  - intros [= <-]. now rewrite app_nil_r.
Qed.

Lemma revealAll_revealable (aInvisibleElements : list Element) :
  forall mReveal mReveal',
    revealAll mReveal aInvisibleElements = Fulfilled mReveal' ->
    map element (elements mReveal')
    = (map element (elements mReveal) ++ filter revealable aInvisibleElements)%list.
Proof.
  induction aInvisibleElements as [|oInvisibleElement aRest IH];
    intros mReveal mReveal'; cbn [revealAll filter].
  - intros [= <-]. now rewrite app_nil_r.
  - destruct (_invisibleToReveal mReveal oInvisibleElement) as [|e|mReveal1] eqn:Hstep;
      cbn [sbind]; try discriminate.
    intros Hrest. rewrite (IH _ _ Hrest), (invisibleToReveal_revealable _ _ _ Hstep).
    rewrite <- app_assoc. now destruct (revealable oInvisibleElement).
Qed.

(** X12. When [_getRevealActionFromAggregations] resolves, the aggregation
    has a [reveal] entry exactly when one of its invisible elements passes
    the checks, and the entry lists all that pass, each once and in their
    order; otherwise the map is returned as it was. *)
Theorem reveal_entry_complete (aParents : list (option ElementOverlay))
    (_mReveal mReveal' : ActionsMap) (sAggregationName : string)
    (aInvisibleElements : list Element) :
  invisibleElementsOf aParents sAggregationName = Return aInvisibleElements ->
  _getRevealActionFromAggregations aParents _mReveal sAggregationName
  = Fulfilled mReveal' ->
  match filter revealable aInvisibleElements with
  | [] => mReveal' = _mReveal
  | _ :: _ =>
      exists mReveal,
        actionsOf sAggregationName mReveal'
        = Some {| reveal := Some mReveal; addViaDelegate := None; addViaCustom := None |}
        /\ map element (elements mReveal) = filter revealable aInvisibleElements
  end.
Proof.
  intros Hinvisible. unfold _getRevealActionFromAggregations. rewrite Hinvisible.
  destruct (revealAll {| elements := []; controlTypeNames := [] |} aInvisibleElements)
    as [|e|mReveal] eqn:Hall; cbn [sbind]; try discriminate.
  pose proof (revealAll_revealable _ _ _ Hall) as Helements.
  simpl in Helements. rewrite <- Helements.
  destruct (elements mReveal) as [|mElement aElements] eqn:Hrevealed;
    cbn [List.length Nat.ltb Nat.leb map].
  - now intros [= <-].
  - intros [= <-]. exists mReveal. split.
    + rewrite actionsOf_setActions. now rewrite String.eqb_refl.
    + now rewrite Hrevealed.
Qed.

End Facts.
End ActionsFacts.

(* ================================================================== *)
(** * The menu: when an item is enabled, what a submenu holds *)
(* ================================================================== *)

Module MenuFacts.
Import Js AdditionalElementsPlugin AdditionalElementsCommands AdditionalElementsMenu.
Import ActionsFacts.

Section Facts.
Context {F : Framework}.

(** X13. [isEnabled] returns [true] only for a single overlay, and only when
    elements to add were collected for the relation or custom fields can be
    created; as a sibling the responsible overlay must have a parent, as a
    child actions must be kept with it that offer something for the
    aggregation. *)
Theorem isEnabled_true_only_if (st : PluginState) (bOverlayIsSibling : bool)
    (aElementOverlays : list ElementOverlay) (sAggregationName : option string) :
  isEnabled st bOverlayIsSibling aElementOverlays sAggregationName = Return true ->
  List.length aElementOverlays <= 1
  /\ ((exists oCachedElements,
         getCachedElements st bOverlayIsSibling = Some oCachedElements
         /\ oCachedElements <> [])
      \/ exists oExtensibilityInfo,
           getExtensibilityInfo st bOverlayIsSibling = Some oExtensibilityInfo)
  /\ exists oOverlay,
       getResponsibleElementOverlay (hd_error aElementOverlays) = Return oOverlay
       /\ if bOverlayIsSibling
          then exists oParentOverlay,
                 getParentElementOverlay oOverlay = Some oParentOverlay
          else exists mAllActions mActions,
                 _getActionsOrUndef false oOverlay (_mAddActions st) = Some mAllActions
                 /\ actionsFor sAggregationName mAllActions = Some mActions
                 /\ ((exists mReveal,
                        reveal mActions = Some mReveal /\ elements mReveal <> [])
                     \/ (exists mCustom, addViaCustom mActions = Some mCustom)
                     \/ exists mDelegate, addViaDelegate mActions = Some mDelegate).
Proof.
  unfold isEnabled.
  destruct (1 <? List.length aElementOverlays)%nat eqn:Hseveral; [discriminate|].
  apply Nat.ltb_ge in Hseveral.
  destruct (getResponsibleElementOverlay (hd_error aElementOverlays)) as [e|oOverlay];
    cbn [cbind]; [discriminate|].
  match goal with
  | |- cbind ?c _ = _ -> _ => destruct c as [e|bIsEnabled] eqn:Henabled
  end; cbn [cbind]; [discriminate|].
  intros [= Htrue]. apply andb_prop in Htrue as [-> Havailable].
  split; [exact Hseveral|]. split.
  - apply orb_prop in Havailable as [Hcached|Hinfo].
    + left. destruct (getCachedElements st bOverlayIsSibling) as [l|]; [|discriminate].
      exists l. split; [reflexivity|]. now destruct l.
    + right. destruct (getExtensibilityInfo st bOverlayIsSibling) as [i|];
        [now exists i|discriminate].
  - exists oOverlay. split; [reflexivity|].
    destruct bOverlayIsSibling.
    + injection Henabled as Hparent.
      destruct (getParentElementOverlay oOverlay) as [p|]; [now exists p|discriminate].
    + destruct (_getActionsOrUndef false oOverlay (_mAddActions st))
        as [mAllActions|] eqn:Hkept; [|discriminate].
      injection Henabled as Hactions.
      destruct (actionsFor sAggregationName mAllActions) as [mActions|] eqn:Hfor;
        [|discriminate].
      exists mAllActions, mActions. split; [reflexivity|]. split; [exact Hfor|].
      apply orb_prop in Hactions as [Hactions|Hdelegate].
      * apply orb_prop in Hactions as [Hreveal|Hcustom].
        -- left. destruct (reveal mActions) as [mReveal|]; [|discriminate].
           exists mReveal. split; [reflexivity|]. now destruct (elements mReveal).
        -- right. left. destruct (addViaCustom mActions) as [c|];
             [now exists c|discriminate].
      * right. right. destruct (addViaDelegate mActions) as [d|];
          [now exists d|discriminate].
Qed.

(** X14. As a child, [isEnabled] for one overlay throws a [TypeError]
    exactly when no actions are kept with the responsible overlay; once
    [_getActions] has resolved for it, it returns. *)
Theorem isEnabled_child_needs_actions (st : PluginState)
    (oElementOverlay oOverlay : ElementOverlay) (sAggregationName : option string) :
  getResponsibleElementOverlay (Some oElementOverlay) = Return oOverlay ->
  (isEnabled st false [oElementOverlay] sAggregationName = Throw TypeError
   <-> _mAddActions st (getOverlayId oOverlay) = None)
  /\ (forall bSibling bInvalidate st0 mActions,
        _getActions bSibling oOverlay bInvalidate st0
        = (Fulfilled mActions, _mAddActions st) ->
        exists bEnabled,
          isEnabled st false [oElementOverlay] sAggregationName = Return bEnabled).
Proof.
  intros Hresponsible.
  assert (Hcases :
            match _mAddActions st (getOverlayId oOverlay) with
            | None => isEnabled st false [oElementOverlay] sAggregationName
                      = Throw TypeError
            | Some _ => exists bEnabled,
                          isEnabled st false [oElementOverlay] sAggregationName
                          = Return bEnabled
            end).
  { unfold isEnabled. cbn [List.length Nat.ltb Nat.leb hd_error].
    rewrite Hresponsible. cbn [cbind]. unfold _getActionsOrUndef.
    destruct (_mAddActions st (getOverlayId oOverlay)); cbn [cbind]; eauto. }
  split.
  - destruct (_mAddActions st (getOverlayId oOverlay)) as [mAddActions|].
    + destruct Hcases as [bEnabled ->]. split; discriminate.
    + now split.
  - intros bSibling bInvalidate st0 mActions Hactions.
    destruct (getActions_kept _ _ _ _ _ _ Hactions) as (mAddActions & Hkept & _).
    now rewrite Hkept in Hcases.
Qed.

End Facts.

Section Items.
Variable enhanceItemWithResponsibleElement :
  MenuItem -> list ElementOverlay -> list string -> MenuItem.

Lemma buildSubmenuItemsFrom_items (bOverlayIsSibling : bool)
    (aElementOverlays : list ElementOverlay)
    (aElementsWithAggregation : list AggregationElements) :
  forall (iPosition : nat) (aSubMenuItems : list MenuItem),
    buildSubmenuItemsFrom enhanceItemWithResponsibleElement iPosition bOverlayIsSibling
      aElementOverlays aElementsWithAggregation = Return aSubMenuItems ->
    exists aItems,
      aSubMenuItems
      = map (fun oItem =>
               enhanceItemWithResponsibleElement oItem aElementOverlays
                 ["addViaDelegate"; "reveal"; "custom"]) aItems
      /\ map id aItems
         = map (fun i => (if bOverlayIsSibling then "CTX_ADD_ELEMENTS_AS_SIBLING"
                          else "CTX_ADD_ELEMENTS_AS_CHILD") ++ "_" ++ nat_to_string i)
             (seq iPosition (List.length aElementsWithAggregation))
      /\ map enabled aItems
         = map (fun mElements =>
                  IsEnabled bOverlayIsSibling (Some (elementsAggregation mElements)))
             aElementsWithAggregation
      /\ Forall (fun oItem => submenu oItem = None) aItems.
Proof.
  induction aElementsWithAggregation as [|mElements aRest IH];
    intros iPosition aSubMenuItems; cbn [buildSubmenuItemsFrom].
  - intros [= <-]. now exists [].
  - destruct (getMenuItemText bOverlayIsSibling (elementsAggregation mElements)
                aElementOverlays) as [e|sDisplayText]; cbn [cbind]; [discriminate|].
    destruct (buildSubmenuItemsFrom enhanceItemWithResponsibleElement (S iPosition)
                bOverlayIsSibling aElementOverlays aRest) as [e|aMore] eqn:Hmore;
      cbn [cbind]; [discriminate|].
    intros [= <-].
    destruct (IH (S iPosition) aMore Hmore) as (aItems & -> & Hids & Henabled & Hsub).
    eexists (_ :: aItems). split; [reflexivity|].
    cbn [map List.length seq id enabled]. rewrite Hids, Henabled.
    repeat split. now constructor.
Qed.

Lemma buildSubmenuItems_length (bOverlayIsSibling : bool)
    (aElementOverlays : list ElementOverlay)
    (aElementsWithAggregation : list AggregationElements)
    (aSubMenuItems : list MenuItem) :
  _buildSubmenuItems enhanceItemWithResponsibleElement bOverlayIsSibling
    aElementOverlays aElementsWithAggregation = Return aSubMenuItems ->
  List.length aSubMenuItems = List.length aElementsWithAggregation.
Proof.
  intros Hitems.
  destruct (buildSubmenuItemsFrom_items _ _ _ _ _ Hitems)
    as (aItems & -> & Hids & _).
  rewrite length_map. rewrite <- (length_map id), Hids, length_map. apply length_seq.
Qed.

(** X15. [_buildSubmenuItems] builds one item per aggregation, in the order
    of the aggregations: the items are numbered from 0 in their ids, each
    is enabled as [isEnabled] tells for its aggregation, and none has a
    submenu of its own. *)
Theorem buildSubmenuItems_items (bOverlayIsSibling : bool)
    (aElementOverlays : list ElementOverlay)
    (aElementsWithAggregation : list AggregationElements)
    (aSubMenuItems : list MenuItem) :
  _buildSubmenuItems enhanceItemWithResponsibleElement bOverlayIsSibling
    aElementOverlays aElementsWithAggregation = Return aSubMenuItems ->
  List.length aSubMenuItems = List.length aElementsWithAggregation
  /\ exists aItems,
       aSubMenuItems
       = map (fun oItem =>
                enhanceItemWithResponsibleElement oItem aElementOverlays
                  ["addViaDelegate"; "reveal"; "custom"]) aItems
       /\ map id aItems
          = map (fun i => (if bOverlayIsSibling then "CTX_ADD_ELEMENTS_AS_SIBLING"
                           else "CTX_ADD_ELEMENTS_AS_CHILD") ++ "_" ++ nat_to_string i)
              (seq 0 (List.length aElementsWithAggregation))
       /\ map enabled aItems
          = map (fun mElements =>
                   IsEnabled bOverlayIsSibling (Some (elementsAggregation mElements)))
              aElementsWithAggregation
       /\ Forall (fun oItem => submenu oItem = None) aItems.
Proof.
  intros Hitems. split.
  - exact (buildSubmenuItems_length _ _ _ _ Hitems).
  - exact (buildSubmenuItemsFrom_items _ _ _ _ _ Hitems).
Qed.

(** X16. A menu item without a submenu is always built, and it has the
    handler that opens the dialog; one with a submenu has no handler, is
    always enabled, and its submenu holds an entry for every aggregation
    of the children and then, where the item stands for children and
    siblings, for every aggregation of the siblings. *)
Theorem buildMenuItem_submenu (sPluginId : string) (bOverlayIsSibling : bool)
    (aElementOverlays : list ElementOverlay)
    (aChildren aSiblings : list AggregationElements) :
  (exists oMenuItem,
      _buildMenuItem enhanceItemWithResponsibleElement sPluginId bOverlayIsSibling
        aElementOverlays (aChildren, aSiblings) false = Return oMenuItem
      /\ submenu oMenuItem = None
      /\ exists sAggregationName,
           handler oMenuItem
           = Some (ShowAvailableElements bOverlayIsSibling sAggregationName None)
           /\ enabled oMenuItem = IsEnabled bOverlayIsSibling sAggregationName)
  /\ (forall oMenuItem,
        _buildMenuItem enhanceItemWithResponsibleElement sPluginId bOverlayIsSibling
          aElementOverlays (aChildren, aSiblings) true = Return oMenuItem ->
        handler oMenuItem = None
        /\ enabled oMenuItem = Always
        /\ exists aForChildren aForSiblings,
             submenu oMenuItem = Some (aForChildren ++ aForSiblings)%list
             /\ _buildSubmenuItems enhanceItemWithResponsibleElement false
                  aElementOverlays aChildren = Return aForChildren
             /\ List.length aForChildren = List.length aChildren
             /\ if String.eqb sPluginId "CTX_ADD_ELEMENTS_CHILD_AND_SIBLING"
                then _buildSubmenuItems enhanceItemWithResponsibleElement true
                       aElementOverlays aSiblings = Return aForSiblings
                     /\ List.length aForSiblings = List.length aSiblings
                else aForSiblings = []).
Proof.
  split.
  - eexists. split; [reflexivity|]. split; [reflexivity|].
    eexists. split; reflexivity.
  - intros oMenuItem. unfold _buildMenuItem. cbn [fst snd cbind].
    destruct (_buildSubmenuItems enhanceItemWithResponsibleElement false
                aElementOverlays aChildren) as [e|aForChildren] eqn:Hchildren;
      cbn [cbind]; [discriminate|].
    pose proof (buildSubmenuItems_length _ _ _ _ Hchildren) as Hlength.
    destruct (String.eqb sPluginId "CTX_ADD_ELEMENTS_CHILD_AND_SIBLING").
    + destruct (_buildSubmenuItems enhanceItemWithResponsibleElement true
                  aElementOverlays aSiblings) as [e|aForSiblings] eqn:Hsiblings;
        cbn [cbind]; [discriminate|].
      intros [= <-]. cbn [handler enabled submenu].
      split; [reflexivity|]. split; [reflexivity|].
      exists aForChildren, aForSiblings. split; [reflexivity|]. split; [reflexivity|].
      split; [exact Hlength|]. split; [reflexivity|].
      exact (buildSubmenuItems_length _ _ _ _ Hsiblings).
    + cbn [cbind]. intros [= <-]. cbn [handler enabled submenu].
      split; [reflexivity|]. split; [reflexivity|].
      exists aForChildren, []. rewrite app_nil_r. now repeat split.
Qed.

End Items.
End MenuFacts.

(* ================================================================== *)
(** * The commands: the order of the selection, untreated types,
      libraries, the revealed element *)
(* ================================================================== *)

Module CommandsFacts.
Import Js AdditionalElementsPlugin AdditionalElementsCommands CommandsSpec.
Import CommandsProofs SelectionSpec.

Lemma compare_lt_trans (a b c : string) :
  String.compare a b = Lt -> String.compare b c = Lt -> String.compare a c = Lt.
Proof.
  revert b c. induction a as [|x a IH]; intros [|y b] [|z c]; simpl;
    try discriminate; auto.
  destruct (Ascii.compare x y) eqn:Hxy; try discriminate.
  - apply Ascii.compare_eq_iff in Hxy. subst y.
    destruct (Ascii.compare x z); try discriminate; eauto.
  - intros _. destruct (Ascii.compare y z) eqn:Hyz; try discriminate.
    + apply Ascii.compare_eq_iff in Hyz. subst z. now rewrite Hxy.
    + intros _.
      assert (Hxz : Ascii.compare x z = Lt).
      { unfold Ascii.compare in *. rewrite N.compare_lt_iff in *. lia. }
      now rewrite Hxz.
Qed.

Lemma strictlyDescending_trans (a b c : SelectedElement) :
  strictlyDescending a b -> strictlyDescending b c -> strictlyDescending a c.
Proof.
  unfold strictlyDescending, String.ltb. intros Hab Hbc.
  destruct (String.compare (label b) (label a)) eqn:Hba; try discriminate.
  destruct (String.compare (label c) (label b)) eqn:Hcb; try discriminate.
  now rewrite (compare_lt_trans _ _ _ Hcb Hba).
Qed.

Lemma descending_strictly (a b : SelectedElement) :
  descending a b -> label a <> label b -> strictlyDescending a b.
Proof.
  unfold descending, strictlyDescending, String.ltb. intros Hab Hdistinct.
  rewrite (String.compare_antisym (label b) (label a)).
  destruct (String.compare (label a) (label b)) eqn:Hcompare; try discriminate.
  - now apply String.compare_eq_iff in Hcompare.
  - reflexivity.
Qed.

Lemma strictlyDescending_irrefl (a b : SelectedElement) :
  strictlyDescending a b -> strictlyDescending b a -> False.
Proof.
  unfold strictlyDescending. intros Hab Hba. apply ltb_asym in Hab. congruence.
Qed.

Lemma sorted_strictly (l : list SelectedElement) :
  Sorted descending l -> NoDup (map label l) -> StronglySorted strictlyDescending l.
Proof.
  intros Hsorted Hdistinct. apply Sorted_StronglySorted.
  { exact strictlyDescending_trans. }
  induction Hsorted as [|a l Hsorted IH Hhd]; [constructor|].
  cbn [map] in Hdistinct. apply NoDup_cons_iff in Hdistinct as [Hfresh Hdistinct].
  constructor; [now apply IH|].
  destruct Hhd as [|b l Hab]; constructor.
  apply descending_strictly; [exact Hab|].
  intros Hsame. apply Hfresh. cbn [map]. now left.
Qed.

(** Two lists of the same elements, each with the greater label first,
    are the same list. *)
Lemma strictly_sorted_unique (l1 : list SelectedElement) :
  forall l2,
    StronglySorted strictlyDescending l1 -> StronglySorted strictlyDescending l2 ->
    Permutation l1 l2 -> l1 = l2.
Proof.
  induction l1 as [|a t1 IH]; intros l2 Hs1 Hs2 Hperm.
  - now apply Permutation_nil in Hperm.
  - destruct l2 as [|b t2].
    { now apply Permutation_sym, Permutation_nil in Hperm. }
    apply StronglySorted_inv in Hs1 as [Hs1 Ha].
    apply StronglySorted_inv in Hs2 as [Hs2 Hb].
    assert (Hsame : a = b).
    { assert (Hin : In a (b :: t2)) by (eapply Permutation_in; [exact Hperm|now left]).
      destruct Hin as [Hin|Hin]; [now symmetry|].
      assert (Hin' : In b (a :: t1)).
      { eapply Permutation_in; [exact (Permutation_sym Hperm)|now left]. }
      destruct Hin' as [Hin'|Hin']; [exact Hin'|].
      rewrite Forall_forall in Ha, Hb.
      destruct (strictlyDescending_irrefl a b (Ha b Hin') (Hb a Hin)). }
    subst b. f_equal. apply IH; [exact Hs1|exact Hs2|].
    exact (Permutation_cons_inv Hperm).
Qed.

Lemma sortByLabel_order (aSelected aSelected' : list SelectedElement) :
  Permutation aSelected aSelected' -> NoDup (map label aSelected) ->
  sortByLabel aSelected = sortByLabel aSelected'.
Proof.
  intros Hperm Hdistinct.
  assert (Hsorted : Permutation (sortByLabel aSelected) (sortByLabel aSelected')).
  { eapply perm_trans; [apply Permutation_sym, sortByLabel_perm|].
    eapply perm_trans; [exact Hperm|apply sortByLabel_perm]. }
  apply strictly_sorted_unique; [| |exact Hsorted].
  - apply sorted_strictly; [apply sortByLabel_sorted|].
    eapply Permutation_NoDup; [|exact Hdistinct].
    apply Permutation_map, sortByLabel_perm.
  - apply sorted_strictly; [apply sortByLabel_sorted|].
    eapply Permutation_NoDup; [|exact Hdistinct].
    apply Permutation_map. eapply perm_trans; [exact Hperm|apply sortByLabel_perm].
Qed.

Lemma find_app {A : Type} (f : A -> bool) (l1 l2 : list A) :
  find f (l1 ++ l2) = match find f l1 with
                      | Some a => Some a
                      | None => find f l2
                      end.
Proof.
  induction l1 as [|a l1 IH]; simpl; [reflexivity|].
  destruct (f a); [reflexivity|exact IH].
Qed.

Section Facts.
Context {F : Framework} {S : Services}.

(** X17. The commands do not depend on the order in which the elements were
    selected, as long as no two of them have the same label. *)
Theorem createCommands_selection_order (aSelected aSelected' : list SelectedElement)
    (mParents : Parents) (oSiblingElement : option Element)
    (mActions : option SelectedActions) (iIndex : option Z) :
  Permutation aSelected aSelected' ->
  NoDup (map label aSelected) ->
  _createCommands aSelected' mParents oSiblingElement mActions iIndex
  = _createCommands aSelected mParents oSiblingElement mActions iIndex.
Proof.
  intros Hperm Hdistinct. unfold _createCommands.
  now rewrite (sortByLabel_order _ _ Hperm Hdistinct).
Qed.

Lemma createCommandsForAll_untreated (oCompositeCommand : option Command)
    (aSelectedElements : list SelectedElement) (mParents : Parents)
    (oSiblingElement : option Element) (mActions : option SelectedActions)
    (iIndex : option Z) :
  Forall (fun oSelectedElement => treated oSelectedElement = false) aSelectedElements ->
  forall aCommands,
    createCommandsForAll oCompositeCommand aCommands aSelectedElements mParents
      oSiblingElement mActions iIndex = Fulfilled aCommands.
Proof.
  induction 1 as [|oSelectedElement aRest Htype _ IH]; intros aCommands;
    cbn [createCommandsForAll]; [reflexivity|].
  unfold treated in Htype.
  apply orb_false_elim in Htype as [Htype Hcustom].
  apply orb_false_elim in Htype as [Hinvisible Hdelegate].
  unfold createCommandsFor. rewrite Hinvisible, Hdelegate, Hcustom. cbn [sbind].
  apply IH.
Qed.

(** X18. Where elements are selected but none is of a type that is treated
    (invisible, delegate, custom), the composite command is still asked
    for, and the event is fired with it and without any command in it;
    nothing is thrown for the missing parents or actions. *)
Theorem createCommands_untreated_types (aSelected : list SelectedElement)
    (mParents : Parents) (oSiblingElement : option Element)
    (mActions : option SelectedActions) (iIndex : option Z) :
  aSelected <> [] ->
  Forall (fun oSelectedElement => treated oSelectedElement = false) aSelected ->
  _createCommands aSelected mParents oSiblingElement mActions iIndex
  = match getCommandFor (compositeRequest mParents) with
    | Pending => Pending
    | Rejected vMessage => Rejected (propagateError vMessage)
    | Fulfilled oCompositeCommand =>
        Fulfilled (Some {| command := oCompositeCommand; commands := [] |})
    end.
Proof.
  intros Hselected Huntreated. unfold _createCommands.
  destruct (sortByLabel aSelected) as [|oFirst aSorted] eqn:Hsorted.
  { now apply sortByLabel_nil in Hsorted. }
  cbn [List.length Nat.ltb Nat.leb]. fold (compositeRequest mParents).
  destruct (getCommandFor (compositeRequest mParents)) as [|e|oCompositeCommand];
    cbn [sbind]; try reflexivity.
  rewrite createCommandsForAll_untreated; [reflexivity|].
  rewrite <- Hsorted. rewrite Forall_forall in *. intros oSelectedElement Hin.
  apply Huntreated. eapply Permutation_in; [|exact Hin].
  apply Permutation_sym, sortByLabel_perm.
Qed.


Lemma some_last (oRevealed : Element) (l : list RevealElement) :
  forall mRevealData,
    (fix some (l : list RevealElement) (mRevealData : option RevealElement)
       : completion (option RevealElement) :=
       match l with
       | [] => Return mRevealData
       | mElement :: l' =>
           match Some oRevealed with
           | None => Throw TypeError
           | Some oRevealed =>
               some l' (if String.eqb (getId (element mElement)) (getId oRevealed)
                        then Some mElement else mRevealData)
           end
       end) l mRevealData
    = Return match findLast (fun mElement =>
                               String.eqb (getId (element mElement)) (getId oRevealed)) l
             with
             | Some mElement => Some mElement
             | None => mRevealData
             end.
Proof.
  induction l as [|mElement l IH]; intros mRevealData; [reflexivity|].
  rewrite IH. unfold findLast. cbn [List.rev]. rewrite find_app. cbn [find].
  destruct (find _ (List.rev l)); [reflexivity|].
  now destruct (String.eqb (getId (element mElement)) (getId oRevealed)).
Qed.

(** X20. [_getRevealDataFromActions] goes through all the elements that can
    be revealed and returns the last one with the id of the revealed
    element, [undefined] where there is none; without a revealed element
    it throws, unless there is nothing that can be revealed. *)
Theorem getRevealDataFromActions_last (mActions : SelectedActions)
    (mReveal : Reveal) :
  reveal (actions mActions) = Some mReveal ->
  (forall oRevealedElement,
      _getRevealDataFromActions (Some mActions) (Some oRevealedElement)
      = Return (findLast (fun mElement =>
                            String.eqb (getId (element mElement))
                              (getId oRevealedElement)) (elements mReveal)))
  /\ _getRevealDataFromActions (Some mActions) None
     = match elements mReveal with
       | [] => Return None
       | _ :: _ => Throw TypeError
       end.
Proof.
  intros Hreveal. unfold _getRevealDataFromActions. rewrite Hreveal. split.
  - intros oRevealedElement.
    etransitivity; [exact (some_last oRevealedElement (elements mReveal) None)|].
    now destruct (findLast _ (elements mReveal)).
  - now destruct (elements mReveal).
Qed.

End Facts.
End CommandsFacts.

(* ================================================================== *)
(** * The elements that can be added: what is kept, and for which
      relation *)
(* ================================================================== *)

Module ElementsFacts.
Import Js AdditionalElementsPlugin AdditionalElementsCommands AdditionalElementsMenu.
Import AdditionalElementsElements ElementsSpec.

Lemma getCachedElements_set (st : PluginState) (aElements : list AggregationElements)
    (bOverlayIsSibling bRelation : bool) :
  getCachedElements (setCachedElements st aElements bOverlayIsSibling) bRelation
  = if Bool.eqb bOverlayIsSibling bRelation then Some aElements
    else getCachedElements st bRelation.
Proof.
  unfold getCachedElements, setCachedElements, setRelation. cbn [_oCachedElements].
  destruct bOverlayIsSibling, bRelation, (_oCachedElements st); reflexivity.
Qed.

Lemma getExtensibilityInfo_set (st : PluginState) (bOverlayIsSibling bRelation : bool)
    (oExtensibilityInfo : option ExtensibilityInfo) :
  getExtensibilityInfo (setExtensibilityInfo st bOverlayIsSibling oExtensibilityInfo)
    bRelation
  = if Bool.eqb bOverlayIsSibling bRelation then oExtensibilityInfo
    else getExtensibilityInfo st bRelation.
Proof.
  unfold getExtensibilityInfo, setExtensibilityInfo, setRelation.
  cbn [_oExtensibilityInfo].
  destruct bOverlayIsSibling, bRelation, (_oExtensibilityInfo st); reflexivity.
Qed.

Lemma getExtensibilityInfo_clear (st : PluginState) (bOverlayIsSibling bRelation : bool) :
  getExtensibilityInfo (clearExtensibilityInfo st bOverlayIsSibling) bRelation
  = if Bool.eqb bOverlayIsSibling bRelation then None
    else getExtensibilityInfo st bRelation.
Proof.
  unfold getExtensibilityInfo, clearExtensibilityInfo, setRelation.
  destruct (_oExtensibilityInfo st) eqn:Hinfo; cbn [_oExtensibilityInfo];
    rewrite ?Hinfo; destruct bOverlayIsSibling, bRelation; reflexivity.
Qed.

Lemma getCachedElements_clearInfo (st : PluginState) (bOverlayIsSibling bRelation : bool) :
  getCachedElements (clearExtensibilityInfo st bOverlayIsSibling) bRelation
  = getCachedElements st bRelation.
Proof.
  unfold getCachedElements, clearExtensibilityInfo.
  now destruct (_oExtensibilityInfo st).
Qed.

Lemma mAddActions_clearInfo (st : PluginState) (bOverlayIsSibling : bool) :
  _mAddActions (clearExtensibilityInfo st bOverlayIsSibling) = _mAddActions st.
Proof.
  unfold clearExtensibilityInfo. now destruct (_oExtensibilityInfo st).
Qed.

(** X21. What is set for a relation is what is got for it, and the other
    relation keeps what it had: for the elements that are kept and for the
    extensibility info alike.  Clearing the info of a relation leaves the
    other relation and the elements alone; clearing the elements clears
    them for both relations and leaves the info alone. *)
Theorem kept_per_relation (st : PluginState) (aElements : list AggregationElements)
    (oExtensibilityInfo : option ExtensibilityInfo)
    (bOverlayIsSibling bRelation : bool) :
  getCachedElements (setCachedElements st aElements bOverlayIsSibling) bRelation
  = (if Bool.eqb bOverlayIsSibling bRelation then Some aElements
     else getCachedElements st bRelation)
  /\ getExtensibilityInfo (setCachedElements st aElements bOverlayIsSibling) bRelation
     = getExtensibilityInfo st bRelation
  /\ getExtensibilityInfo
       (setExtensibilityInfo st bOverlayIsSibling oExtensibilityInfo) bRelation
     = (if Bool.eqb bOverlayIsSibling bRelation then oExtensibilityInfo
        else getExtensibilityInfo st bRelation)
  /\ getCachedElements
       (setExtensibilityInfo st bOverlayIsSibling oExtensibilityInfo) bRelation
     = getCachedElements st bRelation
  /\ getExtensibilityInfo (clearExtensibilityInfo st bOverlayIsSibling) bRelation
     = (if Bool.eqb bOverlayIsSibling bRelation then None
        else getExtensibilityInfo st bRelation)
  /\ getCachedElements (clearExtensibilityInfo st bOverlayIsSibling) bRelation
     = getCachedElements st bRelation
  /\ getCachedElements (clearCachedElements st) bRelation = None
  /\ getExtensibilityInfo (clearCachedElements st) bRelation
     = getExtensibilityInfo st bRelation.
Proof.
  split; [apply getCachedElements_set|].
  split; [reflexivity|].
  split; [apply getExtensibilityInfo_set|].
  split; [reflexivity|].
  split; [apply getExtensibilityInfo_clear|].
  split; [apply getCachedElements_clearInfo|].
  split; reflexivity.
Qed.

Lemma keptInOrder_filter {A B : Type} (f : A -> B) (p : A -> bool) (l : list A) :
  keptInOrder (map f (filter p l)) (map f l).
Proof.
  induction l as [|a l IH]; cbn [filter map]; [constructor|].
  destruct (p a); cbn [map]; now constructor.
Qed.

Lemma allSettled_map {A B D : Type} (g : A -> settled B) (h : B -> D) (k : A -> D)
    (l : list A) :
  (forall a b, g a = Fulfilled b -> h b = k a) ->
  forall aValues,
    allSettled (map g l) = Fulfilled aValues -> map h aValues = map k l.
Proof.
  intros Hg. induction l as [|a l IH]; intros aValues; cbn [map allSettled].
  - now intros [= <-].
  - destruct (g a) as [|e|b] eqn:Ha; [destruct (allSettled (map g l)); discriminate
                                    |discriminate|].
    destruct (allSettled (map g l)) as [|e|aRest]; try discriminate.
    intros [= <-]. cbn [map]. now rewrite (Hg _ _ Ha), (IH aRest eq_refl).
Qed.

Section Facts.
Context {F : Framework} {An : Analyzer}.

Lemma combineAnalyzerResults_aggregations (aAllPromises : list ElementPromises)
    (aAllElements : list AggregationElements) :
  _combineAnalyzerResults aAllPromises = Fulfilled aAllElements ->
  Forall (fun oElements => aggregationElements oElements <> []) aAllElements
  /\ keptInOrder (map elementsAggregation aAllElements)
       (map promisesAggregation aAllPromises).
Proof.
  unfold _combineAnalyzerResults.
  match goal with
  | |- sbind (allSettled (map ?g _)) _ = _ -> _ => set (collect := g)
  end.
  destruct (allSettled (map collect aAllPromises)) as [|e|aValues] eqn:Hall;
    cbn [sbind]; try discriminate.
  intros [= <-]. split.
  - apply Forall_forall. intros oElements Hin. apply filter_In in Hin as [_ Hlength].
    intros Hnil. rewrite Hnil in Hlength. discriminate.
  - assert (Hcollect : forall aPromises oElements,
                         collect aPromises = Fulfilled oElements ->
                         elementsAggregation oElements = promisesAggregation aPromises).
    { intros aPromises oElements. unfold collect.
      destruct (elementPromises aPromises) as [[oInvisible oDelegate] oCustom].
      destruct (all3 oInvisible oDelegate oCustom) as [|e|[[a b] c]]; cbn [sbind];
        try discriminate.
      now intros [= <-]. }
    rewrite <- (allSettled_map collect elementsAggregation promisesAggregation
                  aAllPromises Hcollect aValues Hall).
    apply keptInOrder_filter.
Qed.

Lemma promisesFor_aggregations (oParent : option Element) (mAllActions : ActionsMap) :
  map promisesAggregation
    (map (fun mEntry => promisesFor oParent (fst mEntry) (snd mEntry)) mAllActions)
  = map fst mAllActions.
Proof.
  rewrite map_map. now apply map_ext.
Qed.

(** The cases of [getAllElements] that return. *)
Ltac cases_of H Hresult :=
  unfold getAllElements in H;
  let e := fresh "e" in
  let mParents := fresh "mParents" in
  let aCachedElements := fresh "aCachedElements" in
  let Hparents := fresh "Hparents" in
  let Hcached := fresh "Hcached" in
  let Hactions := fresh "Hactions" in
  let Hinfo := fresh "Hinfo" in
  let Hcombine := fresh "Hcombine" in
  let aCombined := fresh "aCombined" in
  destruct (_getParents _ _ true) as [e|mParents] eqn:Hparents; cbn [cbind] in H;
  [discriminate H|];
  destruct (getCachedElements _ _) as [aCachedElements|] eqn:Hcached;
  [injection H as Hresult <-
  |rewrite mAddActions_clearInfo in H;
   destruct (fst (_getActions _ _ false _)) as [|e|mAllActions] eqn:Hactions;
   [injection H as Hresult <-
   |injection H as Hresult <-
   |destruct (if existsb _ mAllActions then _ else _)
      as [|e|oExtensibilityInfo] eqn:Hinfo;
    [injection H as Hresult <-
    |injection H as Hresult <-
    |destruct (_combineAnalyzerResults _) as [|e|aCombined] eqn:Hcombine;
     injection H as Hresult <-]]].

Lemma getCachedElements_withAddActions (st : PluginState) (mAddActions : Store)
    (bRelation : bool) :
  getCachedElements (withAddActions st mAddActions) bRelation
  = getCachedElements st bRelation.
Proof. reflexivity. Qed.

Lemma getExtensibilityInfo_withAddActions (st : PluginState) (mAddActions : Store)
    (bRelation : bool) :
  getExtensibilityInfo (withAddActions st mAddActions) bRelation
  = getExtensibilityInfo st bRelation.
Proof. reflexivity. Qed.

Lemma getExtensibilityInfo_setCached (st : PluginState)
    (aElements : list AggregationElements) (bOverlayIsSibling bRelation : bool) :
  getExtensibilityInfo (setCachedElements st aElements bOverlayIsSibling) bRelation
  = getExtensibilityInfo st bRelation.
Proof. reflexivity. Qed.

Lemma getCachedElements_setInfo (st : PluginState) (bOverlayIsSibling bRelation : bool)
    (oExtensibilityInfo : option ExtensibilityInfo) :
  getCachedElements (setExtensibilityInfo st bOverlayIsSibling oExtensibilityInfo)
    bRelation
  = getCachedElements st bRelation.
Proof. reflexivity. Qed.

Lemma eqb_negb (b : bool) : Bool.eqb b (negb b) = false.
Proof. now destruct b. Qed.

Ltac kept :=
  rewrite ?getCachedElements_set, ?getCachedElements_setInfo,
    ?getCachedElements_withAddActions, ?getCachedElements_clearInfo,
    ?getExtensibilityInfo_setCached, ?getExtensibilityInfo_set,
    ?getExtensibilityInfo_withAddActions, ?getExtensibilityInfo_clear,
    ?eqb_negb, ?Bool.eqb_reflx.

Lemma getAllElements_kept (st st' : PluginState) (bOverlayIsSibling : bool)
    (oElementOverlay : ElementOverlay) (aAllElements : list AggregationElements) :
  getAllElements st bOverlayIsSibling oElementOverlay
  = Return (Fulfilled aAllElements, st') ->
  getCachedElements st' bOverlayIsSibling = Some aAllElements
  /\ exists mParents,
       _getParents bOverlayIsSibling oElementOverlay true = Return mParents.
Proof.
  intros Hall. cases_of Hall Hresult; try discriminate Hresult; subst aAllElements.
  - split; [assumption|]. now eexists.
  - split; [now kept|]. now eexists.
Qed.

(** X22. The elements that [getAllElements] resolves with are kept for the
    relation: asked again, it returns them at once and changes nothing. *)
Theorem getAllElements_again (st st' : PluginState) (bOverlayIsSibling : bool)
    (oElementOverlay : ElementOverlay) (aAllElements : list AggregationElements) :
  getAllElements st bOverlayIsSibling oElementOverlay
  = Return (Fulfilled aAllElements, st') ->
  getCachedElements st' bOverlayIsSibling = Some aAllElements
  /\ getAllElements st' bOverlayIsSibling oElementOverlay
     = Return (Fulfilled aAllElements, st').
Proof.
  intros Hall.
  destruct (getAllElements_kept _ _ _ _ _ Hall) as [Hkept [mParents Hparents]].
  split; [exact Hkept|].
  unfold getAllElements. rewrite Hparents. cbn [cbind]. now rewrite Hkept.
Qed.

(** X23. Once [getAllElements] has resolved without any element for a
    relation, and there is no extensibility info for it, [isEnabled] does
    not return [true] for the relation, whatever the overlays and the
    aggregation. *)
Theorem isEnabled_without_elements (st st' : PluginState) (bOverlayIsSibling : bool)
    (oElementOverlay : ElementOverlay) :
  getAllElements st bOverlayIsSibling oElementOverlay = Return (Fulfilled [], st') ->
  getExtensibilityInfo st' bOverlayIsSibling = None ->
  forall aElementOverlays sAggregationName,
    isEnabled st' bOverlayIsSibling aElementOverlays sAggregationName <> Return true.
Proof.
  intros Hall Hinfo aElementOverlays sAggregationName.
  destruct (getAllElements_kept _ _ _ _ _ Hall) as [Hkept _].
  unfold isEnabled. rewrite Hkept, Hinfo.
  destruct (1 <? List.length aElementOverlays)%nat; [discriminate|].
  destruct (getResponsibleElementOverlay (hd_error aElementOverlays)) as [e|oOverlay];
    cbn [cbind]; [discriminate|].
  match goal with
  | |- cbind ?c _ <> _ => destruct c as [e|bIsEnabled]
  end; cbn [cbind]; [discriminate|].
  cbn [List.length Nat.ltb Nat.leb isSome orb]. rewrite andb_false_r. discriminate.
Qed.

(** X24. Where no elements are kept for the relation, what [getAllElements]
    resolves with has no aggregation without elements, and the
    aggregations are aggregations of the actions of the overlay, in the
    order of the actions. *)
Theorem getAllElements_aggregations (st st' : PluginState) (bOverlayIsSibling : bool)
    (oElementOverlay : ElementOverlay) (aAllElements : list AggregationElements) :
  getCachedElements st bOverlayIsSibling = None ->
  getAllElements st bOverlayIsSibling oElementOverlay
  = Return (Fulfilled aAllElements, st') ->
  Forall (fun oElements => aggregationElements oElements <> []) aAllElements
  /\ exists mAllActions,
       fst (_getActions bOverlayIsSibling oElementOverlay false (_mAddActions st))
       = Fulfilled mAllActions
       /\ keptInOrder (map elementsAggregation aAllElements) (map fst mAllActions).
Proof.
  intros Hnone Hall. cases_of Hall Hresult; try discriminate Hresult; [congruence|].
  subst aAllElements.
  destruct (combineAnalyzerResults_aggregations _ _ Hcombine) as [Hnonempty Horder].
  split; [exact Hnonempty|]. exists mAllActions. split; [reflexivity|].
  now rewrite promisesFor_aggregations in Horder.
Qed.

(** X25. Whatever its promise settles in, [getAllElements] for one relation
    leaves the elements and the extensibility info of the other relation
    as they are; and where no elements were kept, an extensibility info
    that is there afterwards for the relation is the one that
    [handleExtensibility] delivered for the parent in this call, because
    an aggregation has an action to add through a delegate. *)
Theorem getAllElements_other_relation (st st' : PluginState) (bOverlayIsSibling : bool)
    (oElementOverlay : ElementOverlay) (oElements : settled (list AggregationElements)) :
  getAllElements st bOverlayIsSibling oElementOverlay = Return (oElements, st') ->
  getCachedElements st' (negb bOverlayIsSibling)
  = getCachedElements st (negb bOverlayIsSibling)
  /\ getExtensibilityInfo st' (negb bOverlayIsSibling)
     = getExtensibilityInfo st (negb bOverlayIsSibling)
  /\ (getCachedElements st bOverlayIsSibling = None ->
      forall oInfo,
        getExtensibilityInfo st' bOverlayIsSibling = Some oInfo ->
        exists mParents mAllActions,
          _getParents bOverlayIsSibling oElementOverlay true = Return mParents
          /\ fst (_getActions bOverlayIsSibling oElementOverlay false (_mAddActions st))
             = Fulfilled mAllActions
          /\ existsb (fun mEntry => isSome (addViaDelegate (snd mEntry))) mAllActions
             = true
          /\ handleExtensibility (parent mParents) = Fulfilled (Some oInfo)).
Proof.
  intros Hall. cases_of Hall Hresult; clear Hresult; (split; [|split]); kept;
    try reflexivity;
    try (intros Hnone; congruence); intros _ oInfo; kept; try discriminate;
    intros ->; exists mParents, mAllActions;
    (split; [reflexivity|]); (split; [reflexivity|]);
    destruct (existsb _ mAllActions); try discriminate; now split.
Qed.

End Facts.
End ElementsFacts.

(* ================================================================== *)
(** * Whether elements can be added: the actions that count, the stable
      ids *)
(* ================================================================== *)

Module EditableFacts.
Import Js AdditionalElementsPlugin AdditionalElementsMenu AdditionalElementsEditable.

Section Facts.
Context {F : Framework} {K : Checks}.

Lemma someEditable_set (bOverlayIsSibling : bool) (mParents : Parents)
    (mActions : ActionsMap) :
  someEditable bOverlayIsSibling mParents true mActions
  = match mActions with
    | [] => false
    | _ :: _ => true
    end.
Proof.
  destruct mActions as [|[sAggregationName mAggregationActions] mRest]; reflexivity.
Qed.

Lemma someEditable_sibling (mParents : Parents) (mActions : ActionsMap) :
  someEditable true mParents false mActions
  = existsb (fun mEntry => isSome (reveal (snd mEntry))) mActions.
Proof.
  induction mActions as [|[sAggregationName mAggregationActions] mRest IH];
    cbn [someEditable existsb snd negb andb]; [reflexivity|].
  destruct (isSome (reveal mAggregationActions)); [reflexivity|exact IH].
Qed.

Lemma someEditable_child (mParents : Parents) (mActions : ActionsMap) :
  someEditable false mParents false mActions
  = existsb (fun mEntry =>
               isSome (reveal (snd mEntry))
               || isSome (addViaDelegate (snd mEntry))
                  && checkAggregationsOnSelf (parentOverlay mParents) "add" None
                       "delegate"
               || isSome (addViaCustom (snd mEntry))) mActions.
Proof.
  induction mActions as [|[sAggregationName mAggregationActions] mRest IH];
    cbn [someEditable existsb snd negb andb]; [reflexivity|].
  destruct (isSome (reveal mAggregationActions)); [reflexivity|].
  destruct (isSome (addViaDelegate mAggregationActions)); cbn [orb andb negb].
  - destruct (checkAggregationsOnSelf (parentOverlay mParents) "add" None "delegate");
      [reflexivity|].
    cbn [negb andb orb].
    destruct (isSome (addViaCustom mAggregationActions)); [reflexivity|exact IH].
  - destruct (isSome (addViaCustom mAggregationActions)); [reflexivity|exact IH].
Qed.

(** X26. The actions that make an overlay editable.  As a child: an
    aggregation with an action to reveal, with an action to add through a
    delegate where [checkAggregationsOnSelf] agrees, or with a custom
    action to add.  As a sibling: an aggregation with an action to reveal,
    or any action for the aggregation that the responsible overlay is in;
    without such an aggregation overlay the check throws. *)
Theorem editableByActions_cases (mParents : Parents) (mActions : ActionsMap) :
  editableByActions false mParents mActions
  = Return (existsb (fun mEntry =>
                       isSome (reveal (snd mEntry))
                       || isSome (addViaDelegate (snd mEntry))
                          && checkAggregationsOnSelf (parentOverlay mParents) "add" None
                               "delegate"
                       || isSome (addViaCustom (snd mEntry))) mActions)
  /\ editableByActions true mParents mActions
     = match getParentAggregationOverlay (responsibleElementOverlay mParents) with
       | Some oParentAggregationOverlay =>
           Return (existsb (fun mEntry =>
                              String.eqb (fst mEntry)
                                (getAggregationName oParentAggregationOverlay)
                              || isSome (reveal (snd mEntry))) mActions)
       | None => Throw TypeError
       end.
Proof.
  unfold editableByActions, _isThereAnAggregationActionForSameAggregation. split.
  - cbn [cbind]. now rewrite someEditable_child.
  - destruct (getParentAggregationOverlay (responsibleElementOverlay mParents))
      as [oParentAggregationOverlay|]; [|reflexivity].
    cbn [cbind]. f_equal.
    destruct (existsb (fun mEntry =>
                         String.eqb (fst mEntry)
                           (getAggregationName oParentAggregationOverlay)) mActions)
      eqn:Hsame.
    + rewrite someEditable_set.
      destruct mActions as [|mEntry mRest]; [discriminate|].
      symmetry. apply existsb_exists.
      apply existsb_exists in Hsame as (mSame & Hin & Hname).
      exists mSame. split; [exact Hin|]. now rewrite Hname.
    + rewrite someEditable_sibling.
      induction mActions as [|mEntry mRest IH]; [reflexivity|].
      cbn [existsb] in *. apply orb_false_elim in Hsame as [Hname Hrest].
      rewrite Hname, (IH Hrest). reflexivity.
Qed.

(** X27. [_isEditableCheck] resolves with [true] only for an overlay whose
    relevant container has an overlay, and only where the overlay and its
    parent overlay have stable ids; the actions were then collected anew
    and are kept with the overlay. *)
Theorem isEditableCheck_editable (oOverlay : ElementOverlay) (bOverlayIsSibling : bool)
    (st : Store) :
  fst (_isEditableCheck oOverlay bOverlayIsSibling st) = Fulfilled (Some true) ->
  exists mParents oRelevantContainerOverlay mActions,
    _getParents bOverlayIsSibling oOverlay true = Return mParents
    /\ relevantContainerOverlay mParents = Some oRelevantContainerOverlay
    /\ hasStableId (Some oOverlay) = true
    /\ hasStableId (parentOverlay mParents) = true
    /\ _getActions bOverlayIsSibling oOverlay true st
       = (Fulfilled mActions, snd (_isEditableCheck oOverlay bOverlayIsSibling st))
    /\ _getActionsOrUndef bOverlayIsSibling oOverlay
         (snd (_isEditableCheck oOverlay bOverlayIsSibling st)) = Some mActions.
Proof.
  unfold _isEditableCheck.
  destruct (_getParents bOverlayIsSibling oOverlay true) as [e|mParents];
    [discriminate|].
  destruct (relevantContainerOverlay mParents) as [oRelevantContainerOverlay|]
    eqn:Hcontainer; [|discriminate].
  cbn [fst snd].
  destruct (_getActions bOverlayIsSibling oOverlay true st) as [oActions st']
    eqn:Hactions.
  cbn [fst snd]. destruct oActions as [|e|mActions]; cbn [sbind]; try discriminate.
  destruct (doIfAllControlsAreAvailable _ _) as [e|[[|]|]]; cbn [settle sbind];
    try discriminate.
  intros [= Hstable]. apply andb_prop in Hstable as [Hoverlay Hparent].
  exists mParents, oRelevantContainerOverlay, mActions.
  split; [reflexivity|]. split; [exact Hcontainer|].
  split; [exact Hoverlay|]. split; [exact Hparent|]. split; [reflexivity|].
  destruct (ActionsFacts.getActions_kept _ _ _ _ _ _ Hactions)
    as (mAddActions & Hkept & Hsame).
  unfold _getActionsOrUndef. now rewrite Hkept, Hsame.
Qed.

(** X28. [_isEditable] never rejects: where one of its two checks rejects,
    it resolves with [undefined], and only then; otherwise it resolves,
    once both checks have, with what the check as sibling and the check as
    child resolved with. *)
Theorem isEditable_never_rejects (oSourceElementOverlay : ElementOverlay) (st : Store) :
  let oAsSibling := _isEditableCheck oSourceElementOverlay true st in
  let oAsChild := _isEditableCheck oSourceElementOverlay false (snd oAsSibling) in
  (forall vError, fst (_isEditable oSourceElementOverlay st) <> Rejected vError)
  /\ (fst (_isEditable oSourceElementOverlay st) = Fulfilled None
      <-> exists vError,
            fst oAsSibling = Rejected vError \/ fst oAsChild = Rejected vError)
  /\ (forall mEditable,
        fst (_isEditable oSourceElementOverlay st) = Fulfilled (Some mEditable)
        <-> fst oAsSibling = Fulfilled (editableAsSibling mEditable)
            /\ fst oAsChild = Fulfilled (editableAsChild mEditable))
  /\ snd (_isEditable oSourceElementOverlay st) = snd oAsChild.
Proof.
  intros oAsSibling oAsChild. unfold _isEditable. fold oAsSibling. fold oAsChild.
  cbn [fst snd].
  destruct (fst oAsSibling) as [|eSibling|bSibling],
           (fst oAsChild) as [|eChild|bChild]; cbn [bothSettled fst snd];
    (split; [intros vError; discriminate|]);
    (split; [split; [try discriminate; intros _; eexists; eauto
                    |intros [vError [Hrejected|Hrejected]];
                     try discriminate; reflexivity]|]);
    (split; [|reflexivity]); intros [a b]; cbn [editableAsSibling editableAsChild];
    (split; [try discriminate; intros [= <- <-]; now split
            |intros [Ha Hb]; try discriminate; congruence]).
Qed.

End Facts.
End EditableFacts.

(* ================================================================== *)
(** * The text of a menu item: when it names the kind of control *)
(* ================================================================== *)

Module TextFacts.
Import Js AdditionalElementsPlugin AdditionalElementsText.

Lemma nonDuplicateNames_known (aNames _aNames : list string) :
  Forall (fun sName => existsb (String.eqb sName) _aNames = true) aNames ->
  nonDuplicateNames _aNames aNames = _aNames.
Proof.
  induction 1 as [|sName aRest Hknown _ IH]; cbn [nonDuplicateNames]; [reflexivity|].
  now rewrite Hknown.
Qed.

Lemma nonDuplicateNames_grows (aNames : list string) :
  forall _aNames,
    exists aMore, nonDuplicateNames _aNames aNames = (_aNames ++ aMore)%list
                  /\ (aMore = []
                      -> Forall (fun sName => existsb (String.eqb sName) _aNames = true)
                           aNames).
Proof.
  induction aNames as [|sName aRest IH]; intros _aNames; cbn [nonDuplicateNames].
  - exists []. split; [now rewrite app_nil_r|constructor].
  - destruct (existsb (String.eqb sName) _aNames) eqn:Hknown.
    + destruct (IH _aNames) as (aMore & -> & Hmore). exists aMore.
      split; [reflexivity|]. intros Hnil. constructor; [exact Hknown|now apply Hmore].
    + destruct (IH (_aNames ++ [sName])%list) as (aMore & -> & _).
      exists (sName :: aMore). rewrite <- app_assoc. split; [reflexivity|discriminate].
Qed.

(** The names without duplicates are one name exactly when there is a
    name and all the names are this one. *)
Lemma nonDuplicateNames_one (aNames : list string) (sName : string) :
  nonDuplicateNames [] aNames = [sName]
  <-> exists aRest, aNames = sName :: aRest
                    /\ forallb (String.eqb sName) aRest = true.
Proof.
  destruct aNames as [|sFirst aRest].
  { split; [discriminate|]. now intros (aRest & Hnil & _). }
  change (nonDuplicateNames [] (sFirst :: aRest))
    with (nonDuplicateNames [sFirst] aRest).
  destruct (nonDuplicateNames_grows aRest [sFirst]) as (aMore & Hgrows & Hmore).
  rewrite Hgrows. cbn [app]. split.
  - intros [= -> ->]. exists aRest. split; [reflexivity|].
    apply forallb_forall. intros sOther Hin.
    pose proof (proj1 (Forall_forall _ _) (Hmore eq_refl) sOther Hin) as Hknown.
    cbn [existsb] in Hknown. rewrite orb_false_r in Hknown.
    now rewrite String.eqb_sym.
  - intros (aSame & [= -> <-] & Hsame).
    assert (Hknown : Forall (fun sOther => existsb (String.eqb sOther) [sName] = true)
                       aRest).
    { apply Forall_forall. intros sOther Hin. cbn [existsb]. rewrite orb_false_r.
      rewrite String.eqb_sym. exact (proj1 (forallb_forall _ _) Hsame sOther Hin). }
    rewrite (nonDuplicateNames_known _ _ Hknown) in Hgrows.
    change [sName] with ([sName] ++ [])%list in Hgrows at 1.
    apply app_inv_head in Hgrows. now rewrite <- Hgrows.
Qed.

Section Facts.
Variable getText : string -> list string -> string.

(** X29. The text of [_getText] names a kind of control exactly when names
    were collected and all of them are the same; otherwise it takes the
    name of the control that was passed, if it is not empty, and the text
    for several kinds of controls if it is. *)
Theorem getText_control_type (sRtaTextKey : string) (mActions : TextActions)
    (oParentElement : option Element) (bSingular : bool)
    (sControlName : option string) :
  _getText getText sRtaTextKey mActions oParentElement bSingular sControlName
  = cbind (collectNames mActions oParentElement bSingular)
      (fun aNames =>
         Return (getText sRtaTextKey
                   [match aNames with
                    | sName :: aRest =>
                        if forallb (String.eqb sName) aRest then sName
                        else match sControlName with
                             | Some (String c s) => String c s
                             | _ => getText "MULTIPLE_CONTROL_NAME" []
                             end
                    | [] => match sControlName with
                            | Some (String c s) => String c s
                            | _ => getText "MULTIPLE_CONTROL_NAME" []
                            end
                    end])).
Proof.
  unfold _getText.
  destruct (collectNames mActions oParentElement bSingular) as [e|aNames];
    cbn [cbind]; [reflexivity|].
  do 3 f_equal.
  destruct aNames as [|sName aRest]; [reflexivity|].
  destruct (forallb (String.eqb sName) aRest) eqn:Hsame.
  - assert (Hone : nonDuplicateNames [] (sName :: aRest) = [sName]).
    { apply nonDuplicateNames_one. now exists aRest. }
    now rewrite Hone.
  - destruct (nonDuplicateNames [] (sName :: aRest)) as [|sOne [|sTwo aMore]] eqn:Hnames;
      try reflexivity.
    apply nonDuplicateNames_one in Hnames as (aSame & [= -> <-] & Hall).
    congruence.
Qed.

End Facts.
End TextFacts.

(* ================================================================== *)
(** * The form, once more *)
(* ================================================================== *)

Module WorkbenchChecks.
Import Js AdditionalElementsPlugin AdditionalElementsCommands AdditionalElementsMenu.
Import AdditionalElementsElements AdditionalElementsEditable.
Import RevealSpec CommandsSpec Workbench WorkbenchAnalyzer.

Lemma getActions_again_witness :
  let st' := snd (@_getActions framework false oFormOverlay true noStore) in
  @_getActions framework false oFormOverlay true noStore = (Fulfilled mFormActions, st')
  /\ @_getActions framework false oFormOverlay false st' = (Fulfilled mFormActions, st')
  /\ _getActionsOrUndef false oFormOverlay st' = Some mFormActions.
Proof.
  intros st'.
  assert (Hactions : @_getActions framework false oFormOverlay true noStore
                     = (Fulfilled mFormActions, st')) by reflexivity.
  split; [exact Hactions|].
  exact (@ActionsFacts.getActions_again framework false oFormOverlay true noStore st'
           mFormActions Hactions).
Defined.

Lemma getActions_other_relation_empty_witness :
  let st' := snd (@_getActions framework false oFormOverlay true noStore) in
  noStore (getOverlayId oFormOverlay) = None
  /\ @_getActions framework false oFormOverlay true noStore = (Fulfilled mFormActions, st')
  /\ @_getActions framework true oFormOverlay false st' = (Fulfilled [], st').
Proof.
  intros st'.
  assert (Hactions : @_getActions framework false oFormOverlay true noStore
                     = (Fulfilled mFormActions, st')) by reflexivity.
  split; [reflexivity|]. split; [exact Hactions|].
  exact (@ActionsFacts.getActions_other_relation_empty framework false oFormOverlay true
           noStore st' mFormActions eq_refl Hactions).
Defined.

Lemma getInvisibleElements_filter_witness :
  @_getInvisibleElements framework oFormOverlay "content" = Return [oCity; oZip]
  /\ [oCity; oZip]
     = filter (@countsAsInvisible framework oFormOverlay) [oName; oCity; oZip].
Proof.
  assert (Hinvisible : @_getInvisibleElements framework oFormOverlay "content"
                       = Return [oCity; oZip]) by reflexivity.
  split; [exact Hinvisible|].
  exact (@ActionsFacts.getInvisibleElements_filter framework oFormOverlay "content"
           [oCity; oZip] Hinvisible).
Defined.

Lemma reveal_entry_complete_witness :
  @invisibleElementsOf framework [Some oFormOverlay] "content" = Return [oCity; oZip]
  /\ filter (@revealable framework) [oCity; oZip] = [oCity]
  /\ exists mReveal' mReveal,
       @_getRevealActionFromAggregations framework [Some oFormOverlay] [] "content"
       = Fulfilled mReveal'
       /\ actionsOf "content" mReveal'
          = Some {| reveal := Some mReveal; addViaDelegate := None;
                    addViaCustom := None |}
       /\ map element (elements mReveal) = [oCity].
Proof.
  assert (Hinvisible : @invisibleElementsOf framework [Some oFormOverlay] "content"
                       = Return [oCity; oZip]) by reflexivity.
  split; [exact Hinvisible|]. split; [reflexivity|].
  destruct (@_getRevealActionFromAggregations framework [Some oFormOverlay] []
              "content") as [|e|mReveal'] eqn:Hreveal; try discriminate Hreveal.
  exists mReveal'.
  destruct (@ActionsFacts.reveal_entry_complete framework [Some oFormOverlay] []
              mReveal' "content" [oCity; oZip] Hinvisible Hreveal)
    as (mReveal & Hentry & Helements).
  now exists mReveal.
Defined.

Lemma isEnabled_true_only_if_witness :
  @isEnabled framework oPluginWithElements false [oFormOverlay] (Some "content")
  = Return true
  /\ List.length [oFormOverlay] <= 1
  /\ exists oCachedElements,
       getCachedElements oPluginWithElements false = Some oCachedElements
       /\ oCachedElements <> [].
Proof.
  assert (Henabled : @isEnabled framework oPluginWithElements false [oFormOverlay]
                       (Some "content") = Return true) by reflexivity.
  split; [exact Henabled|].
  destruct (@MenuFacts.isEnabled_true_only_if framework oPluginWithElements false
              [oFormOverlay] (Some "content") Henabled)
    as (Hone & [Hcached|[oInfo Hinfo]] & _).
  - split; [exact Hone|exact Hcached].
  - split; [exact Hone|]. exists aContentElements. split; [reflexivity|discriminate].
Defined.

Lemma isEnabled_child_needs_actions_witness :
  @getResponsibleElementOverlay framework (Some oFormOverlay) = Return oFormOverlay
  /\ @isEnabled framework oPlugin false [oFormOverlay] (Some "content")
     = Throw TypeError
  /\ exists bEnabled,
       @isEnabled framework oPluginWithElements false [oFormOverlay] (Some "content")
       = Return bEnabled.
Proof.
  split; [reflexivity|]. split.
  - exact (proj2 (proj1 (@MenuFacts.isEnabled_child_needs_actions framework oPlugin
                           oFormOverlay oFormOverlay (Some "content") eq_refl))
             eq_refl).
  - exact (proj2 (@MenuFacts.isEnabled_child_needs_actions framework
                    oPluginWithElements oFormOverlay oFormOverlay (Some "content")
                    eq_refl) false true noStore mFormActions eq_refl).
Defined.

Lemma buildSubmenuItems_items_witness :
  exists aSubMenuItems,
    _buildSubmenuItems enhanceItemWithResponsibleElement false [oFormOverlay]
      aContentElements = Return aSubMenuItems
    /\ List.length aSubMenuItems = 1.
Proof.
  destruct (_buildSubmenuItems enhanceItemWithResponsibleElement false [oFormOverlay]
              aContentElements) as [e|aSubMenuItems] eqn:Hitems;
    [discriminate Hitems|].
  exists aSubMenuItems. split; [reflexivity|].
  exact (proj1 (MenuFacts.buildSubmenuItems_items enhanceItemWithResponsibleElement
                  false [oFormOverlay] aContentElements aSubMenuItems Hitems)).
Defined.

Lemma createCommands_selection_order_witness :
  Permutation [mCity; mPhone] [mPhone; mCity]
  /\ NoDup (map label [mCity; mPhone])
  /\ @_createCommands framework services [mPhone; mCity] mFormParents None
       (Some mContentActions) None
     = @_createCommands framework services [mCity; mPhone] mFormParents None
         (Some mContentActions) None.
Proof.
  assert (Hperm : Permutation [mCity; mPhone] [mPhone; mCity]) by apply perm_swap.
  assert (Hdistinct : NoDup (map label [mCity; mPhone])).
  { repeat constructor; simpl; intuition discriminate. }
  split; [exact Hperm|]. split; [exact Hdistinct|].
  exact (@CommandsFacts.createCommands_selection_order framework services
           [mCity; mPhone] [mPhone; mCity] mFormParents None (Some mContentActions) None
           Hperm Hdistinct).
Defined.

Lemma createCommands_untreated_types_witness :
  [mSeparator] <> []
  /\ Forall (fun oSelectedElement => SelectionSpec.treated oSelectedElement = false)
       [mSeparator]
  /\ exists oEvent,
       @_createCommands framework services [mSeparator] mFormParents None None None
       = Fulfilled (Some oEvent)
       /\ @commands services oEvent = [].
Proof.
  assert (Hselected : [mSeparator] <> []) by discriminate.
  assert (Huntreated : Forall (fun oSelectedElement =>
                                 SelectionSpec.treated oSelectedElement = false)
                         [mSeparator]).
  { constructor; [reflexivity|constructor]. }
  split; [exact Hselected|]. split; [exact Huntreated|].
  rewrite (@CommandsFacts.createCommands_untreated_types framework services
             [mSeparator] mFormParents None None None Hselected Huntreated).
  eexists. split; reflexivity.
Defined.

Lemma getRevealDataFromActions_last_witness :
  reveal (actions mTwiceActions)
  = Some {| elements := [mRevealCity; mRevealCityAgain]; controlTypeNames := [mField] |}
  /\ _getRevealDataFromActions (Some mTwiceActions) (Some oCity)
     = Return (Some mRevealCityAgain)
  /\ _getRevealDataFromActions (Some mTwiceActions) None = Throw TypeError.
Proof.
  split; [reflexivity|].
  destruct (CommandsFacts.getRevealDataFromActions_last mTwiceActions _ eq_refl)
    as [Hlast Hnone].
  split; [exact (Hlast oCity)|exact Hnone].
Defined.

Lemma getAllElements_again_witness :
  @AdditionalElementsElements.getAllElements framework analyzer oPlugin false
    oFormOverlay = Return (Fulfilled aContentElements, oPluginWithElements)
  /\ getCachedElements oPluginWithElements false = Some aContentElements
  /\ @AdditionalElementsElements.getAllElements framework analyzer oPluginWithElements
       false oFormOverlay = Return (Fulfilled aContentElements, oPluginWithElements).
Proof.
  assert (Hall : @AdditionalElementsElements.getAllElements framework analyzer oPlugin
                   false oFormOverlay
                 = Return (Fulfilled aContentElements, oPluginWithElements))
    by reflexivity.
  split; [exact Hall|].
  exact (@ElementsFacts.getAllElements_again framework analyzer oPlugin
           oPluginWithElements false oFormOverlay aContentElements Hall).
Defined.

Lemma getAllElements_aggregations_witness :
  getCachedElements oPlugin false = None
  /\ @AdditionalElementsElements.getAllElements framework analyzer oPlugin false
       oFormOverlay = Return (Fulfilled aContentElements, oPluginWithElements)
  /\ Forall (fun oElements => aggregationElements oElements <> []) aContentElements.
Proof.
  assert (Hall : @AdditionalElementsElements.getAllElements framework analyzer oPlugin
                   false oFormOverlay
                 = Return (Fulfilled aContentElements, oPluginWithElements))
    by reflexivity.
  split; [reflexivity|]. split; [exact Hall|].
  exact (proj1 (@ElementsFacts.getAllElements_aggregations framework analyzer oPlugin
                  oPluginWithElements false oFormOverlay aContentElements eq_refl
                  Hall)).
Defined.

Lemma getAllElements_other_relation_witness :
  @AdditionalElementsElements.getAllElements framework analyzer oPlugin false
    oFormOverlay = Return (Fulfilled aContentElements, oPluginWithElements)
  /\ getCachedElements oPluginWithElements true = getCachedElements oPlugin true
  /\ getExtensibilityInfo oPluginWithElements true = getExtensibilityInfo oPlugin true.
Proof.
  assert (Hall : @AdditionalElementsElements.getAllElements framework analyzer oPlugin
                   false oFormOverlay
                 = Return (Fulfilled aContentElements, oPluginWithElements))
    by reflexivity.
  split; [exact Hall|].
  destruct (@ElementsFacts.getAllElements_other_relation framework analyzer oPlugin
              oPluginWithElements false oFormOverlay (Fulfilled aContentElements) Hall)
    as (Hcached & Hinfo & _).
  split; [exact Hcached|exact Hinfo].
Defined.

Lemma isEnabled_without_elements_witness :
  exists st',
    @AdditionalElementsElements.getAllElements framework analyzer oPlugin true
      oFormOverlay = Return (Fulfilled [], st')
    /\ getExtensibilityInfo st' true = None
    /\ @isEnabled framework st' true [oFormOverlay] None <> Return true.
Proof.
  eexists. split; [reflexivity|]. split; [reflexivity|].
  exact (@ElementsFacts.isEnabled_without_elements framework analyzer oPlugin _ true
           oFormOverlay eq_refl eq_refl [oFormOverlay] None).
Defined.

Lemma isEditableCheck_editable_witness :
  fst (@_isEditableCheck framework checks oFormOverlay false noStore)
  = Fulfilled (Some true)
  /\ @hasStableId framework (Some oFormOverlay) = true
  /\ exists mActions,
       _getActionsOrUndef false oFormOverlay
         (snd (@_isEditableCheck framework checks oFormOverlay false noStore))
       = Some mActions.
Proof.
  assert (Heditable : fst (@_isEditableCheck framework checks oFormOverlay false noStore)
                      = Fulfilled (Some true)) by reflexivity.
  split; [exact Heditable|].
  destruct (@EditableFacts.isEditableCheck_editable framework checks oFormOverlay false
              noStore Heditable)
    as (mParents & oContainer & mActions & _ & _ & Hstable & _ & _ & Hkept).
  split; [exact Hstable|]. now exists mActions.
Defined.

End WorkbenchChecks.
